(** * Task orchestration of the multi-agent coordinator

    A shallow embedding of [core/AgentCoordinator.js] and
    [agents/BaseAgent.js] (with the parts of the concrete agents the
    workflows call), and the properties of the orchestration engine
    checked against it. Around it: the threshold of [utils/Logger.js],
    the merge and the loading of [utils/ConfigManager.js], what the
    architect, the frontend agent and the debugger compute from the
    answers of the provider, and the requests that the two user
    interfaces build.

    The JavaScript runtime is modelled explicitly: every [await] is a
    suspension point, the suspended invocations of [executeTask] are kept
    in a table of frames, [setTimeout] callbacks in a list of timers, the
    events given to [emit] in a log, and [uuidv4()] is a counter.

    What is left to the environment: whether an agent can be constructed
    and set up, when an awaited call settles, how the calls that reach the
    AI provider or the file system end, and how time passes. What is left
    out: the text of the log lines, the static analysis of the debugger,
    what the user interfaces print, and the events they forward to their
    clients. *)

From stdpp Require Import gmap strings list fin_maps pretty sorting.
From Stdlib Require Import ZArith Lia.

Set Warnings "-register-all".

(* ===================================================================== *)
(** ** JavaScript values, truthiness and errors *)
(* ===================================================================== *)

Module Js.

(** The values the orchestration code tests or passes around. Numbers
    are the integers plus [NaN]; [Uuid n] is the string returned by the
    [n]-th call of [uuidv4()]. *)
Inductive value : Type :=
| Undefined
| Null
| Bool (b : bool)
| Num (n : Z)
| NaN
| Str (s : string)
| Uuid (n : nat)
| Arr (items : list value)
| Obj (fields : list (string * value)).

(** [!!v]: what [if (v)], [!v], [a || b] and [a && b] test. *)
Definition truthy (v : value) : bool :=
  match v with
  | Undefined | Null | NaN => false
  | Bool b => b
  | Num n => negb (n =? 0)%Z
  | Str s => negb (String.eqb s "")
  | Uuid _ | Arr _ | Obj _ => true
  end.

(** [v === undefined || v === null]: reading a property of such a value
    throws a [TypeError]. *)
Definition nullish (v : value) : bool :=
  match v with
  | Undefined | Null => true
  | _ => false
  end.

(** [a || b] *)
Definition or_else (a b : value) : value := if truthy a then a else b.

Fixpoint assoc (k : string) (fields : list (string * value)) : value :=
  match fields with
  | [] => Undefined
  | (k', v) :: rest => if String.eqb k k' then v else assoc k rest
  end.

(** [v.k] for a value that is not nullish and a key [k] that no built-in
    prototype defines (all the keys read in this development are such):
    the own property of an object, [undefined] otherwise. *)
Definition prop (v : value) (k : string) : value :=
  match v with
  | Obj fields => assoc k fields
  | _ => Undefined
  end.

(** [o[k] = v] on the property list of an object: an existing key keeps
    its place, a new key is added last (the order of [Object.keys]). *)
Fixpoint set_field (k : string) (v : value) (fields : list (string * value))
  : list (string * value) :=
  match fields with
  | [] => [(k, v)]
  | (k', v') :: rest =>
      if String.eqb k k' then (k, v) :: rest
      else (k', v') :: set_field k v rest
  end.

(** [Object.keys(o)] *)
Definition keys (fields : list (string * value)) : list string :=
  map fst fields.

(** [v === 'lit'] *)
Definition is_str (v : value) (lit : string) : bool :=
  match v with
  | Str s => String.eqb s lit
  | _ => false
  end.

(** [v > k] for an integer literal [k], on values that are numbers. *)
Definition gt (v : value) (k : Z) : bool :=
  match v with
  | Num n => (k <? n)%Z
  | _ => false
  end.

(** [`${v}`]; an array shows its items joined by commas, [null] and
    [undefined] items as the empty string. *)
Fixpoint to_string (v : value) : string :=
  match v with
  | Undefined => "undefined"
  | Null => "null"
  | Bool true => "true"
  | Bool false => "false"
  | Num n => pretty n
  | NaN => "NaN"
  | Str s => s
  | Uuid n => "uuid-" +:+ pretty n
  | Arr items =>
      (fix join (l : list value) : string :=
         match l with
         | [] => ""
         | [x] => if nullish x then "" else to_string x
         | x :: rest =>
             (if nullish x then "" else to_string x) +:+ "," +:+ join rest
         end) items
  | Obj _ => "[object Object]"
  end.

(** The two error classes that occur: [new Error(msg)] thrown by the
    code itself and the [TypeError] the runtime throws. *)
Inductive error : Type :=
| Error (message : string)
| TypeError (message : string).

Definition message (e : error) : string :=
  match e with
  | Error m | TypeError m => m
  end.

(** How a call ends: [return v] / a resolved promise, or [throw e] / a
    rejected promise. *)
Inductive outcome : Type :=
| Ok (v : value)
| Throw (e : error).

(** [s.replace(pat, rep)] with a string pattern: the first occurrence. *)
Fixpoint replace (pat rep s : string) : string :=
  if String.prefix pat s
  then rep +:+ String.substring (String.length pat)
                 (String.length s - String.length pat) s
  else match s with
       | EmptyString => EmptyString
       | String c rest => String c (replace pat rep rest)
       end.

Definition lower_ascii (c : Ascii.ascii) : Ascii.ascii :=
  let n := Ascii.nat_of_ascii c in
  if (65 <=? n) && (n <=? 90) then Ascii.ascii_of_nat (n + 32) else c.

(** [s.toLowerCase()] on ASCII text. *)
Fixpoint toLowerCase (s : string) : string :=
  match s with
  | EmptyString => EmptyString
  | String c rest => String (lower_ascii c) (toLowerCase rest)
  end.

(** The names of the properties every object inherits from
    [Object.prototype]. *)
Definition Object_prototype : list string :=
  ["constructor"; "__defineGetter__"; "__defineSetter__"; "hasOwnProperty";
   "__lookupGetter__"; "__lookupSetter__"; "isPrototypeOf";
   "propertyIsEnumerable"; "toString"; "valueOf"; "__proto__";
   "toLocaleString"].

(** [typeof v === 'object'] *)
Definition typeof_object (v : value) : bool :=
  match v with
  | Null | Arr _ | Obj _ => true
  | _ => false
  end.

(** [Array.isArray(v)] *)
Definition isArray (v : value) : bool :=
  match v with
  | Arr _ => true
  | _ => false
  end.

(** The items of an array under their indices, from index [i] on. *)
Fixpoint indexed (i : nat) (items : list value)
  : list (string * value) :=
  match items with
  | [] => []
  | x :: rest => (pretty i, x) :: indexed (S i) rest
  end.

(** The characters of a string (of ASCII text), each a string. *)
Fixpoint chars (s : string) : list value :=
  match s with
  | EmptyString => []
  | String c rest => Str (String c EmptyString) :: chars rest
  end.

(** The enumerable properties of its own that a value has, which
    [{...v}] copies and [for (key in v)] lists: the fields of an object,
    the items of an array and the characters of a string under their
    indices, none for the other values (nor for a uuid, whose text is
    not modelled). *)
Definition own (v : value) : list (string * value) :=
  match v with
  | Obj fields => fields
  | Arr items => indexed 0 items
  | Str s => indexed 0 (chars s)
  | _ => []
  end.

(** [v[k]] for a property of its own. *)
Definition get (v : value) (k : string) : value := assoc k (own v).

(** [v[k1][k2]...], [undefined] below a value without the property. *)
Definition at_path (v : value) (path : list string) : value :=
  fold_left get path v.


End Js.

(* ===================================================================== *)
(** ** Events on the coordinator's event bus *)
(* ===================================================================== *)

(** The payloads of [this.emit(name, payload)], one constructor per event
    name ([initialized_] is the event ['initialized'], which has none).
    [agentTaskCompleted] and [agentError] are emitted by the agents, the
    others by the coordinator. *)
Inductive event : Type :=
| initialized_
| taskProgress (taskId : nat) (progress : nat)
| taskCompleted (taskId : nat) (result : Js.value)
| taskFailed (taskId : nat) (error : Js.error)
| agentTaskCompleted (agentName : string) (taskId : Js.value) (result : Js.value)
| agentError (agentName : string) (taskId : Js.value) (error : string).

(* ===================================================================== *)
(** ** agents/BaseAgent.js and the concrete agent classes *)
(* ===================================================================== *)

Module BaseAgent.

(** The eight subclasses of [BaseAgent]. *)
Inductive agent_class : Type :=
| ProjectArchitectAgent
| FrontendDeveloperAgent
| BackendDeveloperAgent
| DatabaseDesignerAgent
| DevOpsAgent
| QATestingAgent
| DebugDetectiveAgent
| CodeReviewerAgent.

(** [this.constructor.name] *)
Definition class_name (c : agent_class) : string :=
  match c with
  | ProjectArchitectAgent => "ProjectArchitectAgent"
  | FrontendDeveloperAgent => "FrontendDeveloperAgent"
  | BackendDeveloperAgent => "BackendDeveloperAgent"
  | DatabaseDesignerAgent => "DatabaseDesignerAgent"
  | DevOpsAgent => "DevOpsAgent"
  | QATestingAgent => "QATestingAgent"
  | DebugDetectiveAgent => "DebugDetectiveAgent"
  | CodeReviewerAgent => "CodeReviewerAgent"
  end.

(** The fields of an agent instance the orchestration reads or writes. *)
Record agent : Type := {
  class : agent_class;
  name : string;
  initialized : bool;
  busy : bool;
  currentTask : Js.value
}.

(** [constructor(options)]:
    [this.name = this.constructor.name.replace('Agent', '').toLowerCase()]. *)
Definition new (c : agent_class) : agent :=
  {| class := c;
     name := Js.toLowerCase (Js.replace "Agent" "" (class_name c));
     initialized := false;
     busy := false;
     currentTask := Js.Null |}.

(** [initialize()] when [setup()] succeeds. *)
Definition initialize (a : agent) : agent :=
  {| class := class a; name := name a; initialized := true;
     busy := busy a; currentTask := currentTask a |}.

Definition occupy (task : Js.value) (a : agent) : agent :=
  {| class := class a; name := name a; initialized := initialized a;
     busy := true; currentTask := task |}.

Definition release (a : agent) : agent :=
  {| class := class a; name := name a; initialized := initialized a;
     busy := false; currentTask := Js.Null |}.

(** The [TypeError] of reading property [k] of [undefined] or [null]. *)
Definition cannot_read (v : Js.value) (k : string) : Js.error :=
  Js.TypeError
    ("Cannot read properties of " +:+ Js.to_string v +:+
     " (reading '" +:+ k +:+ "')").

(** [validateTask(task)]: [None] when it returns [true]. [typeof task]
    is ['object'] for objects and arrays ([null] is caught by [!task]). *)
Definition validateTask (task : Js.value) : option Js.error :=
  match task with
  | Js.Obj _ | Js.Arr _ =>
      if Js.truthy (Js.prop task "type") then None
      else Some (Js.Error "Task type is required")
  | _ => Some (Js.Error "Invalid task object")
  end.

Definition unsupported (type : Js.value) : Js.error :=
  Js.Error ("Unsupported task type: " +:+ Js.to_string type).

(** *** The methods of the concrete agents

    A method that asks the AI provider or reads files has no outcome of
    its own: the environment supplies it ([reply]), and the model keeps
    only what the method does before that call. *)

(** [DatabaseDesignerAgent.designSchema(architecture, requirements)] *)
Definition designSchema : Js.value :=
  Js.Obj [("schema", Js.Obj []); ("migrations", Js.Arr []);
          ("files", Js.Arr [])].

(** [BackendDeveloperAgent.createProject(context)] *)
Definition backend_createProject : Js.value :=
  Js.Obj [("framework", Js.Str "express"); ("files", Js.Arr []);
          ("config", Js.Obj [])].

(** [QATestingAgent.setupTesting(context)] *)
Definition setupTesting : Js.value :=
  Js.Obj [("framework", Js.Str "jest"); ("tests", Js.Arr []);
          ("config", Js.Obj [])].

(** [FrontendDeveloperAgent.createProject(context)]:
    [const { architecture, requirements } = context;
     const framework = architecture.frontend || 'react'; ...]
    throws before it reaches the provider when [context] or
    [context.architecture] is [undefined] or [null]. *)
Definition frontend_createProject (context : Js.value) (reply : Js.outcome)
  : Js.outcome :=
  if Js.nullish context then
    Js.Throw (Js.TypeError
      ("Cannot destructure property 'architecture' of 'context' as it is "
       +:+ Js.to_string context +:+ "."))
  else if Js.nullish (Js.prop context "architecture") then
    Js.Throw (cannot_read (Js.prop context "architecture") "frontend")
  else reply.

(** [DebugDetectiveAgent.analyzeCode(files, issueTypes)]: reads
    [files.length] first. *)
Definition analyzeCode (files : Js.value) (reply : Js.outcome) : Js.outcome :=
  if Js.nullish files then Js.Throw (cannot_read files "length") else reply.

(** [processTask(task)] of each class. *)
Definition processTask (c : agent_class) (task : Js.value)
    (reply : Js.outcome) : Js.outcome :=
  match validateTask task with
  | Some e => Js.Throw e
  | None =>
      let type := Js.prop task "type" in
      match c with
      | ProjectArchitectAgent =>
          if Js.is_str type "design_architecture"
             || Js.is_str type "review_architecture"
             || Js.is_str type "suggest_improvements"
          then reply else Js.Throw (unsupported type)
      | FrontendDeveloperAgent =>
          if Js.is_str type "create_project"
          then frontend_createProject (Js.prop task "context") reply
          else Js.Throw (unsupported type)
      | BackendDeveloperAgent => Js.Ok backend_createProject
      | DatabaseDesignerAgent => Js.Ok designSchema
      | DevOpsAgent =>
          Js.Ok (Js.Obj [("deployment", Js.Str "configured");
                         ("files", Js.Arr [])])
      | QATestingAgent => Js.Ok setupTesting
      | DebugDetectiveAgent =>
          if Js.is_str type "analyze_code"
          then analyzeCode (Js.prop task "files") reply
          else if Js.is_str type "generate_fixes"
                  || Js.is_str type "analyze_file"
          then reply else Js.Throw (unsupported type)
      | CodeReviewerAgent =>
          Js.Ok (Js.Obj [("review", Js.Str "completed");
                         ("suggestions", Js.Arr [])])
      end
  end.

(** *** [executeTask(task)]

    The method has one [await], on [this.processTask(task)], so it runs
    in two parts. *)

(** Up to the [await]. A busy agent throws before the [try]; a task that
    is [undefined] or [null] throws inside it when [task.type] is read
    for the log line, again in the [catch] when [task.id] is read, and
    the [finally] clears the flag: nothing was awaited or emitted. *)
Inductive entered : Type :=
| Rejected (e : Js.error)
| Awaiting (a : agent).

Definition executeTask_enter (a : agent) (task : Js.value) : entered :=
  if busy a then
    Rejected (Js.Error (name a +:+ " agent is currently busy"))
  else if Js.nullish task then Rejected (cannot_read task "id")
  else Awaiting (occupy task a).

(** From the [await] on, given how [processTask] ended: the event given
    to [this.coordinator.emit], the agent after the [finally], and what
    the caller receives. *)
Definition executeTask_resume (a : agent) (o : Js.outcome)
  : agent * event * Js.outcome :=
  let taskId := Js.prop (currentTask a) "id" in
  match o with
  | Js.Ok result =>
      (release a, agentTaskCompleted (name a) taskId result, Js.Ok result)
  | Js.Throw e =>
      (release a, agentError (name a) taskId (Js.message e), Js.Throw e)
  end.

End BaseAgent.


(* ===================================================================== *)
(** ** core/AgentCoordinator.js: data *)
(* ===================================================================== *)

(** The argument of [executeTask], an object: the three properties it
    reads, a missing one being [undefined]. *)
Module Request.
Record t : Type := {
  type : Js.value;
  description : Js.value;
  requirements : Js.value
}.
End Request.

(** The task record built by [executeTask]. [status] holds the strings the
    code assigns; [result], [error] and [completedAt] are absent until
    they are assigned. *)
Module Task.
Record t : Type := {
  id : nat;
  type : Js.value;
  description : Js.value;
  requirements : Js.value;
  agents : list string;
  status : string;
  createdAt : N;
  progress : nat;
  results : list (string * Js.value);
  errors : list Js.value;
  result : option Js.value;
  error : option string;
  completedAt : option N
}.

(** [task.progress = p] *)
Definition set_progress (p : nat) (k : t) : t :=
  {| id := id k; type := type k; description := description k;
     requirements := requirements k; agents := agents k;
     status := status k; createdAt := createdAt k; progress := p;
     results := results k; errors := errors k; result := result k;
     error := error k; completedAt := completedAt k |}.

(** [task.status = 'completed'; task.completedAt = new Date();
     task.result = result] *)
Definition complete (at_ : N) (r : Js.value) (k : t) : t :=
  {| id := id k; type := type k; description := description k;
     requirements := requirements k; agents := agents k;
     status := "completed"; createdAt := createdAt k;
     progress := progress k; results := results k; errors := errors k;
     result := Some r; error := error k; completedAt := Some at_ |}.

(** [task.status = 'failed'; task.error = error.message;
     task.completedAt = new Date()] *)
Definition fail (at_ : N) (e : Js.error) (k : t) : t :=
  {| id := id k; type := type k; description := description k;
     requirements := requirements k; agents := agents k;
     status := "failed"; createdAt := createdAt k;
     progress := progress k; results := results k; errors := errors k;
     result := result k; error := Some (Js.message e);
     completedAt := Some at_ |}.
End Task.

(** A value of the [this.agents] map. *)
Module Entry.
Record error_record : Type := {
  timestamp : N;
  error : string;
  taskId : Js.value
}.

Record t : Type := {
  instance : BaseAgent.agent;
  description : string;
  status : string;
  currentTask : Js.value;
  completedTasks : nat;
  errors : list error_record
}.

Definition set_instance (a : BaseAgent.agent) (e : t) : t :=
  {| instance := a; description := description e; status := status e;
     currentTask := currentTask e; completedTasks := completedTasks e;
     errors := errors e |}.

(** The [agentError] handler: [agent.errors.push({...})]. *)
Definition push_error (r : error_record) (e : t) : t :=
  {| instance := instance e; description := description e;
     status := status e; currentTask := currentTask e;
     completedTasks := completedTasks e; errors := errors e ++ [r] |}.

(** The [agentTaskCompleted] handler: [agent.completedTasks++;
    agent.currentTask = null; agent.status = 'ready']. *)
Definition task_completed (e : t) : t :=
  {| instance := instance e; description := description e;
     status := "ready"; currentTask := Js.Null;
     completedTasks := S (completedTasks e); errors := errors e |}.
End Entry.

(** The object returned by [getStatus()]. *)
Module Status.
Record agent_status : Type := {
  status : string;
  completedTasks : nat;
  currentTask : Js.value;
  errors : nat
}.

Record t : Type := {
  initialized : bool;
  agents : gmap string agent_status;
  runningTasks : nat;
  queuedTasks : nat
}.
End Status.

(** One [if] block of [executeCreateProjectWorkflow]: the agent looked up
    in the registry, the property of [requirements] tested with it (none
    for the first and the last block), the key of [context] assigned, the
    value given to [task.progress], and the method called. *)
Module Stage.
Inductive method : Type :=
| designArchitecture
| designSchema
| backend_createProject
| frontend_createProject
| setupTesting.

Record t : Type := {
  agent : string;
  flag : option string;
  key : string;
  checkpoint : nat;
  call : method
}.
End Stage.

Module Coordinator.

(** What a suspended invocation of [executeTask] is waiting for. The
    [await]s on the coordinator's own [async] methods are folded into
    one: when a workflow method has returned or thrown, [executeTask]
    is still suspended on [await this.executeTaskWorkflow(task)] and
    resumes in a later turn ([awaiting_workflow]). *)
Inductive frame : Type :=
| awaiting_stage (requirements : Js.value) (st : Stage.t)
    (rest : list Stage.t) (context : list (string * Js.value))
| awaiting_analyzeCode (files : Js.value)
| awaiting_generateFixes (analysis : Js.value)
| awaiting_workflow (o : Js.outcome).

(** The coordinator object (the first six fields) and the part of the
    runtime it lives in: the clock in milliseconds, the number of uuids
    drawn, the pending [setTimeout] callbacks (due time and the task id
    whose record they delete), the suspended [executeTask] invocations
    by task id, the settled promises of [executeTask] by task id and of
    [BaseAgent.executeTask] by registry key (oldest first), and the
    events emitted (oldest first). *)
Record state : Type := {
  agents : gmap string Entry.t;
  runningTasks : gmap nat Task.t;
  taskQueue : list Request.t;
  initialized : bool;
  maxConcurrentTasks : Z;
  taskTimeout : Z;
  now : N;
  uuids : nat;
  timers : list (N * nat);
  frames : gmap nat frame;
  promises : gmap nat Js.outcome;
  agent_promises : list (string * Js.outcome);
  emitted : list event
}.

Definition upd_agents (f : gmap string Entry.t → gmap string Entry.t)
    (s : state) : state :=
  {| agents := f (agents s); runningTasks := runningTasks s;
     taskQueue := taskQueue s; initialized := initialized s;
     maxConcurrentTasks := maxConcurrentTasks s;
     taskTimeout := taskTimeout s; now := now s; uuids := uuids s;
     timers := timers s; frames := frames s; promises := promises s;
     agent_promises := agent_promises s; emitted := emitted s |}.

Definition upd_runningTasks (f : gmap nat Task.t → gmap nat Task.t)
    (s : state) : state :=
  {| agents := agents s; runningTasks := f (runningTasks s);
     taskQueue := taskQueue s; initialized := initialized s;
     maxConcurrentTasks := maxConcurrentTasks s;
     taskTimeout := taskTimeout s; now := now s; uuids := uuids s;
     timers := timers s; frames := frames s; promises := promises s;
     agent_promises := agent_promises s; emitted := emitted s |}.

Definition set_taskQueue (q : list Request.t) (s : state) : state :=
  {| agents := agents s; runningTasks := runningTasks s;
     taskQueue := q; initialized := initialized s;
     maxConcurrentTasks := maxConcurrentTasks s;
     taskTimeout := taskTimeout s; now := now s; uuids := uuids s;
     timers := timers s; frames := frames s; promises := promises s;
     agent_promises := agent_promises s; emitted := emitted s |}.

Definition set_initialized (b : bool) (s : state) : state :=
  {| agents := agents s; runningTasks := runningTasks s;
     taskQueue := taskQueue s; initialized := b;
     maxConcurrentTasks := maxConcurrentTasks s;
     taskTimeout := taskTimeout s; now := now s; uuids := uuids s;
     timers := timers s; frames := frames s; promises := promises s;
     agent_promises := agent_promises s; emitted := emitted s |}.

Definition set_now (t : N) (s : state) : state :=
  {| agents := agents s; runningTasks := runningTasks s;
     taskQueue := taskQueue s; initialized := initialized s;
     maxConcurrentTasks := maxConcurrentTasks s;
     taskTimeout := taskTimeout s; now := t; uuids := uuids s;
     timers := timers s; frames := frames s; promises := promises s;
     agent_promises := agent_promises s; emitted := emitted s |}.

(** [uuidv4()]: the value is the number of uuids drawn before. *)
Definition draw_uuid (s : state) : state :=
  {| agents := agents s; runningTasks := runningTasks s;
     taskQueue := taskQueue s; initialized := initialized s;
     maxConcurrentTasks := maxConcurrentTasks s;
     taskTimeout := taskTimeout s; now := now s; uuids := S (uuids s);
     timers := timers s; frames := frames s; promises := promises s;
     agent_promises := agent_promises s; emitted := emitted s |}.

Definition set_timers (l : list (N * nat)) (s : state) : state :=
  {| agents := agents s; runningTasks := runningTasks s;
     taskQueue := taskQueue s; initialized := initialized s;
     maxConcurrentTasks := maxConcurrentTasks s;
     taskTimeout := taskTimeout s; now := now s; uuids := uuids s;
     timers := l; frames := frames s; promises := promises s;
     agent_promises := agent_promises s; emitted := emitted s |}.

Definition upd_frames (f : gmap nat frame → gmap nat frame)
    (s : state) : state :=
  {| agents := agents s; runningTasks := runningTasks s;
     taskQueue := taskQueue s; initialized := initialized s;
     maxConcurrentTasks := maxConcurrentTasks s;
     taskTimeout := taskTimeout s; now := now s; uuids := uuids s;
     timers := timers s; frames := f (frames s); promises := promises s;
     agent_promises := agent_promises s; emitted := emitted s |}.

(** The promise returned by the [executeTask] call of task [taskId]
    settles with [o]. *)
Definition settle (taskId : nat) (o : Js.outcome) (s : state) : state :=
  {| agents := agents s; runningTasks := runningTasks s;
     taskQueue := taskQueue s; initialized := initialized s;
     maxConcurrentTasks := maxConcurrentTasks s;
     taskTimeout := taskTimeout s; now := now s; uuids := uuids s;
     timers := timers s; frames := frames s;
     promises := <[taskId := o]> (promises s);
     agent_promises := agent_promises s; emitted := emitted s |}.

(** The promise returned by [executeTask] of the agent registered under
    [key] settles with [o]. *)
Definition settle_agent (key : string) (o : Js.outcome) (s : state)
  : state :=
  {| agents := agents s; runningTasks := runningTasks s;
     taskQueue := taskQueue s; initialized := initialized s;
     maxConcurrentTasks := maxConcurrentTasks s;
     taskTimeout := taskTimeout s; now := now s; uuids := uuids s;
     timers := timers s; frames := frames s; promises := promises s;
     agent_promises := agent_promises s ++ [(key, o)];
     emitted := emitted s |}.

Definition log_event (e : event) (s : state) : state :=
  {| agents := agents s; runningTasks := runningTasks s;
     taskQueue := taskQueue s; initialized := initialized s;
     maxConcurrentTasks := maxConcurrentTasks s;
     taskTimeout := taskTimeout s; now := now s; uuids := uuids s;
     timers := timers s; frames := frames s; promises := promises s;
     agent_promises := agent_promises s; emitted := emitted s ++ [e] |}.

(** *** The registry *)

(** The table at the head of [initializeAgents]. *)
Definition agentClasses : list (string * BaseAgent.agent_class * string) :=
  [ ("architect", BaseAgent.ProjectArchitectAgent,
     "Designs application structure and architecture");
    ("frontend", BaseAgent.FrontendDeveloperAgent,
     "Creates UI/UX components and interfaces");
    ("backend", BaseAgent.BackendDeveloperAgent,
     "Builds APIs, databases, and server logic");
    ("database", BaseAgent.DatabaseDesignerAgent,
     "Optimizes data models and queries");
    ("devops", BaseAgent.DevOpsAgent,
     "Handles deployment and infrastructure");
    ("tester", BaseAgent.QATestingAgent,
     "Writes tests and ensures code quality");
    ("debugger", BaseAgent.DebugDetectiveAgent,
     "Finds and fixes bugs in existing code");
    ("reviewer", BaseAgent.CodeReviewerAgent,
     "Provides code quality feedback") ].

(** [initializeAgents()]: an agent whose constructor or [initialize()]
    throws is logged and left out of the map. [boots name] tells whether
    both succeed for the agent registered as [name]. *)
Definition initializeAgents (boots : string → bool) (s : state) : state :=
  fold_left
    (λ s cfg,
       let '(name, class, description) := cfg in
       if boots name then
         upd_agents
           (insert name
              {| Entry.instance := BaseAgent.initialize (BaseAgent.new class);
                 Entry.description := description;
                 Entry.status := "ready";
                 Entry.currentTask := Js.Null;
                 Entry.completedTasks := 0;
                 Entry.errors := [] |}) s
       else s)
    agentClasses s.

(** [parseInt(process.env.X) || dflt]: [None] is [NaN]. *)
Definition env_or (parsed : option Z) (dflt : Z) : Z :=
  match parsed with
  | Some n => if (n =? 0)%Z then dflt else n
  | None => dflt
  end.

(** [constructor(options)] *)
Definition new (MAX_CONCURRENT_AGENTS AGENT_TIMEOUT : option Z) : state :=
  {| agents := ∅; runningTasks := ∅; taskQueue := [];
     initialized := false;
     maxConcurrentTasks := env_or MAX_CONCURRENT_AGENTS 5;
     taskTimeout := env_or AGENT_TIMEOUT 300000;
     now := 0%N; uuids := 0; timers := []; frames := ∅; promises := ∅;
     agent_promises := []; emitted := [] |}.

(** [setupEventHandlers()]: the two listeners the coordinator registers
    on itself, as a function of the event emitted. Both are guarded by
    [this.agents.has(data.agentName)]. *)
Definition handle (e : event) (s : state) : state :=
  match e with
  | agentError agentName taskId error =>
      upd_agents
        (alter (Entry.push_error
                  {| Entry.timestamp := now s; Entry.error := error;
                     Entry.taskId := taskId |}) agentName) s
  | agentTaskCompleted agentName _ _ =>
      upd_agents (alter Entry.task_completed agentName) s
  | _ => s
  end.

(** [this.emit(name, payload)]: the listeners run at once. *)
Definition emit (e : event) (s : state) : state :=
  handle e (log_event e s).

(** [initialize()], the configuration being loaded. *)
Definition initialize (boots : string → bool) (s : state) : state :=
  if initialized s then s
  else emit initialized_ (set_initialized true (initializeAgents boots s)).

(** *** Admission *)

(** [validateTaskRequest(taskRequest)] *)
Definition validateTaskRequest (r : Request.t) : bool :=
  if negb (Js.truthy (Request.type r)) then false
  else if negb (Js.truthy (Request.description r)) then false
  else true.

(** [determineRequiredAgents(taskRequest)]: [agentMap[type] || []],
    the property key being the string form of [type] (the properties
    that [agentMap] inherits, such as [constructor], apart; the result is
    stored in the task and not read again). *)
Definition determineRequiredAgents (r : Request.t) : list string :=
  let k := Js.to_string (Request.type r) in
  if String.eqb k "create_project"
  then ["architect"; "frontend"; "backend"; "database"; "tester"]
  else if String.eqb k "debug_code" then ["debugger"; "reviewer"]
  else if String.eqb k "review_code" then ["reviewer"]
  else if String.eqb k "optimize_performance"
  then ["reviewer"; "backend"; "database"]
  else if String.eqb k "deploy_application" then ["devops"]
  else [].



(** *** Task bookkeeping *)

(** [task.progress = p; this.emit('taskProgress', ...)]. The task object
    is the one stored in [runningTasks]. *)
Definition progress_to (taskId p : nat) (s : state) : state :=
  emit (taskProgress taskId p)
    (upd_runningTasks (alter (Task.set_progress p) taskId) s).

Definition suspend (taskId : nat) (f : frame) (s : state) : state :=
  upd_frames (insert taskId f) s.

(** The [finally] of [executeTask]:
    [setTimeout(() => this.runningTasks.delete(taskId), 60000)]. *)
Definition finally_ (taskId : nat) (s : state) : state :=
  set_timers (timers s ++ [((now s + 60000)%N, taskId)]) s.

(** The [catch] of [executeTask], then its [finally]. *)
Definition catch_ (taskId : nat) (e : Js.error) (s : state) : state :=
  finally_ taskId
    (settle taskId (Js.Throw e)
       (emit (taskFailed taskId e)
          (upd_runningTasks (alter (Task.fail (now s) e) taskId) s))).

(** The statements of [executeTask] after the [await], then its
    [finally]. *)
Definition succeed (taskId : nat) (result : Js.value) (s : state) : state :=
  finally_ taskId
    (settle taskId (Js.Ok result)
       (emit (taskCompleted taskId result)
          (upd_runningTasks (alter (Task.complete (now s) result) taskId)
             s))).

(** *** The create-project workflow *)

Definition create_stages : list Stage.t :=
  [ {| Stage.agent := "architect"; Stage.flag := None;
       Stage.key := "architecture"; Stage.checkpoint := 20;
       Stage.call := Stage.designArchitecture |};
    {| Stage.agent := "database"; Stage.flag := Some "database";
       Stage.key := "database"; Stage.checkpoint := 35;
       Stage.call := Stage.designSchema |};
    {| Stage.agent := "backend"; Stage.flag := Some "backend";
       Stage.key := "backend"; Stage.checkpoint := 60;
       Stage.call := Stage.backend_createProject |};
    {| Stage.agent := "frontend"; Stage.flag := Some "frontend";
       Stage.key := "frontend"; Stage.checkpoint := 85;
       Stage.call := Stage.frontend_createProject |};
    {| Stage.agent := "tester"; Stage.flag := None;
       Stage.key := "testing"; Stage.checkpoint := 95;
       Stage.call := Stage.setupTesting |} ].

(** The condition of a stage's [if]:
    [requirements.flag && this.agents.has(agent)]. *)
Definition guard (registry : gmap string Entry.t) (requirements : Js.value)
    (st : Stage.t) : bool :=
  match Stage.flag st with
  | Some f => Js.truthy (Js.prop requirements f)
  | None => true
  end && bool_decide (is_Some (registry !! Stage.agent st)).

(** How the call of a stage ends, given the context it is called with
    and the environment's reply for the calls that depend on one. *)
Definition stage_outcome (m : Stage.method)
    (context : list (string * Js.value)) (reply : Js.outcome) : Js.outcome :=
  match m with
  | Stage.designArchitecture => reply
  | Stage.designSchema => Js.Ok BaseAgent.designSchema
  | Stage.backend_createProject => Js.Ok BaseAgent.backend_createProject
  | Stage.frontend_createProject =>
      BaseAgent.frontend_createProject (Js.Obj context) reply
  | Stage.setupTesting => Js.Ok BaseAgent.setupTesting
  end.

(** Where the workflow stops next: at the call of the first remaining
    stage whose condition holds, or at its end. *)
Inductive position : Type :=
| Suspended (st : Stage.t) (rest : list Stage.t)
    (context : list (string * Js.value))
| Returned (context : list (string * Js.value)).

Fixpoint advance (registry : gmap string Entry.t) (requirements : Js.value)
    (stages : list Stage.t) (context : list (string * Js.value))
  : position :=
  match stages with
  | [] => Returned context
  | st :: rest =>
      if guard registry requirements st then Suspended st rest context
      else advance registry requirements rest context
  end.

(** [collectGeneratedFiles(context)] *)
Definition collectGeneratedFiles (context : list (string * Js.value))
  : Js.value :=
  Js.Obj
    (fold_left
       (λ files key,
          let v := Js.assoc key context in
          if Js.truthy v && Js.truthy (Js.prop v "files")
          then Js.set_field key (Js.prop v "files") files else files)
       (Js.keys context) []).

(** [generateSetupInstructions(context)] *)
Definition generateSetupInstructions : Js.value :=
  Js.Arr [Js.Str "1. Install dependencies: npm install";
          Js.Str "2. Set up environment variables: cp .env.example .env";
          Js.Str "3. Initialize database (if applicable)";
          Js.Str "4. Start development server: npm run dev"].

(** [generateNextSteps(context)] *)
Definition generateNextSteps : Js.value :=
  Js.Arr [Js.Str "Review the generated code structure";
          Js.Str "Customize the configuration files";
          Js.Str "Add your specific business logic";
          Js.Str "Run tests to ensure everything works";
          Js.Str "Deploy to your preferred platform"].

(** The object returned by [executeCreateProjectWorkflow]. *)
Definition create_result (context : list (string * Js.value)) : Js.value :=
  Js.Obj [("projectId", Js.assoc "projectId" context);
          ("structure", Js.assoc "architecture" context);
          ("files", collectGeneratedFiles context);
          ("instructions", generateSetupInstructions);
          ("nextSteps", generateNextSteps)].

(** Run the workflow of task [taskId] to [pos]: suspend at a stage's
    call, or finish with [task.progress = 100], the event and the
    result. *)
Definition enter (taskId : nat) (requirements : Js.value) (pos : position)
    (s : state) : state :=
  match pos with
  | Suspended st rest context =>
      suspend taskId (awaiting_stage requirements st rest context) s
  | Returned context =>
      suspend taskId (awaiting_workflow (Js.Ok (create_result context)))
        (progress_to taskId 100 s)
  end.

(** [executeCreateProjectWorkflow(task)] up to its first [await]. *)
Definition executeCreateProjectWorkflow (taskId : nat) (task : Task.t)
    (s : state) : state :=
  let requirements := Task.requirements task in
  let context :=
    [("projectId", Js.Uuid (uuids s)); ("requirements", requirements)] in
  let s := draw_uuid s in
  enter taskId requirements
    (advance (agents s) requirements create_stages context) s.

(** *** The debug workflow *)

(** [DebugDetectiveAgent.getRecommendations(analysis)], for an
    [analysis] built by [analyzeCode] (an object with a [summary]). *)
Definition getRecommendations (analysis : Js.value) : Js.value :=
  let summary := Js.prop analysis "summary" in
  Js.Obj
    [("immediate",
      Js.Arr
        ((if Js.gt (Js.prop summary "securityIssues") 0
          then [Js.Str "Fix all security vulnerabilities"] else []) ++
         (if Js.gt (Js.prop summary "criticalIssues") 5
          then [Js.Str "Address critical bugs and errors"] else [])));
     ("shortTerm",
      Js.Arr [Js.Str "Set up automated testing";
              Js.Str "Implement code linting";
              Js.Str "Add error monitoring";
              Js.Str "Create debugging documentation"]);
     ("longTerm",
      Js.Arr [Js.Str "Establish code review processes";
              Js.Str "Implement continuous integration";
              Js.Str "Regular security audits";
              Js.Str "Performance monitoring setup"]);
     ("tools",
      Js.Arr [Js.Str "ESLint/Pylint for static analysis";
              Js.Str "SonarQube for code quality";
              Js.Str "Sentry for error tracking";
              Js.Str "Jest/PyTest for testing"])].

(** [executeDebugWorkflow(task)] up to its first [await]. *)
Definition executeDebugWorkflow (taskId : nat) (task : Task.t) (s : state)
  : state :=
  if negb (bool_decide (is_Some (agents s !! "debugger"))) then
    suspend taskId
      (awaiting_workflow (Js.Throw (Js.Error "Debug agent not available")))
      s
  else
    suspend taskId
      (awaiting_analyzeCode (Js.prop (Task.requirements task) "files")) s.

(** [executeDebugWorkflow] from the [await] on [analyzeCode] on. *)
Definition debug_result (analysis fixes : Js.value) : Js.value :=
  Js.Obj [("analysis", analysis); ("fixes", fixes);
          ("recommendations", getRecommendations analysis)].

(** *** Dispatch *)

(** The methods the class [AgentCoordinator] defines. *)
Definition methods : list string :=
  ["constructor"; "initialize"; "initializeAgents"; "executeTask";
   "executeTaskWorkflow"; "executeCreateProjectWorkflow";
   "executeDebugWorkflow"; "determineRequiredAgents";
   "validateTaskRequest"; "getStatus"; "setupEventHandlers";
   "startTaskProcessor"; "processTaskQueue"; "collectGeneratedFiles";
   "generateSetupInstructions"; "generateNextSteps"].

(** The [switch (task.type)] of [executeTaskWorkflow]: the method each
    [case] calls on [this]; [None] is the [default]. *)
Definition workflow_method (type : Js.value) : option string :=
  if Js.is_str type "create_project"
  then Some "executeCreateProjectWorkflow"
  else if Js.is_str type "debug_code" then Some "executeDebugWorkflow"
  else if Js.is_str type "review_code"
  then Some "executeCodeReviewWorkflow"
  else if Js.is_str type "optimize_performance"
  then Some "executeOptimizationWorkflow"
  else if Js.is_str type "deploy_application"
  then Some "executeDeploymentWorkflow"
  else None.

(** The workflow methods among [methods], by name. *)
Definition workflow_body (name : string)
  : option (nat → Task.t → state → state) :=
  if String.eqb name "executeCreateProjectWorkflow"
  then Some executeCreateProjectWorkflow
  else if String.eqb name "executeDebugWorkflow"
  then Some executeDebugWorkflow
  else None.

(** [await this[name](task)]: calling a property that is not defined
    throws a [TypeError]. *)
Definition call_workflow (name : string) (taskId : nat) (task : Task.t)
    (s : state) : state :=
  match workflow_body name with
  | Some body => body taskId task s
  | None =>
      suspend taskId
        (awaiting_workflow
           (Js.Throw (Js.TypeError ("this." +:+ name +:+ " is not a function"))))
        s
  end.

(** [executeTaskWorkflow(task)] up to its first [await]. *)
Definition executeTaskWorkflow (taskId : nat) (task : Task.t) (s : state)
  : state :=
  match workflow_method (Task.type task) with
  | Some name => call_workflow name taskId task s
  | None =>
      suspend taskId
        (awaiting_workflow
           (Js.Throw (Js.Error ("Unsupported task type: " +:+
                                Js.to_string (Task.type task)))))
        s
  end.

(** The task record [executeTask] builds for a request. *)
Definition new_task (taskId : nat) (r : Request.t) (created : N) : Task.t :=
  {| Task.id := taskId;
     Task.type := Request.type r;
     Task.description := Request.description r;
     Task.requirements := Js.or_else (Request.requirements r) (Js.Obj []);
     Task.agents := determineRequiredAgents r;
     Task.status := "pending";
     Task.createdAt := created;
     Task.progress := 0;
     Task.results := [];
     Task.errors := [];
     Task.result := None;
     Task.error := None;
     Task.completedAt := None |}.

(** [executeTask(taskRequest)] up to its first [await]. *)
Definition executeTask (r : Request.t) (s : state) : state :=
  let taskId := uuids s in
  let s := draw_uuid s in
  if negb (validateTaskRequest r) then
    catch_ taskId (Js.Error "Invalid task request") s
  else
    let task := new_task taskId r (now s) in
    executeTaskWorkflow taskId task
      (upd_runningTasks (insert taskId task) s).

(** The invocation of [executeTask] for task [taskId] resumes: the call
    it awaits has settled, for the calls that depend on the environment
    with [reply]. It runs to its next [await] or to its end. *)
Definition resume (taskId : nat) (reply : Js.outcome) (s : state) : state :=
  match frames s !! taskId with
  | None => s
  | Some (awaiting_stage requirements st rest context) =>
      match stage_outcome (Stage.call st) context reply with
      | Js.Ok v =>
          enter taskId requirements
            (advance (agents s) requirements rest
               (Js.set_field (Stage.key st) v context))
            (progress_to taskId (Stage.checkpoint st) s)
      | Js.Throw e => suspend taskId (awaiting_workflow (Js.Throw e)) s
      end
  | Some (awaiting_analyzeCode files) =>
      match BaseAgent.analyzeCode files reply with
      | Js.Ok analysis =>
          suspend taskId (awaiting_generateFixes analysis)
            (progress_to taskId 50 s)
      | Js.Throw e => suspend taskId (awaiting_workflow (Js.Throw e)) s
      end
  | Some (awaiting_generateFixes analysis) =>
      match reply with
      | Js.Ok fixes =>
          suspend taskId
            (awaiting_workflow (Js.Ok (debug_result analysis fixes)))
            (progress_to taskId 100 s)
      | Js.Throw e => suspend taskId (awaiting_workflow (Js.Throw e)) s
      end
  | Some (awaiting_workflow (Js.Ok result)) =>
      succeed taskId result (upd_frames (delete taskId) s)
  | Some (awaiting_workflow (Js.Throw e)) =>
      catch_ taskId e (upd_frames (delete taskId) s)
  end.

(** *** The queue processor and the timers *)

(** [processTaskQueue()], the callback of the [setInterval] started by
    [startTaskProcessor()]. *)
Definition processTaskQueue (s : state) : state :=
  match taskQueue s with
  | [] => s
  | r :: q =>
      if (maxConcurrentTasks s <=? Z.of_nat (size (runningTasks s)))%Z
      then s
      else executeTask r (set_taskQueue q s)
  end.

(** [ms] milliseconds pass: the [setTimeout] callbacks that are due run,
    each deleting its task record. *)
Definition elapse (ms : N) (s : state) : state :=
  let t := (now s + ms)%N in
  let due := List.filter (λ tm : N * nat, (tm.1 <=? t)%N) (timers s) in
  let later :=
    List.filter (λ tm : N * nat, negb (tm.1 <=? t)%N) (timers s) in
  upd_runningTasks (λ m, fold_left (λ m tm, delete tm.2 m) due m)
    (set_timers later (set_now t s)).

(** [getStatus()] *)
Definition getStatus (s : state) : Status.t :=
  {| Status.initialized := initialized s;
     Status.agents :=
       (λ agent : Entry.t,
          {| Status.status := Entry.status agent;
             Status.completedTasks := Entry.completedTasks agent;
             Status.currentTask := Entry.currentTask agent;
             Status.errors := length (Entry.errors agent) |}) <$> agents s;
     Status.runningTasks := size (runningTasks s);
     Status.queuedTasks := length (taskQueue s) |}.

(** *** [BaseAgent.executeTask] on a registered instance *)

(** A caller invokes [executeTask(task)] on the instance registered
    under [key]. *)
Definition agent_executeTask (key : string) (task : Js.value) (s : state)
  : state :=
  match agents s !! key with
  | None => s
  | Some en =>
      match BaseAgent.executeTask_enter (Entry.instance en) task with
      | BaseAgent.Rejected e => settle_agent key (Js.Throw e) s
      | BaseAgent.Awaiting a =>
          upd_agents (insert key (Entry.set_instance a en)) s
      end
  end.

(** The [processTask] call awaited by that instance settles. *)
Definition agent_resume (key : string) (reply : Js.outcome) (s : state)
  : state :=
  match agents s !! key with
  | None => s
  | Some en =>
      let a := Entry.instance en in
      if BaseAgent.busy a then
        let '(a', ev, o) :=
          BaseAgent.executeTask_resume a
            (BaseAgent.processTask (BaseAgent.class a)
               (BaseAgent.currentTask a) reply) in
        settle_agent key o
          (upd_agents (alter (Entry.set_instance a') key) (emit ev s))
      else s
  end.

(** *** The system as a transition function *)

Inductive action : Type :=
| Submit (r : Request.t)
| Resume (taskId : nat) (reply : Js.outcome)
| Elapse (ms : N)
| Interval
| AgentExecute (key : string) (task : Js.value)
| AgentResume (key : string) (reply : Js.outcome).

Definition step (s : state) (a : action) : state :=
  match a with
  | Submit r => executeTask r s
  | Resume taskId reply => resume taskId reply s
  | Elapse ms => elapse ms s
  | Interval => processTaskQueue s
  | AgentExecute key task => agent_executeTask key task s
  | AgentResume key reply => agent_resume key reply s
  end.

Definition run (s : state) (acts : list action) : state :=
  fold_left step acts s.

(** The coordinator after [new AgentCoordinator()] and [initialize()]. *)
Definition boot (MAX_CONCURRENT_AGENTS AGENT_TIMEOUT : option Z)
    (boots : string → bool) : state :=
  initialize boots (new MAX_CONCURRENT_AGENTS AGENT_TIMEOUT).

Definition reachable (s : state) : Prop :=
  ∃ mx tm boots acts, s = run (boot mx tm boots) acts.

End Coordinator.

(* ===================================================================== *)
(** ** Vocabulary of the properties *)
(* ===================================================================== *)

Import Coordinator.

(** The task an event is about. *)
Definition event_task (e : event) : option nat :=
  match e with
  | taskProgress taskId _ | taskCompleted taskId _ | taskFailed taskId _ =>
      Some taskId
  | _ => None
  end.

(** The values of the [taskProgress] events of a task, in the order of
    emission. *)
Fixpoint progress_log (taskId : nat) (l : list event) : list nat :=
  match l with
  | [] => []
  | taskProgress k p :: rest =>
      if decide (k = taskId) then p :: progress_log taskId rest
      else progress_log taskId rest
  | _ :: rest => progress_log taskId rest
  end.

(** The events about a task, in the order of emission. *)
Definition events_about (taskId : nat) (l : list event) : list event :=
  List.filter (λ e, bool_decide (event_task e = Some taskId)) l.

(** The checkpoints of the stages still to run do not go below [p], nor
    above 100. *)
Fixpoint ascending (p : nat) (stages : list Stage.t) : Prop :=
  match stages with
  | [] => p ≤ 100
  | st :: rest => p ≤ Stage.checkpoint st ∧ ascending (Stage.checkpoint st) rest
  end.

(** What holds of the record of a task whose [executeTask] invocation is
    suspended in frame [f]. *)
Definition frame_ok (f : frame) (t : Task.t) : Prop :=
  Task.status t = "pending" ∧
  match f with
  | awaiting_stage _ st rest _ => ascending (Task.progress t) (st :: rest)
  | awaiting_analyzeCode _ => Task.progress t ≤ 50
  | awaiting_generateFixes _ => Task.progress t ≤ 100
  | awaiting_workflow (Js.Ok _) => Task.progress t = 100
  | awaiting_workflow (Js.Throw _) => Task.progress t ≤ 100
  end.

(** What holds of the record of a task whose [executeTask] invocation has
    ended. *)
Definition settled_ok (t : Task.t) : Prop :=
  (Task.status t = "failed" ∧ Task.progress t ≤ 100) ∨
  (Task.status t = "completed" ∧ Task.progress t = 100).

(** The invariant of the reachable states, on the five components it
    reads: the task records, the frames, the timers, the number of uuids
    drawn and the events emitted. *)
Record Inv (tasks : gmap nat Task.t) (frs : gmap nat frame)
    (tms : list (N * nat)) (drawn : nat) (log : list event) : Prop := {
  inv_frames : ∀ taskId f,
    frs !! taskId = Some f →
    ∃ t, tasks !! taskId = Some t ∧ frame_ok f t;
  inv_settled : ∀ taskId t,
    tasks !! taskId = Some t → frs !! taskId = None → settled_ok t;
  inv_fresh : ∀ taskId, is_Some (tasks !! taskId) → taskId < drawn;
  inv_timers : ∀ d taskId,
    (d, taskId) ∈ tms → frs !! taskId = None ∧ taskId < drawn;
  inv_events : ∀ e taskId,
    e ∈ log → event_task e = Some taskId → taskId < drawn;
  inv_log : ∀ taskId p t,
    taskProgress taskId p ∈ log →
    tasks !! taskId = Some t → p ≤ Task.progress t;
  inv_sorted : ∀ taskId, StronglySorted le (progress_log taskId log)
}.

Definition inv (s : state) : Prop :=
  Inv (runningTasks s) (frames s) (timers s) (uuids s) (emitted s).

(** The number of suspended workflows whose pending call is on the agent
    registered under [key]. *)
Definition calls_agent (key : string) (f : frame) : bool :=
  match f with
  | awaiting_stage _ st _ _ => String.eqb (Stage.agent st) key
  | awaiting_analyzeCode _ | awaiting_generateFixes _ =>
      String.eqb "debugger" key
  | awaiting_workflow _ => false
  end.

Definition in_flight (key : string) (s : state) : nat :=
  length (List.filter (λ kf : nat * frame, calls_agent key kf.2)
            (map_to_list (frames s))).

(** The stage keys whose condition holds, in the order of the stages. *)
Definition executed_keys (registry : gmap string Entry.t)
    (requirements : Js.value) (stages : list Stage.t) : list string :=
  map Stage.key (List.filter (guard registry requirements) stages).

(** The create-project workflow, started at [stages] with [context],
    returns with the context [final]: the chain of [advance],
    [stage_outcome] and [Js.set_field] that [resume] follows, every call
    ending well. *)
Inductive completes (registry : gmap string Entry.t) (requirements : Js.value)
  : list Stage.t → list (string * Js.value) → list (string * Js.value) → Prop :=
| completes_return stages context final :
    advance registry requirements stages context = Returned final →
    completes registry requirements stages context final
| completes_stage stages context st rest context' reply v final :
    advance registry requirements stages context = Suspended st rest context' →
    stage_outcome (Stage.call st) context' reply = Js.Ok v →
    completes registry requirements rest
      (Js.set_field (Stage.key st) v context') final →
    completes registry requirements stages context final.


(** The transitions of [status] the code makes. *)
Definition code_transition (a b : string) : Prop :=
  a = "pending" ∧ (b = "completed" ∨ b = "failed").

(** Requests and registries used as concrete inputs. *)
Definition create_request (requirements : Js.value) : Request.t :=
  {| Request.type := Js.Str "create_project";
     Request.description := Js.Str "x";
     Request.requirements := requirements |}.

Definition all_agents : string → bool := λ _, true.

Definition without (missing : string) : string → bool :=
  λ name, negb (String.eqb name missing).

Definition only (name : string) : string → bool :=
  λ key, String.eqb key name.

Definition frontend_request : Request.t :=
  create_request (Js.Obj [("frontend", Js.Bool true)]).



Definition review_request : Request.t :=
  {| Request.type := Js.Str "review_code"; Request.description := Js.Str "x";
     Request.requirements := Js.Undefined |}.

Definition review_task : Js.value :=
  Js.Obj [("type", Js.Str "review_code"); ("id", Js.Str "t1")].

Definition untyped_task : Js.value := Js.Obj [("id", Js.Str "t2")].

(** One create-project task submitted to a full registry, its workflow
    waiting for the architect. *)
Definition stalled : state :=
  run (boot None None all_agents) [Submit (create_request (Js.Obj []))].

(** A frame that constrains the task record least. *)
Definition neutral : frame := awaiting_workflow (Js.Throw (Js.Error "")).

(** What is seen of a task from outside: its frame, its record and the
    promise of its [executeTask] call. *)
Definition view (s : state) (taskId : nat)
  : option frame * option Task.t * option Js.outcome :=
  (frames s !! taskId, runningTasks s !! taskId, promises s !! taskId).

(** [a] is not the resumption of task [taskId]. *)
Definition leaves (taskId : nat) (a : action) : bool :=
  match a with
  | Resume k _ => negb (Nat.eqb k taskId)
  | _ => true
  end.

(** The actions of the coordinator's own code, as opposed to calls of
    [BaseAgent.executeTask]. *)
Definition workflow_action (a : action) : bool :=
  match a with
  | Submit _ | Resume _ _ | Elapse _ | Interval => true
  | AgentExecute _ _ | AgentResume _ _ => false
  end.

(** How one transition may change the record of a task. *)
Definition task_step (t t' : Task.t) : Prop :=
  Task.progress t ≤ Task.progress t' ∧
  (Task.status t' = Task.status t ∨
   code_transition (Task.status t) (Task.status t')).

(** The three kinds whose workflow method the dispatcher calls although
    the class does not define it. *)
Definition unimplemented_kind (v : Js.value) : bool :=
  Js.is_str v "review_code" || Js.is_str v "optimize_performance"
  || Js.is_str v "deploy_application".

(** The same state under another configuration. *)
Definition set_maxConcurrentTasks (m : Z) (s : state) : state :=
  {| agents := agents s; runningTasks := runningTasks s;
     taskQueue := taskQueue s; initialized := initialized s;
     maxConcurrentTasks := m;
     taskTimeout := taskTimeout s; now := now s; uuids := uuids s;
     timers := timers s; frames := frames s; promises := promises s;
     agent_promises := agent_promises s; emitted := emitted s |}.

Definition set_taskTimeout (tm : Z) (s : state) : state :=
  {| agents := agents s; runningTasks := runningTasks s;
     taskQueue := taskQueue s; initialized := initialized s;
     maxConcurrentTasks := maxConcurrentTasks s;
     taskTimeout := tm; now := now s; uuids := uuids s;
     timers := timers s; frames := frames s; promises := promises s;
     agent_promises := agent_promises s; emitted := emitted s |}.


(* ===================================================================== *)
(** ** utils/Logger.js *)
(* ===================================================================== *)

Module Logger.

Record t : Type := {
  context : string;
  logLevel : string;
  logFile : string
}.

(** [process.env.NAME || dflt]: a variable is a string or is not set. *)
Definition env_or (variable : option string) (dflt : string) : string :=
  match variable with
  | Some v => if String.eqb v "" then dflt else v
  | None => dflt
  end.

(** [constructor(context = 'App')], under the environment given. *)
Definition new (context : option string) (LOG_LEVEL LOG_FILE : option string)
  : t :=
  {| context := default "App" context;
     logLevel := env_or LOG_LEVEL "info";
     logFile := env_or LOG_FILE "./logs/app.log" |}.

(** [this.levels] *)
Definition levels : list (string * Z) :=
  [("error", 0); ("warn", 1); ("info", 2); ("debug", 3)]%Z.

(** What [this.levels[name] || 2] is in a comparison: a number, or the
    text of a property that [this.levels] inherits. *)
Inductive rank : Type :=
| Rank (n : Z)
| Inherited (text : string).

(** The text of the property of [Object.prototype] named [name]: the
    methods are functions, [constructor] is the function [Object], and
    [__proto__] is [Object.prototype] itself. *)
Definition inherited_text (name : string) : string :=
  if String.eqb name "__proto__" then "[object Object]"
  else "function " +:+
       (if String.eqb name "constructor" then "Object" else name) +:+
       "() { [native code] }".

(** [this.levels[name] || 2]: the rank 0 of ['error'] is falsy, and so
    is the [undefined] of a name that is no property; an inherited
    property is truthy. *)
Definition level_or_2 (name : string) : rank :=
  match list_find (λ kv : string * Z, kv.1 = name) levels with
  | Some (_, (_, n)) => Rank (if (n =? 0)%Z then 2%Z else n)
  | None =>
      if bool_decide (name ∈ Js.Object_prototype)
      then Inherited (inherited_text name) else Rank 2%Z
  end.

(** [shouldLog(level)]: [messageLevelValue <= currentLevelValue] compares
    two numbers, or two texts in the order of strings; a text that is
    compared with a number is [NaN], and the test fails. *)
Definition shouldLog (lg : t) (level : string) : bool :=
  match level_or_2 (logLevel lg), level_or_2 level with
  | Rank currentLevelValue, Rank messageLevelValue =>
      (messageLevelValue <=? currentLevelValue)%Z
  | Inherited currentLevelValue, Inherited messageLevelValue =>
      String.leb messageLevelValue currentLevelValue
  | _, _ => false
  end.

End Logger.

(* ===================================================================== *)
(** ** utils/ConfigManager.js *)
(* ===================================================================== *)

Module ConfigManager.

(** [merged[key] = ...] for one property of the user's configuration:
    an object that is no array, [null] included, is merged with
    [merged[key] || {}], anything else is assigned as it is. [merge] is
    [mergeConfig]. *)
Definition entry (merge : Js.value → Js.value → Js.outcome)
    (merged : list (string * Js.value)) (key : string) (v : Js.value)
  : Js.outcome :=
  if Js.typeof_object v && negb (Js.isArray v)
  then merge (Js.or_else (Js.assoc key merged) (Js.Obj [])) v
  else Js.Ok v.

(** [mergeConfig(defaultConfig, userConfig)], where no object under
    [userConfig] has a property [__proto__] (the assignment would set the
    prototype of [merged]). The loop runs over the properties of
    [userConfig]; [userConfig.hasOwnProperty] is the method that every
    value inherits unless [userConfig] has a property of that name, which
    is then called and is no function. *)
Fixpoint mergeConfig (defaultConfig userConfig : Js.value) {struct userConfig}
  : Js.outcome :=
  match userConfig with
  | Js.Obj fields =>
      if bool_decide ("hasOwnProperty" ∈ Js.keys fields) then
        Js.Throw (Js.TypeError "userConfig.hasOwnProperty is not a function")
      else
        (fix assign (fields : list (string * Js.value))
             (merged : list (string * Js.value)) {struct fields}
           : Js.outcome :=
           match fields with
           | [] => Js.Ok (Js.Obj merged)
           | (key, v) :: rest =>
               match
                 (if Js.typeof_object v && negb (Js.isArray v)
                  then mergeConfig
                         (Js.or_else (Js.assoc key merged) (Js.Obj [])) v
                  else Js.Ok v)
               with
               | Js.Ok x => assign rest (Js.set_field key x merged)
               | Js.Throw e => Js.Throw e
               end
           end) fields (Js.own defaultConfig)
  | Js.Arr items =>
      (fix assign (i : nat) (items : list Js.value)
           (merged : list (string * Js.value)) {struct items}
         : Js.outcome :=
         match items with
         | [] => Js.Ok (Js.Obj merged)
         | v :: rest =>
             match
               (if Js.typeof_object v && negb (Js.isArray v)
                then mergeConfig
                       (Js.or_else (Js.assoc (pretty i) merged) (Js.Obj [])) v
                else Js.Ok v)
             with
             | Js.Ok x => assign (S i) rest (Js.set_field (pretty i) x merged)
             | Js.Throw e => Js.Throw e
             end
         end) 0 items (Js.own defaultConfig)
  | Js.Str s =>
      Js.Ok (Js.Obj (fold_left (λ merged kv, Js.set_field kv.1 kv.2 merged)
                       (Js.indexed 0 (Js.chars s))
                       (Js.own defaultConfig)))
  | _ => Js.Ok (Js.Obj (Js.own defaultConfig))
  end.

(** The loop of [mergeConfig] over the properties of an object. *)
Fixpoint assign (fields merged : list (string * Js.value)) : Js.outcome :=
  match fields with
  | [] => Js.Ok (Js.Obj merged)
  | (key, v) :: rest =>
      match entry mergeConfig merged key v with
      | Js.Ok x => assign rest (Js.set_field key x merged)
      | Js.Throw e => Js.Throw e
      end
  end.

(** What [load()] finds at [configPath]: no file, or a file whose
    reading and parsing ([yaml.parse] or [JSON.parse]) end with
    [parsed]. *)
Inductive source : Type :=
| Absent
| Present (parsed : Js.outcome).

(** [this.config] after [load()]. The method catches every exception and
    [save()] does too: [load()] does not throw. *)
Definition load (defaultConfig : Js.value) (file : source) : Js.value :=
  match file with
  | Absent => defaultConfig
  | Present (Js.Throw _) => defaultConfig
  | Present (Js.Ok userConfig) =>
      match mergeConfig defaultConfig userConfig with
      | Js.Ok merged => merged
      | Js.Throw _ => defaultConfig
      end
  end.

(** [getAgentConfig(agentName)]: [this.config.agents?.[agentName] || {}],
    for a name that is neither an index nor a property that values
    inherit, as are the names of the registry. *)
Definition getAgentConfig (config : Js.value) (agentName : string)
  : Js.value :=
  let agents := Js.prop config "agents" in
  if Js.nullish agents then Js.Obj []
  else Js.or_else (Js.prop agents agentName) (Js.Obj []).

(** [getGlobalConfig()] *)
Definition getGlobalConfig (config : Js.value) : Js.value :=
  Js.or_else (Js.prop config "global") (Js.Obj []).

End ConfigManager.

(* ===================================================================== *)
(** ** agents/BaseAgent.js: the constructor *)
(* ===================================================================== *)

Module Provider.

(** [process.env.NAME]: a string, or [undefined] when it is not set. *)
Definition env (variable : option string) : Js.value :=
  match variable with
  | Some v => Js.Str v
  | None => Js.Undefined
  end.

(** [this.aiProvider]:
    [this.config.ai_provider || process.env.AI_PROVIDER || 'openai'],
    where [this.config] is [options.config || {}]. *)
Definition aiProvider (config : Js.value) (AI_PROVIDER : option string)
  : Js.value :=
  Js.or_else (Js.prop (Js.or_else config (Js.Obj [])) "ai_provider")
    (Js.or_else (env AI_PROVIDER) (Js.Str "openai")).

(** [initializeAI()]: [None] when it returns. [client] is how the
    constructor of the client of the provider ends. *)
Definition initializeAI (aiProvider : Js.value) (client : option Js.error)
  : option Js.error :=
  if Js.is_str aiProvider "openai" || Js.is_str aiProvider "anthropic"
  then client
  else Some (Js.Error ("Unsupported AI provider: " +:+ Js.to_string aiProvider)).

(** Whether the agent that [initializeAgents] constructs for a row of its
    table is registered: the constructor, which ends with
    [initializeAI()], must not throw ([initialize()] calls the empty
    [setup()] and does not). The agent is given
    [configManager.getAgentConfig(name)]. *)
Definition boots (config : Js.value) (AI_PROVIDER : option string)
    (client : string → option Js.error) (name : string) : bool :=
  match initializeAI
          (aiProvider (ConfigManager.getAgentConfig config name) AI_PROVIDER)
          (client name) with
  | None => true
  | Some _ => false
  end.

End Provider.

(* ===================================================================== *)
(** ** agents/ProjectArchitectAgent.js *)
(* ===================================================================== *)

Module ProjectArchitectAgent.

(** [requirements.features?.includes(lit)], as a truth value, or the
    [TypeError] of calling what is no function: an array includes the
    string [lit] as an item, a string includes it as a part (a uuid has
    none of the strings searched here), and the other values that are
    not [undefined] or [null] have no method [includes]. *)
Definition features_include (features : Js.value) (lit : string)
  : Js.error + bool :=
  match features with
  | Js.Undefined | Js.Null => inr false
  | Js.Arr items => inr (existsb (λ x, Js.is_str x lit) items)
  | Js.Str s => inr (bool_decide (is_Some (String.index 0 lit s)))
  | Js.Uuid _ => inr false
  | Js.Bool _ | Js.Num _ | Js.NaN | Js.Obj _ =>
      inl (Js.TypeError "requirements.features?.includes is not a function")
  end.

(** [selectStateManagement(frontend, requirements)] *)
Definition selectStateManagement (frontend requirements : Js.value)
  : Js.error + Js.value :=
  if Js.is_str frontend "react" then
    if Js.is_str (Js.prop requirements "complexity") "high"
    then inr (Js.Str "redux-toolkit")
    else match features_include (Js.prop requirements "features") "real-time"
         with
         | inl e => inl e
         | inr true => inr (Js.Str "redux-toolkit")
         | inr false =>
             if Js.is_str (Js.prop requirements "complexity") "medium"
             then inr (Js.Str "zustand") else inr (Js.Str "react-context")
         end
  else if Js.is_str frontend "vue" then
    inr (if Js.is_str (Js.prop requirements "complexity") "high"
         then Js.Str "vuex" else Js.Str "pinia")
  else inr (Js.Str "built-in").

(** [selectStylingApproach(requirements)] *)
Definition selectStylingApproach (requirements : Js.value)
  : Js.error + Js.value :=
  if Js.is_str (Js.prop requirements "ui") "modern"
  then inr (Js.Str "styled-components")
  else match features_include (Js.prop requirements "features") "theming" with
       | inl e => inl e
       | inr true => inr (Js.Str "styled-components")
       | inr false =>
           if Js.is_str (Js.prop requirements "development_speed") "fast"
           then inr (Js.Str "tailwindcss") else inr (Js.Str "css-modules")
       end.

(** [selectBackendFramework(backend, requirements)] *)
Definition selectBackendFramework (backend requirements : Js.value)
  : Js.value :=
  if Js.is_str backend "node.js" then
    if Js.is_str (Js.prop requirements "api_type") "graphql"
    then Js.Str "apollo-server" else Js.Str "express"
  else if Js.is_str backend "python" then
    if Js.is_str (Js.prop requirements "api_type") "fast"
    then Js.Str "fastapi" else Js.Str "django"
  else Js.Str "express".

(** [selectORM(database)]: [ormMap[database] || 'prisma'], for a
    [database] whose text is no name of a property that [ormMap]
    inherits. *)
Definition selectORM (database : Js.value) : Js.value :=
  let k := Js.to_string database in
  if String.eqb k "postgresql" then Js.Str "prisma"
  else if String.eqb k "mysql" then Js.Str "sequelize"
  else if String.eqb k "mongodb" then Js.Str "mongoose"
  else if String.eqb k "sqlite" then Js.Str "prisma"
  else Js.Str "prisma".

(** [selectAuthStrategy(requirements)] *)
Definition selectAuthStrategy (requirements : Js.value)
  : Js.error + Js.value :=
  match features_include (Js.prop requirements "features") "social_login" with
  | inl e => inl e
  | inr true => inr (Js.Str "passport.js")
  | inr false =>
      match features_include (Js.prop requirements "features")
              "enterprise_auth" with
      | inl e => inl e
      | inr true => inr (Js.Str "auth0")
      | inr false => inr (Js.Str "jwt")
      end
  end.

Definition frontend_directories : Js.value :=
  Js.Obj
    [("src/",
      Js.Obj [("components/", Js.Str "Reusable UI components");
              ("pages/", Js.Str "Page components and routing");
              ("hooks/", Js.Str "Custom React hooks");
              ("services/", Js.Str "API calls and external services");
              ("utils/", Js.Str "Utility functions");
              ("styles/", Js.Str "CSS/SCSS files");
              ("assets/", Js.Str "Images, fonts, and static files");
              ("types/", Js.Str "TypeScript type definitions")]);
     ("public/", Js.Str "Static public assets");
     ("tests/", Js.Str "Frontend tests");
     ("package.json", Js.Str "Frontend dependencies");
     (".env.example", Js.Str "Environment variables template")].

Definition backend_directories : Js.value :=
  Js.Obj
    [("src/",
      Js.Obj [("controllers/", Js.Str "Request handlers");
              ("services/", Js.Str "Business logic");
              ("models/", Js.Str "Data models and schemas");
              ("middleware/", Js.Str "Express middleware");
              ("routes/", Js.Str "API route definitions");
              ("utils/", Js.Str "Utility functions");
              ("config/", Js.Str "Configuration files");
              ("validators/", Js.Str "Input validation schemas")]);
     ("tests/", Js.Str "Backend tests");
     ("migrations/", Js.Str "Database migrations");
     ("seeds/", Js.Str "Database seed files");
     ("package.json", Js.Str "Backend dependencies");
     (".env.example", Js.Str "Environment variables template")].

Definition database_directories : Js.value :=
  Js.Obj [("schemas/", Js.Str "Database schema definitions");
          ("migrations/", Js.Str "Database migration files");
          ("seeds/", Js.Str "Sample data for development");
          ("queries/", Js.Str "Complex query definitions")].

Definition deployment_directories : Js.value :=
  Js.Obj [("docker/", Js.Str "Docker configurations");
          ("k8s/", Js.Str "Kubernetes manifests");
          ("scripts/", Js.Str "Deployment and utility scripts");
          (".github/workflows/", Js.Str "CI/CD pipeline definitions")].

Definition docs_directories : Js.value :=
  Js.Obj [("api/", Js.Str "API documentation");
          ("architecture/", Js.Str "Architecture diagrams and docs");
          ("user-guide/", Js.Str "User documentation");
          ("deployment/", Js.Str "Deployment instructions")].

(** [generateProjectStructure(architecture, requirements)], both being
    neither [undefined] nor [null]. *)
Definition generateProjectStructure (architecture requirements : Js.value)
  : Js.value :=
  Js.Obj
    [("root", Js.or_else (Js.prop requirements "projectName")
                (Js.Str "vibe-app"));
     ("directories",
      Js.Obj
        ((if Js.truthy (Js.prop architecture "frontend")
          then [("frontend", frontend_directories)] else []) ++
         (if Js.truthy (Js.prop architecture "backend")
          then [("backend", backend_directories)] else []) ++
         (if Js.truthy (Js.prop architecture "database")
          then [("database", database_directories)] else []) ++
         [("deployment", deployment_directories);
          ("docs", docs_directories)]))].

(** [recommendTechnologyStack(architecture, requirements)] *)
Definition recommendTechnologyStack (architecture requirements : Js.value)
  : Js.error + Js.value :=
  match selectStateManagement (Js.prop architecture "frontend") requirements
  with
  | inl e => inl e
  | inr stateManagement =>
  match selectStylingApproach requirements with
  | inl e => inl e
  | inr styling =>
  match selectAuthStrategy requirements with
  | inl e => inl e
  | inr authentication =>
      inr (Js.Obj
        [("frontend",
          Js.Obj [("framework",
                   Js.or_else (Js.prop architecture "frontend")
                     (Js.Str "react"));
                  ("stateManagement", stateManagement);
                  ("styling", styling);
                  ("buildTool", Js.Str "vite");
                  ("testing",
                   Js.Arr [Js.Str "jest"; Js.Str "react-testing-library"])]);
         ("backend",
          Js.Obj [("runtime",
                   Js.or_else (Js.prop architecture "backend")
                     (Js.Str "node.js"));
                  ("framework",
                   selectBackendFramework (Js.prop architecture "backend")
                     requirements);
                  ("database",
                   Js.or_else (Js.prop architecture "database")
                     (Js.Str "postgresql"));
                  ("orm", selectORM (Js.prop architecture "database"));
                  ("authentication", authentication);
                  ("testing", Js.Arr [Js.Str "jest"; Js.Str "supertest"])]);
         ("devops",
          Js.Obj [("containerization", Js.Str "docker");
                  ("orchestration",
                   if Js.is_str (Js.prop requirements "scale") "large"
                   then Js.Str "kubernetes" else Js.Str "docker-compose");
                  ("cicd", Js.Str "github-actions");
                  ("monitoring",
                   Js.Arr [Js.Str "prometheus"; Js.Str "grafana"]);
                  ("logging", Js.Str "winston")]);
         ("tools",
          Js.Obj [("versionControl", Js.Str "git");
                  ("codeQuality",
                   Js.Arr [Js.Str "eslint"; Js.Str "prettier";
                           Js.Str "husky"]);
                  ("documentation", Js.Str "swagger");
                  ("packageManager", Js.Str "npm")])])
  end end end.

(** [getSecurityRecommendations(requirements)] *)
Definition getSecurityRecommendations : Js.value :=
  Js.Arr
    [Js.Str "Implement HTTPS everywhere";
     Js.Str "Use environment variables for sensitive data";
     Js.Str "Implement rate limiting";
     Js.Str "Validate and sanitize all inputs";
     Js.Str "Use CORS properly";
     Js.Str "Implement proper session management";
     Js.Str "Regular security audits and updates";
     Js.Str "Use Content Security Policy (CSP)";
     Js.Str "Implement proper error handling without exposing internals"].

(** [createScalabilityPlan(architecture, requirements)] *)
Definition createScalabilityPlan : Js.value :=
  Js.Obj
    [("current", Js.Str "Monolithic architecture for MVP");
     ("shortTerm",
      Js.Arr [Js.Str "Database indexing and query optimization";
              Js.Str "Implement caching layer";
              Js.Str "CDN for static assets";
              Js.Str "Load balancer setup"]);
     ("longTerm",
      Js.Arr [Js.Str "Microservices decomposition";
              Js.Str "Database sharding/partitioning";
              Js.Str "Message queue implementation";
              Js.Str "Auto-scaling configuration"]);
     ("monitoring",
      Js.Arr [Js.Str "Performance metrics collection";
              Js.Str "Error tracking and alerting";
              Js.Str "User behavior analytics";
              Js.Str "Resource utilization monitoring"])].

(** [suggestDeploymentStrategy(architecture)] *)
Definition suggestDeploymentStrategy : Js.value :=
  Js.Obj
    [("development", Js.Str "Docker Compose for local development");
     ("staging", Js.Str "Cloud deployment with CI/CD pipeline");
     ("production", Js.Str "Blue-green deployment with health checks");
     ("rollback", Js.Str "Automated rollback on failure detection");
     ("environments",
      Js.Arr [Js.Str "development"; Js.Str "staging"; Js.Str "production"])].

(** [createDevelopmentWorkflow()] *)
Definition createDevelopmentWorkflow : Js.value :=
  Js.Obj [("gitflow", Js.Str "Feature branch workflow");
          ("codeReview", Js.Str "Pull request reviews required");
          ("testing", Js.Str "Automated testing on all branches");
          ("deployment", Js.Str "Automated deployment from main branch");
          ("quality", Js.Str "Code quality gates in CI/CD")].

(** The six properties that [enhanceArchitecture] adds. *)
Definition enhancements : list string :=
  ["projectStructure"; "technologyStack"; "securityConsiderations";
   "scalabilityPlan"; "deploymentStrategy"; "developmentWorkflow"].

(** [enhanceArchitecture(baseArchitecture, requirements)]: the object
    literal spreads [baseArchitecture] and then assigns the six
    properties in their order. The first of them reads
    [requirements.projectName] and then [architecture.frontend]. *)
Definition enhanceArchitecture (baseArchitecture requirements : Js.value)
  : Js.outcome :=
  if Js.nullish requirements then
    Js.Throw (BaseAgent.cannot_read requirements "projectName")
  else if Js.nullish baseArchitecture then
    Js.Throw (BaseAgent.cannot_read baseArchitecture "frontend")
  else
    match recommendTechnologyStack baseArchitecture requirements with
    | inl e => Js.Throw e
    | inr technologyStack =>
        Js.Ok (Js.Obj
          (fold_left (λ fields kv, Js.set_field kv.1 kv.2 fields)
             [("projectStructure",
               generateProjectStructure baseArchitecture requirements);
              ("technologyStack", technologyStack);
              ("securityConsiderations", getSecurityRecommendations);
              ("scalabilityPlan", createScalabilityPlan);
              ("deploymentStrategy", suggestDeploymentStrategy);
              ("developmentWorkflow", createDevelopmentWorkflow)]
             (Js.own baseArchitecture)))
    end.

(** [designArchitecture(requirements)]: [answer] is how the request to
    the provider ends, with the parsed answer ([parseJSONResponse] does
    not throw) or with an exception. *)
Definition designArchitecture (requirements : Js.value) (answer : Js.outcome)
  : Js.outcome :=
  match answer with
  | Js.Ok architecture => enhanceArchitecture architecture requirements
  | Js.Throw e => Js.Throw e
  end.

End ProjectArchitectAgent.

(* ===================================================================== *)
(** ** agents/FrontendDeveloperAgent.js *)
(* ===================================================================== *)

Module FrontendDeveloperAgent.

(** [generateFrontendStructure(framework)] *)
Definition generateFrontendStructure : Js.value :=
  Js.Obj
    [("src/",
      Js.Obj [("components/", Js.Str "Reusable UI components");
              ("pages/", Js.Str "Page components");
              ("hooks/", Js.Str "Custom hooks");
              ("services/", Js.Str "API services");
              ("utils/", Js.Str "Utility functions");
              ("styles/", Js.Str "Styling files");
              ("assets/", Js.Str "Static assets")]);
     ("public/", Js.Str "Public assets");
     ("tests/", Js.Str "Test files")].

(** [setupStyling(stylingType, framework)] *)
Definition setupStyling (stylingType : Js.value) : Js.value :=
  Js.Obj [("type", stylingType); ("files", Js.Arr []); ("config", Js.Obj [])].

(** [setupRouting(framework, requirements)] *)
Definition setupRouting (framework : Js.value) : Js.value :=
  Js.Obj [("router", if Js.is_str framework "react"
                     then Js.Str "react-router-dom" else Js.Str "vue-router");
          ("routes", Js.Arr []); ("config", Js.Obj [])].

(** [setupStateManagement(framework, requirements)] *)
Definition setupStateManagement : Js.value :=
  Js.Obj [("library", Js.Str "context"); ("structure", Js.Obj []);
          ("files", Js.Arr [])].

(** The object [createProject] returns once [generateBaseComponents] has
    given [components]. *)
Definition project (architecture components : Js.value) : Js.value :=
  let framework := Js.or_else (Js.prop architecture "frontend") (Js.Str "react") in
  let styling :=
    Js.or_else (Js.prop architecture "styling") (Js.Str "css-modules") in
  Js.Obj [("framework", framework);
          ("structure", generateFrontendStructure);
          ("components", components);
          ("styling", setupStyling styling);
          ("routing", setupRouting framework);
          ("stateManagement", setupStateManagement)].

(** [createProject(context)]. The one call that reaches the provider is
    [generateBaseComponents], whose outcome is [components]; the three
    [setup] methods return at once. *)
Definition createProject (context : Js.value) (components : Js.outcome)
  : Js.outcome :=
  if Js.nullish context then
    Js.Throw (Js.TypeError
      ("Cannot destructure property 'architecture' of 'context' as it is "
       +:+ Js.to_string context +:+ "."))
  else if Js.nullish (Js.prop context "architecture") then
    Js.Throw (BaseAgent.cannot_read (Js.prop context "architecture") "frontend")
  else match components with
       | Js.Ok c => Js.Ok (project (Js.prop context "architecture") c)
       | Js.Throw e => Js.Throw e
       end.

End FrontendDeveloperAgent.

(* ===================================================================== *)
(** ** agents/DebugDetectiveAgent.js *)
(* ===================================================================== *)

Module DebugDetectiveAgent.

(** An issue: the object pushed to [fileAnalysis.issues], by its
    properties (those whose values are among [Js.value]; the analysis
    reads [type] and [severity] only). *)
Definition issue : Type := list (string * Js.value).

(** How the body of the [try] of [analyzeFile] ends once the file is
    there to be read: with the extension, the size, the number of lines
    and the sorted issues of the file, or with an exception (of
    [fs.readFile], or thrown on a content that is no string). A failure
    of the provider is caught in [performAIAnalysis] and gives no
    issues. *)
Inductive attempt : Type :=
| Analysed (extension : string) (size lines : nat) (issues : list issue)
| Failed (e : Js.error).

(** [typeof v === 'string'] *)
Definition is_string (v : Js.value) : bool :=
  match v with
  | Js.Str _ | Js.Uuid _ => true
  | _ => false
  end.

(** The object that [analyzeFile] returns. *)
Record file_analysis : Type := {
  file : Js.value;
  outcome : attempt
}.

Definition issues (f : file_analysis) : list issue :=
  match outcome f with
  | Analysed _ _ _ l => l
  | Failed _ => []
  end.

Definition file_value (f : file_analysis) : Js.value :=
  match outcome f with
  | Analysed extension size lines l =>
      Js.Obj [("file", file f); ("extension", Js.Str extension);
              ("size", Js.Num (Z.of_nat size));
              ("lines", Js.Num (Z.of_nat lines));
              ("issues", Js.Arr (map Js.Obj l))]
  | Failed e =>
      Js.Obj [("file", file f); ("error", Js.Str (Js.message e));
              ("issues", Js.Arr [])]
  end.

(** [analyzeFile(filePath, issueTypes)]. A [filePath] that is no string
    and has no truthy [content] makes the [try] throw ['Invalid file
    format']; every exception of the [try] is caught and returned as an
    entry without issues, whose [file] is [filePath.path]: reading it
    throws again, out of the method, when [filePath] is [undefined] or
    [null]. *)
Definition analyzeFile (filePath : Js.value) (a : attempt)
  : Js.error + file_analysis :=
  if Js.nullish filePath then inl (BaseAgent.cannot_read filePath "path")
  else
    let a :=
      if is_string filePath || Js.truthy (Js.prop filePath "content") then a
      else Failed (Js.Error "Invalid file format") in
    inr {| file :=
             if is_string filePath then filePath
             else match a with
                  | Analysed _ _ _ _ =>
                      Js.or_else (Js.prop filePath "path")
                        (Js.prop filePath "name")
                  | Failed _ => Js.prop filePath "path"
                  end;
           outcome := a |}.

(** [analysis.summary] *)
Record summary : Type := {
  totalFiles : nat;
  totalIssues : nat;
  criticalIssues : nat;
  securityIssues : nat;
  performanceIssues : nat
}.

(** [issues.filter(i => i.key === 'lit').length] *)
Definition count (key lit : string) (l : list issue) : nat :=
  length (List.filter (λ i, Js.is_str (Js.assoc key i) lit) l).

(** The updates of the summary in the loop of [analyzeCode]. *)
Definition add (f : file_analysis) (s : summary) : summary :=
  {| totalFiles := totalFiles s;
     totalIssues := totalIssues s + length (issues f);
     criticalIssues := criticalIssues s + count "severity" "high" (issues f);
     securityIssues := securityIssues s + count "type" "security" (issues f);
     performanceIssues :=
       performanceIssues s + count "type" "performance" (issues f) |}.

(** The loop of [analyzeCode] over the files from index [i] on: the
    file analyses in the order of the files, and the summary. It ends
    with the first [analyzeFile] that throws. *)
Fixpoint analyzeFiles (attempts : nat → attempt) (i : nat)
    (files : list Js.value) (s : summary)
  : Js.error + (list file_analysis * summary) :=
  match files with
  | [] => inr ([], s)
  | filePath :: rest =>
      match analyzeFile filePath (attempts i) with
      | inl e => inl e
      | inr f =>
          match analyzeFiles attempts (S i) rest (add f s) with
          | inl e => inl e
          | inr (fs, s') => inr (f :: fs, s')
          end
      end
  end.

(** The three recommendations of [generateRecommendations]. *)
Definition security_recommendation : Js.value :=
  Js.Obj [("category", Js.Str "security"); ("priority", Js.Str "high");
          ("message", Js.Str "Address security vulnerabilities immediately");
          ("actions",
           Js.Arr [Js.Str "Review and fix all security-related issues";
                   Js.Str "Implement input validation";
                   Js.Str "Use parameterized queries for database operations";
                   Js.Str "Enable security linters in your CI/CD pipeline"])].

Definition maintainability_recommendation : Js.value :=
  Js.Obj [("category", Js.Str "maintainability"); ("priority", Js.Str "medium");
          ("message",
           Js.Str "Reduce code complexity for better maintainability");
          ("actions",
           Js.Arr [Js.Str "Refactor complex functions into smaller ones";
                   Js.Str "Extract common logic into utility functions";
                   Js.Str "Consider using design patterns to reduce complexity";
                   Js.Str "Add comprehensive tests before refactoring"])].

Definition quality_recommendation : Js.value :=
  Js.Obj [("category", Js.Str "quality"); ("priority", Js.Str "medium");
          ("message", Js.Str "Improve overall code quality");
          ("actions",
           Js.Arr [Js.Str "Set up automated code quality tools";
                   Js.Str "Establish coding standards and guidelines";
                   Js.Str "Implement code review processes";
                   Js.Str "Regular refactoring sessions"])].

(** [generateRecommendations(analysis)] *)
Definition generateRecommendations (fs : list file_analysis) (s : summary)
  : list Js.value :=
  (if 0 <? securityIssues s then [security_recommendation] else []) ++
  (if 0 <? length
             (List.filter
                (λ f, existsb (λ i, Js.is_str (Js.assoc "type" i) "complexity"
                                    && Js.is_str (Js.assoc "severity" i) "high")
                        (issues f)) fs)
   then [maintainability_recommendation] else []) ++
  (if 20 <? totalIssues s then [quality_recommendation] else []).

(** The object that [analyzeCode] returns. *)
Record analysis : Type := {
  summary_ : summary;
  files : list file_analysis
}.

Definition summary_value (s : summary) : Js.value :=
  Js.Obj [("totalFiles", Js.Num (Z.of_nat (totalFiles s)));
          ("totalIssues", Js.Num (Z.of_nat (totalIssues s)));
          ("criticalIssues", Js.Num (Z.of_nat (criticalIssues s)));
          ("securityIssues", Js.Num (Z.of_nat (securityIssues s)));
          ("performanceIssues", Js.Num (Z.of_nat (performanceIssues s)))].

Definition analysis_value (a : analysis) : Js.value :=
  Js.Obj [("summary", summary_value (summary_ a));
          ("files", Js.Arr (map file_value (files a)));
          ("recommendations",
           Js.Arr (generateRecommendations (files a) (summary_ a)))].

(** [analyzeCode(files, issueTypes)] for an array of files, the
    [attempts] being those of the files by index. *)
Definition analyzeCode (files : list Js.value) (attempts : nat → attempt)
  : Js.error + analysis :=
  match
    analyzeFiles attempts 0 files
      {| totalFiles := length files; totalIssues := 0; criticalIssues := 0;
         securityIssues := 0; performanceIssues := 0 |}
  with
  | inl e => inl e
  | inr (fs, s) => inr {| summary_ := s; files := fs |}
  end.


End DebugDetectiveAgent.

(* ===================================================================== *)
(** ** ui/CLIInterface.js *)
(* ===================================================================== *)

Module CLIInterface.

(** The answers to the four prompts of [createProject()]. *)
Record project_answers : Type := {
  projectName : string;
  projectType : string;
  description : string;
  features : list string
}.

(** The [validate] function of the prompts for text:
    [input.length > 0 || '... is required']. *)
Definition validate (input : string) : bool :=
  negb (String.eqb input "").

(** The [taskData] that [createProject()] gives to the coordinator. *)
Definition createProject (answers : project_answers) : Request.t :=
  {| Request.type := Js.Str "create_project";
     Request.description := Js.Str (description answers);
     Request.requirements :=
       Js.Obj [("projectName", Js.Str (projectName answers));
               ("type", Js.Str (projectType answers));
               ("features", Js.Arr (map Js.Str (features answers)))] |}.


(** What [createProgressBar] builds: the numbers of filled and of empty
    cells, or the [RangeError] of [String.prototype.repeat] for a
    negative count. *)
Inductive bar : Type :=
| Bar (filled empty : nat)
| RangeError (count : Z).

(** [Math.round(a / b)] for integers [a] and [b > 0]: to the nearest
    integer, a half upwards. *)
Definition round_div (a b : Z) : Z := ((2 * a + b) / (2 * b))%Z.

(** [createProgressBar(progress, width = 20)] *)
Definition createProgressBar (progress width : Z) : bar :=
  let filled := round_div (width * progress) 100 in
  let empty := (width - filled)%Z in
  if (filled <? 0)%Z then RangeError filled
  else if (empty <? 0)%Z then RangeError empty
  else Bar (Z.to_nat filled) (Z.to_nat empty).

(** The [progressListener] of [executeTaskWithProgress], on the payload
    of a [taskProgress] event. *)
Definition progressListener (progress : nat) : bar :=
  createProgressBar (Z.of_nat progress) 20.

End CLIInterface.

(* ===================================================================== *)
(** ** ui/WebInterface.js *)
(* ===================================================================== *)

Module WebInterface.

(** The [taskData] that the form of the dashboard sends with
    ['execute_task']: the values of the fields [task-type],
    [task-description] and [project-type]. *)
Definition form_taskData (task_type task_description project_type : string)
  : Request.t :=
  {| Request.type := Js.Str task_type;
     Request.description := Js.Str task_description;
     Request.requirements :=
       if String.eqb task_type "create_project"
       then Js.Obj [("type", Js.Str project_type)] else Js.Obj [] |}.

(** The message that the handler of ['execute_task'] sends back on the
    socket when the [executeTask] call has settled with [o]. *)
Definition execute_task_reply (o : Js.outcome) : string * Js.value :=
  match o with
  | Js.Ok result =>
      ("task_completed",
       Js.Obj [("success", Js.Bool true); ("result", result)])
  | Js.Throw e => ("task_error", Js.Obj [("error", Js.Str (Js.message e))])
  end.

End WebInterface.

(* ===================================================================== *)
(** ** Vocabulary of the further properties *)
(* ===================================================================== *)




(** Every cleanup timer is due within the next 60000 ms, and every
    record whose invocation has ended has one. *)
Definition cleanup_ok (s : state) : Prop :=
  (∀ d taskId, (d, taskId) ∈ timers s → (now s < d ∧ d ≤ now s + 60000)%N) ∧
  (∀ taskId t,
     runningTasks s !! taskId = Some t → frames s !! taskId = None →
     ∃ d, (d, taskId) ∈ timers s).

(** The values that [task.progress] is assigned in the two workflows. *)
Definition progress_values : list nat :=
  map Stage.checkpoint create_stages ++ [50; 100].

(** The stages a suspended create-project workflow has still to run are
    the last ones of [create_stages]. *)
Definition stages_ok (f : frame) : Prop :=
  match f with
  | awaiting_stage _ st rest _ => ∃ skipped, create_stages = skipped ++ st :: rest
  | _ => True
  end.

(** The suspended workflows are at stages of [create_stages], and the
    progress events emitted carry values of [progress_values]. *)
Definition checkpoints_ok (s : state) : Prop :=
  (∀ taskId f, frames s !! taskId = Some f → stages_ok f) ∧
  (∀ taskId p, taskProgress taskId p ∈ emitted s → p ∈ progress_values).

(** The keys of the table of [initializeAgents]. *)
Definition registry_keys : list string := agentClasses.*1.*1.

Definition is_initialized_ (e : event) : bool :=
  match e with
  | initialized_ => true
  | _ => false
  end.

(** Whether [collectGeneratedFiles] takes the files of a value. *)
Definition has_files (v : Js.value) : bool :=
  Js.truthy v && Js.truthy (Js.prop v "files").


Definition database_stage : Stage.t :=
  {| Stage.agent := "database"; Stage.flag := Some "database";
     Stage.key := "database"; Stage.checkpoint := 35;
     Stage.call := Stage.designSchema |}.

Definition backend_stage : Stage.t :=
  {| Stage.agent := "backend"; Stage.flag := Some "backend";
     Stage.key := "backend"; Stage.checkpoint := 60;
     Stage.call := Stage.backend_createProject |}.

(** The five agents without a method of their own that reaches the
    provider. *)
Definition stub_classes : list BaseAgent.agent_class :=
  [BaseAgent.BackendDeveloperAgent; BaseAgent.DatabaseDesignerAgent;
   BaseAgent.DevOpsAgent; BaseAgent.QATestingAgent;
   BaseAgent.CodeReviewerAgent].

(** A configuration as it is parsed from a file: no [undefined], the
    keys of an object distinct, and none of them [__proto__]. *)
Fixpoint parsed (v : Js.value) : bool :=
  match v with
  | Js.Undefined | Js.Uuid _ => false
  | Js.Null | Js.Bool _ | Js.Num _ | Js.NaN | Js.Str _ => true
  | Js.Arr items => forallb parsed items
  | Js.Obj fields =>
      bool_decide (NoDup (Js.keys fields)) &&
      bool_decide ("__proto__" ∉ Js.keys fields) &&
      forallb (λ kv, parsed kv.2) fields
  end.

(** A value that [mergeConfig] assigns as it is. *)
Definition leaf (v : Js.value) : bool :=
  negb (Js.typeof_object v && negb (Js.isArray v)).


(** An object of the user's configuration that [mergeConfig] comes to
    has a property [hasOwnProperty]. *)
Inductive shadows : Js.value → Prop :=
| shadows_here fields :
    "hasOwnProperty" ∈ Js.keys fields → shadows (Js.Obj fields)
| shadows_below fields k sub :
    (k, Js.Obj sub) ∈ fields → shadows (Js.Obj sub) →
    shadows (Js.Obj fields).

(** A value that is neither [undefined] or [null], nor a string, nor an
    array: it has no method [includes]. *)
Definition no_includes (features : Js.value) : bool :=
  match features with
  | Js.Bool _ | Js.Num _ | Js.NaN | Js.Obj _ => true
  | _ => false
  end.

(** The sum over the file analyses of a number taken from the issues of
    each. *)
Definition sum_of (g : list DebugDetectiveAgent.issue → nat)
    (fs : list DebugDetectiveAgent.file_analysis) : nat :=
  list_sum (map (λ f, g (DebugDetectiveAgent.issues f)) fs).

(** Concrete inputs. *)

(** The task of [stalled] after its architect failed and its invocation
    ended. *)
Definition failed_once : state :=
  run stalled [Resume 0 (Js.Throw (Js.Error "no answer"));
               Resume 0 (Js.Ok Js.Null)].

(** The task of [stalled] after its architect answered. *)
Definition designed : state :=
  run stalled [Resume 0 (Js.Ok (Js.Obj []))].

Definition none_boots : string → bool := λ _, false.

Definition default_config : Js.value :=
  Js.Obj [("global",
           Js.Obj [("max_retries", Js.Num 3);
                   ("tags", Js.Arr [Js.Str "a"; Js.Str "b"])])].

Definition user_config : list (string * Js.value) :=
  [("global", Js.Obj [("tags", Js.Arr [Js.Str "c"])])].

Definition merged_config : Js.value :=
  Js.Obj [("global",
           Js.Obj [("max_retries", Js.Num 3);
                   ("tags", Js.Arr [Js.Str "c"])])].

Definition shadowing_config : Js.value :=
  Js.Obj [("agents", Js.Obj [("hasOwnProperty", Js.Bool true)])].

Definition vue_context : Js.value :=
  Js.Obj [("architecture", Js.Obj [("frontend", Js.Str "vue")])].

Definition security_issue : DebugDetectiveAgent.issue :=
  [("type", Js.Str "security"); ("severity", Js.Str "high")].

Definition one_issue : nat → DebugDetectiveAgent.attempt :=
  λ _, DebugDetectiveAgent.Analysed "js" 10 2 [security_issue].

Definition one_issue_analysis : DebugDetectiveAgent.analysis :=
  {| DebugDetectiveAgent.summary_ :=
       {| DebugDetectiveAgent.totalFiles := 1;
          DebugDetectiveAgent.totalIssues := 1;
          DebugDetectiveAgent.criticalIssues := 1;
          DebugDetectiveAgent.securityIssues := 1;
          DebugDetectiveAgent.performanceIssues := 0 |};
     DebugDetectiveAgent.files :=
       [{| DebugDetectiveAgent.file := Js.Str "a.js";
           DebugDetectiveAgent.outcome :=
             DebugDetectiveAgent.Analysed "js" 10 2 [security_issue] |}] |}.

(** What a call settled with, [undefined] for a rejection. *)
Definition returned (o : Js.outcome) : Js.value :=
  match o with
  | Js.Ok v => v
  | Js.Throw _ => Js.Undefined
  end.


(* ===================================================================== *)
(** ** Proof tools *)
(* ===================================================================== *)

(** Reduce the projections of a state built by the update functions,
    without unfolding anything else. *)
Ltac read_state :=
  cbn [catch_ succeed finally_ settle settle_agent emit handle log_event
       progress_to suspend upd_runningTasks upd_frames upd_agents set_timers
       set_now set_taskQueue set_initialized draw_uuid
       set_maxConcurrentTasks set_taskTimeout
       runningTasks frames timers uuids emitted agents now taskQueue
       maxConcurrentTasks taskTimeout promises agent_promises initialized
       negb] in *.

(** Lookups at another key than the one a transition writes. *)
Ltac other_ids :=
  unfold view; read_state;
  repeat first
    [ rewrite lookup_insert_ne by first [done | lia]
    | rewrite lookup_alter_ne by first [done | lia]
    | rewrite lookup_delete_ne by first [done | lia] ];
  try done.

(** Events emitted about another task than the one in view. *)
Ltac other_events :=
  unfold events_about; read_state;
  repeat rewrite List.filter_app; cbn [List.filter event_task];
  repeat (rewrite bool_decide_eq_false_2 by (intros [= ?]; first [done | lia]));
  rewrite ?app_nil_r; try done.

Ltac split_on t := destruct t; read_state; try reflexivity.

(** Two runs of the same code that differ in a field it never reads:
    follow the tests of the code on both sides at once. *)
Ltac same_branches :=
  read_state; try reflexivity;
  repeat match goal with
         | |- context [validateTaskRequest ?r] =>
             split_on (validateTaskRequest r)
         | |- context [workflow_method ?v] => split_on (workflow_method v)
         | |- context [String.eqb ?a ?b] => split_on (String.eqb a b)
         | |- context [advance ?a ?b ?c ?d] => split_on (advance a b c d)
         | |- context [bool_decide ?P] => split_on (bool_decide P)
         | |- context [stage_outcome ?a ?b ?c] =>
             split_on (stage_outcome a b c)
         | |- context [BaseAgent.analyzeCode ?a ?b] =>
             split_on (BaseAgent.analyzeCode a b)
         | |- context [BaseAgent.executeTask_enter ?a ?b] =>
             split_on (BaseAgent.executeTask_enter a b)
         | |- context [BaseAgent.processTask ?a ?b ?c] =>
             split_on (BaseAgent.processTask a b c)
         | |- context [BaseAgent.busy ?a] => split_on (BaseAgent.busy a)
         | |- context [(?a <=? ?b)%Z] => split_on (a <=? b)%Z
         end.

Ltac open_executeTask :=
  unfold executeTask, executeTaskWorkflow, call_workflow, workflow_body,
    executeCreateProjectWorkflow, executeDebugWorkflow, enter.

(* ===================================================================== *)
(** ** The JavaScript helpers on examples *)
(* ===================================================================== *)

Example replace_first_only :
  Js.replace "Agent" "" "AgentOfAgents" = "OfAgents".
Proof. reflexivity. Qed.

Example to_string_arr :
  Js.to_string (Js.Arr [Js.Num 1; Js.Null; Js.Str "a"]) = "1,,a".
Proof. vm_compute. reflexivity. Qed.

Example architect_name :
  BaseAgent.name (BaseAgent.new BaseAgent.ProjectArchitectAgent)
  = "projectarchitect".
Proof. reflexivity. Qed.

Example devops_name :
  BaseAgent.name (BaseAgent.new BaseAgent.DevOpsAgent) = "devops".
Proof. reflexivity. Qed.

Lemma is_str_eq v lit : Js.is_str v lit = true → v = Js.Str lit.
Proof. destruct v; simpl; try done. by intros ->%String.eqb_eq. Qed.

Lemma keys_set_field_new k v fields :
  k ∉ Js.keys fields → Js.keys (Js.set_field k v fields) = Js.keys fields ++ [k].
Proof.
  unfold Js.keys. induction fields as [|[k' v'] rest IH]; simpl; [done|].
  intros Hnin. apply not_elem_of_cons in Hnin as [Hne Hnin].
  destruct (String.eqb k k') eqn:E; [by apply String.eqb_eq in E|].
  simpl. by rewrite IH.
Qed.

Lemma elem_of_List_filter {A} (f : A → bool) (l : list A) x :
  x ∈ List.filter f l → x ∈ l.
Proof. rewrite !list_elem_of_In, filter_In. tauto. Qed.

(* ===================================================================== *)
(** ** Stages, checkpoints and the progress log *)
(* ===================================================================== *)

Lemma ascending_weaken p q l : p ≤ q → ascending q l → ascending p l.
Proof.
  destruct l as [|st rest]; simpl; [lia | intros ? [? ?]; split; [lia | done]].
Qed.

Lemma ascending_bound p l : ascending p l → p ≤ 100.
Proof.
  revert p. induction l as [|st rest IH]; simpl; intros p; [done|].
  intros [Hp Hrest]. apply IH in Hrest. lia.
Qed.

Lemma ascending_suffix p skipped l : ascending p (skipped ++ l) → ascending p l.
Proof.
  revert p. induction skipped as [|st sk IH]; simpl; intros p; [done|].
  intros [Hp H]. apply IH. by apply (ascending_weaken _ _ _ Hp).
Qed.

Lemma ascending_create_stages : ascending 0 create_stages.
Proof. simpl. lia. Qed.

(** A workflow that stops at a stage has skipped the stages before it,
    whose conditions were false, and has not touched the context. *)
Lemma advance_suspended registry requirements stages context st rest context' :
  advance registry requirements stages context = Suspended st rest context' →
  context' = context ∧ guard registry requirements st = true ∧
  ∃ skipped, stages = skipped ++ st :: rest ∧
             List.filter (guard registry requirements) skipped = [].
Proof.
  induction stages as [|st0 stages IH]; simpl; [done|].
  destruct (guard registry requirements st0) eqn:Hg.
  - intros [= -> -> ->]. split; [done|]. split; [done|]. by exists [].
  - intros H. destruct (IH H) as (-> & Hst & skipped & -> & Hsk).
    split; [done|]. split; [done|]. exists (st0 :: skipped). simpl. by rewrite Hg.
Qed.

Lemma advance_returned registry requirements stages context final :
  advance registry requirements stages context = Returned final →
  final = context ∧ List.filter (guard registry requirements) stages = [].
Proof.
  induction stages as [|st0 stages IH]; simpl; [by intros [= ->]|].
  destruct (guard registry requirements st0) eqn:Hg; [done|]. apply IH.
Qed.

(** A stage whose agent is not registered is skipped. *)
Lemma missing_agent_skips_the_stage registry requirements st rest context :
  registry !! Stage.agent st = None →
  advance registry requirements (st :: rest) context =
  advance registry requirements rest context.
Proof.
  intros Hnone. simpl. unfold guard. rewrite Hnone.
  rewrite bool_decide_eq_false_2 by (by intros [? [=]]).
  by rewrite andb_false_r.
Qed.

Lemma progress_log_app taskId l1 l2 :
  progress_log taskId (l1 ++ l2) =
  progress_log taskId l1 ++ progress_log taskId l2.
Proof.
  induction l1 as [|e l1 IH]; simpl; [done|].
  destruct e; try done. case_decide; [by rewrite IH | done].
Qed.

Lemma progress_log_elem taskId p l :
  p ∈ progress_log taskId l ↔ taskProgress taskId p ∈ l.
Proof.
  induction l as [|e l IH]; simpl.
  - by rewrite !elem_of_nil.
  - rewrite elem_of_cons.
    destruct e as [|k q| | | |];
      try (rewrite IH; split; [by right | by intros [[=]|?]]).
    case_decide as Hk.
    + subst k. rewrite elem_of_cons, IH.
      split; [intros [->|?]; [by left | by right]
             | intros [[= ->]|?]; [by left | by right]].
    + rewrite IH. split; [by right|]. intros [[= ? ?]|?]; [by subst | done].
Qed.

Lemma frame_ok_bound f t : frame_ok f t → Task.progress t ≤ 100.
Proof.
  intros [_ H]. destruct f as [? st rest ?|?|?|[?|?]]; try lia.
  by apply ascending_bound in H.
Qed.

(** The records left after the due timers have run. *)
Lemma lookup_fold_delete (due : list (N * nat)) (m : gmap nat Task.t) k :
  fold_left (λ m tm, delete tm.2 m) due m !! k =
  if decide (k ∈ due.*2) then None else m !! k.
Proof.
  revert m. induction due as [|[d j] due IH]; intros m.
  - simpl. destruct (decide (k ∈ [])) as [H|H]; [by apply elem_of_nil in H | done].
  - cbn [fold_left]. rewrite IH. rewrite fmap_cons. cbn [snd].
    destruct (decide (k ∈ due.*2)) as [Hin|Hnin].
    + rewrite decide_True; [done | by apply elem_of_cons; right].
    + destruct (decide (k = j)) as [->|Hne].
      * rewrite lookup_delete_eq.
        rewrite decide_True; [done | by apply elem_of_cons; left].
      * rewrite lookup_delete_ne by done. rewrite decide_False; [done|].
        intros [?|?]%elem_of_cons; done.
Qed.

(* ===================================================================== *)
(** ** The invariant is kept by each elementary change *)
(* ===================================================================== *)

Section elementary_changes.
Context (tasks : gmap nat Task.t) (frs : gmap nat frame)
  (tms : list (N * nat)) (drawn : nat) (log : list event).
Hypothesis I : Inv tasks frs tms drawn log.

Lemma Inv_fresh_task : tasks !! drawn = None.
Proof.
  destruct (tasks !! drawn) eqn:E; [|done].
  assert (drawn < drawn) by (apply (inv_fresh _ _ _ _ _ I); by rewrite E). lia.
Qed.

Lemma Inv_fresh_frame : frs !! drawn = None.
Proof.
  destruct (frs !! drawn) eqn:E; [|done].
  destruct (inv_frames _ _ _ _ _ I _ _ E) as (t & Ht & _).
  by rewrite Inv_fresh_task in Ht.
Qed.

Lemma Inv_frame_lt taskId f : frs !! taskId = Some f → taskId < drawn.
Proof.
  intros E. destruct (inv_frames _ _ _ _ _ I _ _ E) as (t & Ht & _).
  apply (inv_fresh _ _ _ _ _ I). by rewrite Ht.
Qed.

(** More uuids are drawn. *)
Lemma Inv_draw drawn' : drawn ≤ drawn' → Inv tasks frs tms drawn' log.
Proof.
  intros Hle. destruct I as [Hf Hs Hfr Ht He Hl Hso]. split; try done.
  - intros k Hk. specialize (Hfr k Hk). lia.
  - intros d k Hk. destruct (Ht d k Hk). split; [done | lia].
  - intros e k He1 He2. specialize (He e k He1 He2). lia.
Qed.

(** A task is created under the next uuid and its invocation suspends. *)
Lemma Inv_new t f :
  frame_ok f t →
  Inv (<[drawn := t]> tasks) (<[drawn := f]> frs) tms (S drawn) log.
Proof.
  intros Hok. pose proof Inv_fresh_task as Hnt. pose proof Inv_fresh_frame as Hnf.
  destruct I as [Hf Hs Hfr Ht He Hl Hso]. split.
  - intros k f0. rewrite !lookup_insert. case_decide as Hk.
    + intros [= <-]. eauto.
    + apply Hf.
  - intros k t0. rewrite !lookup_insert. case_decide; [done | apply Hs].
  - intros k. rewrite lookup_insert. case_decide as Hk; [lia|].
    intros H. specialize (Hfr k H). lia.
  - intros d k Hk. destruct (Ht d k Hk) as [? ?].
    rewrite lookup_insert_ne by lia. split; [done | lia].
  - intros e k He1 He2. specialize (He e k He1 He2). lia.
  - intros k p t0 Hp. pose proof (He _ k Hp eq_refl).
    rewrite lookup_insert_ne by lia. by apply Hl.
  - done.
Qed.

(** A suspended invocation moves to another frame. *)
Lemma Inv_frame taskId t f' :
  is_Some (frs !! taskId) → tasks !! taskId = Some t → frame_ok f' t →
  Inv tasks (<[taskId := f']> frs) tms drawn log.
Proof.
  intros Hsome Htask Hok. destruct I as [Hf Hs Hfr Ht He Hl Hso].
  split; try done.
  - intros k f0. rewrite lookup_insert. case_decide as Hk.
    + subst k. intros [= <-]. eauto.
    + apply Hf.
  - intros k t0. rewrite lookup_insert. case_decide; [done | apply Hs].
  - intros d k Hk. destruct (Ht d k Hk) as [Hnone ?]. split; [|done].
    rewrite lookup_insert_ne; [done|]. intros ->. rewrite Hnone in Hsome.
    by destruct Hsome.
Qed.

(** [task.progress = p] and its event, for a suspended invocation. *)
Lemma Inv_progress taskId f t p :
  frs !! taskId = Some f → tasks !! taskId = Some t →
  Task.progress t ≤ p → frame_ok f (Task.set_progress p t) →
  Inv (alter (Task.set_progress p) taskId tasks) frs tms drawn
    (log ++ [taskProgress taskId p]).
Proof.
  intros Hfr0 Htask Hle Hok. pose proof (Inv_frame_lt _ _ Hfr0) as Hlt.
  destruct I as [Hf Hs Hfr Ht He Hl Hso]. split; try done.
  - intros k f0 Hk. rewrite lookup_alter. case_decide as Hkk.
    + subst k. rewrite Htask. simpl. rewrite Hfr0 in Hk. injection Hk as <-.
      eauto.
    + by apply Hf.
  - intros k t0. rewrite lookup_alter. case_decide as Hkk.
    + subst k. intros _ Hnone. by rewrite Hfr0 in Hnone.
    + apply Hs.
  - intros k. rewrite lookup_alter.
    case_decide as Hkk; [subst; lia | apply Hfr].
  - intros e k. rewrite elem_of_app, list_elem_of_singleton.
    intros [Hin| ->]; [by apply He|]. simpl. intros [= <-]. done.
  - intros k q t0. rewrite elem_of_app, list_elem_of_singleton, lookup_alter.
    case_decide as Hkk.
    + subst k. rewrite Htask. simpl. intros Hin [= <-]. simpl.
      destruct Hin as [Hin|[= <-]]; [|lia].
      specialize (Hl _ _ _ Hin Htask). lia.
    + intros [Hin|[= <- <-]]; [by apply Hl | done].
  - intros k. rewrite progress_log_app. simpl.
    case_decide as Hkk; [|rewrite app_nil_r; apply Hso].
    subst k. apply StronglySorted_app_2; [|apply Hso | repeat constructor].
    intros x y Hx Hy. apply list_elem_of_singleton in Hy as ->.
    apply progress_log_elem in Hx. specialize (Hl _ _ _ Hx Htask). lia.
Qed.

(** An invocation ends: the record gets its terminal status, the frame
    goes, the terminal event is emitted and the cleanup timer is set. *)
Lemma Inv_finish taskId f g ev d :
  frs !! taskId = Some f →
  (∀ t, frame_ok f t → settled_ok (g t)) →
  (∀ t, Task.progress (g t) = Task.progress t) →
  event_task ev = Some taskId → progress_log taskId [ev] = [] →
  Inv (alter g taskId tasks) (delete taskId frs) (tms ++ [(d, taskId)]) drawn
    (log ++ [ev]).
Proof.
  intros Hfr0 Hg Hgp Hev Hnp. pose proof (Inv_frame_lt _ _ Hfr0) as Hlt.
  destruct I as [Hf Hs Hfr Ht He Hl Hso]. split.
  - intros k f0. destruct (decide (taskId = k)) as [<-|Hne].
    + by rewrite lookup_delete_eq.
    + rewrite lookup_delete_ne, lookup_alter_ne by done. apply Hf.
  - intros k t0. destruct (decide (taskId = k)) as [<-|Hne].
    + rewrite lookup_alter_eq. destruct (Hf _ _ Hfr0) as (t & -> & Hok).
      simpl. intros [= <-] _. by apply Hg.
    + rewrite lookup_delete_ne, lookup_alter_ne by done. apply Hs.
  - intros k. destruct (decide (taskId = k)) as [<-|Hne]; [done|].
    rewrite lookup_alter_ne by done. apply Hfr.
  - intros d0 k. rewrite elem_of_app, list_elem_of_singleton.
    intros [Hin|[= -> ->]].
    + destruct (Ht _ _ Hin) as [Hnone ?]. split; [|done].
      destruct (decide (taskId = k)) as [<-|Hne];
        [by rewrite lookup_delete_eq | by rewrite lookup_delete_ne].
    + by rewrite lookup_delete_eq.
  - intros e k. rewrite elem_of_app, list_elem_of_singleton.
    intros [Hin| ->]; [by apply He|]. rewrite Hev. by intros [= <-].
  - intros k q t0. rewrite elem_of_app, list_elem_of_singleton.
    intros [Hin|Heq].
    + destruct (decide (taskId = k)) as [<-|Hne];
        [|rewrite lookup_alter_ne by done; by apply Hl].
      rewrite lookup_alter_eq.
      destruct (tasks !! taskId) as [t|] eqn:Htask; [|done]. simpl.
      intros [= <-]. rewrite Hgp. by apply (Hl _ _ _ Hin).
    + subst ev. simpl in Hev. injection Hev as ->. simpl in Hnp.
      by rewrite decide_True in Hnp by done.
  - intros k. rewrite progress_log_app.
    assert (progress_log k [ev] = []) as ->; [|rewrite app_nil_r; apply Hso].
    destruct ev as [|j q| | | |]; try done. simpl in *. injection Hev as ->.
    by rewrite decide_True in Hnp by done.
Qed.

(** A request is rejected: no record exists under the uuid just drawn. *)
Lemma Inv_invalid g e d :
  Inv (alter g drawn tasks) frs (tms ++ [(d, drawn)]) (S drawn)
    (log ++ [taskFailed drawn e]).
Proof.
  pose proof Inv_fresh_task as Hnt. pose proof Inv_fresh_frame as Hnf.
  assert (alter g drawn tasks = tasks) as ->.
  { apply map_eq. intros k. rewrite lookup_alter. case_decide; [subst|done].
    by rewrite Hnt. }
  destruct I as [Hf Hs Hfr Ht He Hl Hso]. split; try done.
  - intros k Hk. specialize (Hfr k Hk). lia.
  - intros d0 k. rewrite elem_of_app, list_elem_of_singleton.
    intros [Hin|[= -> ->]]; [|split; [done|lia]].
    destruct (Ht _ _ Hin). split; [done|lia].
  - intros e0 k. rewrite elem_of_app, list_elem_of_singleton.
    intros [Hin| ->]; [intros H; specialize (He _ _ Hin H); lia|].
    simpl. intros [= <-]. lia.
  - intros k q t0. rewrite elem_of_app, list_elem_of_singleton.
    intros [Hin|[=]]. by apply Hl.
  - intros k. rewrite progress_log_app. simpl. rewrite app_nil_r. apply Hso.
Qed.

(** Timers run. *)
Lemma Inv_elapse (due later : list (N * nat)) :
  due ⊆ tms → later ⊆ tms →
  Inv (fold_left (λ m tm, delete tm.2 m) due tasks) frs later drawn log.
Proof.
  intros Hdue Hlater. destruct I as [Hf Hs Hfr Ht He Hl Hso]. split; try done.
  - intros k f Hk. rewrite lookup_fold_delete.
    case_decide as Hin; [|by apply Hf].
    apply list_elem_of_fmap in Hin as ([d j] & -> & Hin). simpl in Hk.
    apply Hdue in Hin. destruct (Ht _ _ Hin) as [Hnone _].
    by rewrite Hnone in Hk.
  - intros k t. rewrite lookup_fold_delete. case_decide; [done | apply Hs].
  - intros k. rewrite lookup_fold_delete.
    case_decide; [by intros [? [=]] | apply Hfr].
  - intros d k Hin. apply Ht with d. by apply Hlater.
  - intros k q t Hin. rewrite lookup_fold_delete.
    case_decide; [done | by apply Hl].
Qed.

(** An event that is about no task. *)
Lemma Inv_event ev :
  event_task ev = None → Inv tasks frs tms drawn (log ++ [ev]).
Proof.
  intros Hev. destruct I as [Hf Hs Hfr Ht He Hl Hso]. split; try done.
  - intros e k. rewrite elem_of_app, list_elem_of_singleton.
    intros [Hin| ->]; [by apply He | by rewrite Hev].
  - intros k q t. rewrite elem_of_app, list_elem_of_singleton.
    intros [Hin| <-]; [by apply Hl | done].
  - intros k. rewrite progress_log_app.
    assert (progress_log k [ev] = []) as ->; [by destruct ev|].
    rewrite app_nil_r. apply Hso.
Qed.

End elementary_changes.

(* ===================================================================== *)
(** ** The invariant holds in every reachable state *)
(* ===================================================================== *)

Lemma inv_executeTask r s : inv s → inv (executeTask r s).
Proof.
  unfold inv. intros I. unfold executeTask.
  destruct (validateTaskRequest r); cbn [negb];
    [|read_state; apply (Inv_invalid _ _ _ _ _ I)].
  set (task := new_task _ _ _).
  assert (Task.status task = "pending") as Hst by done.
  assert (Task.progress task = 0) as Hpr by done.
  clearbody task.
  assert (∀ f, frame_ok f task →
    Inv (<[uuids s := task]> (runningTasks s)) (<[uuids s := f]> (frames s))
      (timers s) (S (uuids s)) (emitted s)) as Hnew
    by (intros f; apply (Inv_new _ _ _ _ _ I)).
  assert (∀ e, frame_ok (awaiting_workflow (Js.Throw e)) task) as Hthrow
    by (intros e; split; [done | lia]).
  unfold executeTaskWorkflow.
  destruct (workflow_method (Task.type task)) as [name|];
    [|read_state; apply Hnew, Hthrow].
  unfold call_workflow, workflow_body.
  destruct (String.eqb name "executeCreateProjectWorkflow").
  { unfold executeCreateProjectWorkflow, enter. read_state.
    destruct (advance _ _ create_stages _) as [st rest ctx|ctx] eqn:Hadv;
      read_state.
    - apply Inv_draw with (S (uuids s)); [|lia]. apply Hnew. split; [done|].
      apply advance_suspended in Hadv as (_ & _ & skipped & Heq & _).
      apply (ascending_suffix _ skipped). rewrite <- Heq, Hpr.
      apply ascending_create_stages.
    - apply Inv_draw with (S (uuids s)); [|lia].
      rewrite <- (insert_insert_eq (frames s) (uuids s) _ neutral).
      pose proof (Inv_progress _ _ _ _ _ (Hnew _ (Hthrow (Js.Error "")))
                    (uuids s) neutral task 100) as I2.
      eapply Inv_frame.
      + apply I2; [by rewrite lookup_insert_eq | by rewrite lookup_insert_eq
                  | lia | split; simpl; [done|lia]].
      + by rewrite lookup_insert_eq.
      + by rewrite lookup_alter_eq, lookup_insert_eq.
      + split; done. }
  destruct (String.eqb name "executeDebugWorkflow").
  { unfold executeDebugWorkflow. read_state.
    destruct (bool_decide _); read_state; apply Hnew; [|apply Hthrow].
    split; [done | simpl; lia]. }
  read_state. apply Hnew, Hthrow.
Qed.

Lemma inv_resume taskId reply s : inv s → inv (resume taskId reply s).
Proof.
  unfold inv. intros I. unfold resume.
  destruct (frames s !! taskId) as [f|] eqn:Hf; [|done].
  destruct (inv_frames _ _ _ _ _ I _ _ Hf) as (t & Ht & Hok).
  pose proof (frame_ok_bound _ _ Hok) as Hb.
  assert (∀ e, Inv (runningTasks s)
                 (<[taskId := awaiting_workflow (Js.Throw e)]> (frames s))
                 (timers s) (uuids s) (emitted s)) as Hthrow.
  { intros e. apply Inv_frame with t; [done | by rewrite Hf | done |].
    split; [apply Hok | done]. }
  assert (∀ p f', Task.progress t ≤ p → p ≤ 100 →
            frame_ok f' (Task.set_progress p t) →
            Inv (alter (Task.set_progress p) taskId (runningTasks s))
              (<[taskId := f']> (frames s)) (timers s) (uuids s)
              (emitted s ++ [taskProgress taskId p])) as Hmove.
  { intros p f' Hle Hp Hok'.
    rewrite <- (insert_insert_eq (frames s) taskId _ neutral).
    eapply Inv_frame;
      [|by rewrite lookup_insert_eq|by rewrite lookup_alter_eq, Ht|done].
    apply Inv_progress with neutral t;
      [|by rewrite lookup_insert_eq|done|done|].
    - apply Hthrow.
    - split; [apply Hok | done]. }
  destruct f as [requirements st rest context|files|analysis|[result|e]].
  - destruct Hok as [Hst [Hc Hrest]].
    destruct (stage_outcome _ _ _) as [v|e]; [|read_state; apply Hthrow].
    unfold enter.
    destruct (advance _ _ rest _) as [st' rest' ctx'|ctx'] eqn:Hadv; read_state.
    + apply Hmove; [done | by apply ascending_bound in Hrest |].
      split; [done|]. cbn [Task.progress Task.set_progress].
      apply advance_suspended in Hadv as (_ & _ & skipped & -> & _).
      by apply ascending_suffix in Hrest.
    + pose proof (ascending_bound _ _ Hrest) as Hc100.
      specialize (Hmove (Stage.checkpoint st) neutral Hc Hc100).
      rewrite <- (insert_insert_eq (frames s) taskId _ neutral).
      eapply Inv_frame; [|by rewrite lookup_insert_eq
                         |by rewrite !lookup_alter_eq, Ht|by split].
      apply Inv_progress
        with neutral (Task.set_progress (Stage.checkpoint st) t);
        [|by rewrite lookup_insert_eq|by rewrite lookup_alter_eq, Ht|done
         |split; [done | simpl; lia]].
      apply Hmove. split; [done | simpl; lia].
  - destruct Hok as [Hst Hp].
    destruct (BaseAgent.analyzeCode _ _) as [analysis|e]; read_state;
      [|apply Hthrow].
    apply Hmove; [done | lia | split; [done | simpl; lia]].
  - destruct Hok as [Hst Hp].
    destruct reply as [fixes|e]; read_state; [|apply Hthrow].
    apply Hmove; [done | lia | by split].
  - read_state. apply Inv_finish with (awaiting_workflow (Js.Ok result));
      try done.
    intros t0 [Hst Hp]. right. by split.
  - read_state. apply Inv_finish with (awaiting_workflow (Js.Throw e));
      try done.
    intros t0 [Hst Hp]. left. by split.
Qed.

Lemma inv_elapse ms s : inv s → inv (elapse ms s).
Proof.
  unfold inv, elapse. intros I. read_state.
  apply (Inv_elapse _ _ _ _ _ I); intros x; apply elem_of_List_filter.
Qed.

Lemma inv_processTaskQueue s : inv s → inv (processTaskQueue s).
Proof.
  intros I. unfold processTaskQueue.
  destruct (taskQueue s) as [|r q]; [done|].
  destruct (_ <=? _)%Z; [done|]. by apply inv_executeTask.
Qed.

Lemma inv_agent_executeTask key task s :
  inv s → inv (agent_executeTask key task s).
Proof.
  intros I. unfold agent_executeTask.
  destruct (agents s !! key) as [en|]; [|done].
  by destruct (BaseAgent.executeTask_enter _ _).
Qed.

Lemma inv_agent_resume key reply s : inv s → inv (agent_resume key reply s).
Proof.
  unfold inv. intros I. unfold agent_resume.
  destruct (agents s !! key) as [en|]; [|done].
  destruct (BaseAgent.busy _); [|done].
  unfold BaseAgent.executeTask_resume.
  destruct (BaseAgent.processTask _ _ _); read_state; by apply Inv_event.
Qed.

Lemma inv_step s a : inv s → inv (step s a).
Proof.
  destruct a; simpl;
    auto using inv_executeTask, inv_resume, inv_elapse, inv_processTaskQueue,
      inv_agent_executeTask, inv_agent_resume.
Qed.

Lemma inv_run s acts : inv s → inv (run s acts).
Proof.
  revert s. induction acts as [|a acts IH]; intros s I; [done|].
  simpl. by apply IH, inv_step.
Qed.

(** [initializeAgents] writes the registry only. *)
Lemma initializeAgents_tasks boots s :
  let s' := initializeAgents boots s in
  runningTasks s' = runningTasks s ∧ frames s' = frames s ∧
  timers s' = timers s ∧ uuids s' = uuids s ∧ emitted s' = emitted s ∧
  taskQueue s' = taskQueue s ∧ maxConcurrentTasks s' = maxConcurrentTasks s.
Proof.
  unfold initializeAgents. generalize agentClasses. intros l. revert s.
  induction l as [|[[name class] description] l IH]; intros s; [done|].
  simpl. destruct (boots name); [|apply IH].
  destruct (IH (upd_agents (insert name
     {| Entry.instance := BaseAgent.initialize (BaseAgent.new class);
        Entry.description := description; Entry.status := "ready";
        Entry.currentTask := Js.Null; Entry.completedTasks := 0;
        Entry.errors := [] |}) s)) as (-> & -> & -> & -> & -> & -> & ->).
  done.
Qed.

Lemma inv_boot mx tm boots : inv (boot mx tm boots).
Proof.
  unfold inv, boot, initialize. simpl. read_state.
  destruct (initializeAgents_tasks boots (new mx tm))
    as (-> & -> & -> & -> & -> & _).
  simpl. apply (Inv_event _ _ _ _ []); [|done]. split.
  - intros k f Hk. by rewrite lookup_empty in Hk.
  - intros k t Hk. by rewrite lookup_empty in Hk.
  - intros k [t Ht]. by rewrite lookup_empty in Ht.
  - intros d k Hin. by apply elem_of_nil in Hin.
  - intros e k Hin. by apply elem_of_nil in Hin.
  - intros k p t Hin. by apply elem_of_nil in Hin.
  - intros k. constructor.
Qed.

Lemma reachable_inv s : reachable s → inv s.
Proof. intros (mx & tm & boots & acts & ->). apply inv_run, inv_boot. Qed.

(** A task record is pending while its invocation is suspended, and has a
    terminal status afterwards. *)
Lemma status_of_task s taskId t :
  inv s → runningTasks s !! taskId = Some t →
  match frames s !! taskId with
  | Some _ => Task.status t = "pending"
  | None => settled_ok t
  end.
Proof.
  intros I Ht. destruct (frames s !! taskId) as [f|] eqn:Hf.
  - destruct (inv_frames _ _ _ _ _ I _ _ Hf) as (t0 & Ht0 & Hst & _).
    congruence.
  - by apply (inv_settled _ _ _ _ _ I taskId).
Qed.

(* ===================================================================== *)
(** ** A transition touches one task *)
(* ===================================================================== *)

Lemma view_task s s' taskId :
  view s' taskId = view s taskId →
  runningTasks s' !! taskId = runningTasks s !! taskId.
Proof. unfold view. by intros [= _ -> _]. Qed.

Lemma executeTask_other r s taskId :
  taskId ≠ uuids s → view (executeTask r s) taskId = view s taskId.
Proof.
  intros Hlt. unfold executeTask.
  destruct (validateTaskRequest r); cbn [negb]; [|by other_ids].
  unfold executeTaskWorkflow.
  destruct (workflow_method _) as [name|]; [|by other_ids].
  unfold call_workflow, workflow_body.
  destruct (String.eqb name "executeCreateProjectWorkflow").
  { unfold executeCreateProjectWorkflow, enter. read_state.
    destruct (advance _ _ create_stages _); by other_ids. }
  destruct (String.eqb name "executeDebugWorkflow"); [|by other_ids].
  unfold executeDebugWorkflow. read_state. destruct (bool_decide _); by other_ids.
Qed.

Lemma resume_other taskId0 reply s taskId :
  taskId ≠ taskId0 → view (resume taskId0 reply s) taskId = view s taskId.
Proof.
  intros Hne. unfold resume.
  destruct (frames s !! taskId0) as [f|]; [|done].
  destruct f as [requirements st rest context|files|analysis|[result|e]].
  - destruct (stage_outcome _ _ _); [|by other_ids].
    unfold enter. destruct (advance _ _ rest _); by other_ids.
  - destruct (BaseAgent.analyzeCode _ _); by other_ids.
  - destruct reply; by other_ids.
  - by other_ids.
  - by other_ids.
Qed.

Lemma elapse_suspended ms s taskId :
  inv s → is_Some (frames s !! taskId) →
  view (elapse ms s) taskId = view s taskId.
Proof.
  intros I [f Hf]. unfold view, elapse. read_state.
  rewrite lookup_fold_delete, decide_False; [done|].
  intros ([d k] & -> & Hin%elem_of_List_filter)%list_elem_of_fmap.
  destruct (inv_timers _ _ _ _ _ I _ _ Hin) as [Hnone _]. simpl in Hf.
  congruence.
Qed.

Lemma agent_executeTask_view key task s taskId :
  view (agent_executeTask key task s) taskId = view s taskId.
Proof.
  unfold agent_executeTask. destruct (agents s !! key); [|done].
  by destruct (BaseAgent.executeTask_enter _ _).
Qed.

Lemma agent_resume_view key reply s taskId :
  view (agent_resume key reply s) taskId = view s taskId.
Proof.
  unfold agent_resume. destruct (agents s !! key); [|done].
  destruct (BaseAgent.busy _); [|done]. unfold BaseAgent.executeTask_resume.
  by destruct (BaseAgent.processTask _ _ _).
Qed.

Lemma elapse_keeps ms s taskId :
  inv s → is_Some (frames s !! taskId) ∨ runningTasks s !! taskId = None →
  view (elapse ms s) taskId = view s taskId.
Proof.
  intros I [Hf|Hnone]; [by apply elapse_suspended|].
  unfold view, elapse. read_state. rewrite lookup_fold_delete.
  case_decide; by rewrite ?Hnone.
Qed.

(** Nothing but its own resumption changes a task whose invocation is
    suspended, or one that has no record. *)
Lemma step_keeps s a taskId :
  inv s → taskId < uuids s →
  is_Some (frames s !! taskId) ∨ runningTasks s !! taskId = None →
  leaves taskId a = true →
  view (step s a) taskId = view s taskId.
Proof.
  intros I Hlt Hc Hl.
  destruct a as [r|k reply|ms| |key task|key reply]; simpl.
  - apply executeTask_other. lia.
  - apply resume_other. simpl in Hl.
    apply negb_true_iff, Nat.eqb_neq in Hl. done.
  - by apply elapse_keeps.
  - unfold processTaskQueue. destruct (taskQueue s) as [|r q]; [done|].
    destruct (_ <=? _)%Z; [done|].
    rewrite executeTask_other; [done | simpl; lia].
  - apply agent_executeTask_view.
  - apply agent_resume_view.
Qed.

Lemma elem_of_events_about taskId e l :
  e ∈ events_about taskId l ↔ e ∈ l ∧ event_task e = Some taskId.
Proof.
  unfold events_about. rewrite !list_elem_of_In, filter_In.
  by rewrite bool_decide_eq_true.
Qed.

Lemma executeTask_events r s taskId :
  taskId ≠ uuids s →
  events_about taskId (emitted (executeTask r s)) =
  events_about taskId (emitted s).
Proof.
  intros Hne. open_executeTask.
  destruct (validateTaskRequest r); cbn [negb]; [|by other_events].
  destruct (workflow_method _) as [name|]; [|by other_events].
  destruct (String.eqb name "executeCreateProjectWorkflow").
  { read_state. destruct (advance _ _ create_stages _); by other_events. }
  destruct (String.eqb name "executeDebugWorkflow"); [|by other_events].
  read_state. destruct (bool_decide _); by other_events.
Qed.

Lemma resume_events taskId0 reply s taskId :
  taskId ≠ taskId0 →
  events_about taskId (emitted (resume taskId0 reply s)) =
  events_about taskId (emitted s).
Proof.
  intros Hne. unfold resume.
  destruct (frames s !! taskId0) as [f|]; [|done].
  destruct f as [requirements st rest context|files|analysis|[result|e]].
  - destruct (stage_outcome _ _ _); [|by other_events].
    unfold enter. destruct (advance _ _ rest _); by other_events.
  - destruct (BaseAgent.analyzeCode _ _); by other_events.
  - destruct reply; by other_events.
  - by other_events.
  - by other_events.
Qed.

(** Nothing but its own resumption emits an event about a task that
    exists. *)
Lemma step_events s a taskId :
  taskId < uuids s → leaves taskId a = true →
  events_about taskId (emitted (step s a)) = events_about taskId (emitted s).
Proof.
  intros Hlt Hl. destruct a as [r|k reply|ms| |key task|key reply]; simpl.
  - apply executeTask_events. lia.
  - apply resume_events. simpl in Hl.
    apply negb_true_iff, Nat.eqb_neq in Hl. done.
  - done.
  - unfold processTaskQueue. destruct (taskQueue s) as [|r q]; [done|].
    destruct (_ <=? _)%Z; [done|].
    rewrite executeTask_events; [done | simpl; lia].
  - unfold agent_executeTask. destruct (agents s !! key); [|done].
    by destruct (BaseAgent.executeTask_enter _ _).
  - unfold agent_resume. destruct (agents s !! key); [|done].
    destruct (BaseAgent.busy _); [|done]. unfold BaseAgent.executeTask_resume.
    destruct (BaseAgent.processTask _ _ _); by other_events.
Qed.

(** Uuids are only drawn. *)
Lemma uuids_step s a : uuids s ≤ uuids (step s a).
Proof.
  destruct a as [r|k reply|ms| |key task|key reply]; cbn [step].
  - open_executeTask. same_branches; lia.
  - unfold resume.
    destruct (frames s !! k)
      as [[requirements st rest context|files|analysis|[result|e]]|];
      try reflexivity; unfold enter; same_branches; try lia.
    destruct reply; read_state; lia.
  - unfold elapse. read_state. lia.
  - unfold processTaskQueue. destruct (taskQueue s) as [|r q]; [done|].
    destruct (_ <=? _)%Z; [done|]. open_executeTask. same_branches; lia.
  - unfold agent_executeTask. destruct (agents s !! key); [|done].
    same_branches.
  - unfold agent_resume. destruct (agents s !! key); [|done].
    unfold BaseAgent.executeTask_resume. same_branches.
Qed.

Lemma executeTask_draws r s : uuids s < uuids (executeTask r s).
Proof. open_executeTask. same_branches; lia. Qed.

Lemma run_keeps s acts taskId :
  inv s → taskId < uuids s →
  is_Some (frames s !! taskId) ∨ runningTasks s !! taskId = None →
  forallb (leaves taskId) acts = true →
  view (run s acts) taskId = view s taskId ∧
  events_about taskId (emitted (run s acts)) = events_about taskId (emitted s).
Proof.
  revert s. induction acts as [|a acts IH]; intros s I Hlt Hc Hl; [done|].
  simpl in *. apply andb_true_iff in Hl as [Ha Hacts].
  pose proof (step_keeps s a taskId I Hlt Hc Ha) as Hv.
  pose proof (step_events s a taskId Hlt Ha) as He.
  pose proof (uuids_step s a) as Hu.
  destruct (IH (step s a)) as [Hv' He']; [by apply inv_step | lia | | done |].
  - unfold view in Hv. injection Hv as -> -> _. done.
  - by rewrite Hv', He'.
Qed.

Lemma task_step_refl t : task_step t t.
Proof. split; [done | by left]. Qed.

Lemma resume_task taskId reply s t t' :
  inv s → runningTasks s !! taskId = Some t →
  runningTasks (resume taskId reply s) !! taskId = Some t' → task_step t t'.
Proof.
  intros I Ht. unfold resume.
  destruct (frames s !! taskId) as [f|] eqn:Hf;
    [|intros; simplify_eq; apply task_step_refl].
  destruct (inv_frames _ _ _ _ _ I _ _ Hf) as (t0 & Ht0 & Hok).
  assert (t0 = t) as -> by congruence.
  pose proof (frame_ok_bound _ _ Hok) as Hb. destruct Hok as [Hst Hok].
  assert (∀ p, Task.progress t ≤ p → task_step t (Task.set_progress p t))
    as Hset by (intros p Hp; split; [done | by left]).
  destruct f as [requirements st rest context|files|analysis|[result|e]].
  - destruct Hok as [Hc Hrest]. pose proof (ascending_bound _ _ Hrest).
    destruct (stage_outcome _ _ _);
      [|read_state; intros; simplify_eq; apply task_step_refl].
    unfold enter. destruct (advance _ _ rest _); read_state;
      rewrite ?lookup_alter_eq, Ht; simpl; intros [= <-]; [by apply Hset|].
    split; [simpl; lia | by left].
  - destruct (BaseAgent.analyzeCode _ _); read_state;
      rewrite ?lookup_alter_eq, Ht; simpl; intros [= <-];
      [by apply Hset | apply task_step_refl].
  - destruct reply; read_state;
      rewrite ?lookup_alter_eq, Ht; simpl; intros [= <-];
      [by apply Hset | apply task_step_refl].
  - read_state. rewrite lookup_alter_eq, Ht. simpl. intros [= <-].
    split; [done|]. right. split; [done | by left].
  - read_state. rewrite lookup_alter_eq, Ht. simpl. intros [= <-].
    split; [done|]. right. split; [done | by right].
Qed.

(** What a transition does to a record that is there before and after. *)
Lemma step_task s a taskId t t' :
  inv s → runningTasks s !! taskId = Some t →
  runningTasks (step s a) !! taskId = Some t' → task_step t t'.
Proof.
  intros I Ht.
  assert (taskId < uuids s) as Hlt
    by (apply (inv_fresh _ _ _ _ _ I); by rewrite Ht).
  assert (∀ s', view s' taskId = view s taskId →
                runningTasks s' !! taskId = Some t' → task_step t t') as Hsame.
  { intros s' Hv%view_task. rewrite Hv, Ht. intros [= <-].
    apply task_step_refl. }
  destruct a as [r|k reply|ms| |key task|key reply]; simpl.
  - apply Hsame, executeTask_other. lia.
  - destruct (decide (taskId = k)) as [<-|Hne]; [by apply resume_task|].
    by apply Hsame, resume_other.
  - unfold elapse. read_state. rewrite lookup_fold_delete.
    case_decide; [done|]. rewrite Ht. intros [= <-]. apply task_step_refl.
  - unfold processTaskQueue. destruct (taskQueue s) as [|r q];
      [rewrite Ht; intros [= <-]; apply task_step_refl|].
    destruct (_ <=? _)%Z; [rewrite Ht; intros [= <-]; apply task_step_refl|].
    intros H. apply (Hsame _ (executeTask_other r (set_taskQueue q s) taskId
                                ltac:(simpl; lia))). done.
  - apply Hsame, agent_executeTask_view.
  - apply Hsame, agent_resume_view.
Qed.

(** *** What [executeTask] and [resume] do in particular cases *)

Lemma resume_idle taskId reply s :
  frames s !! taskId = None → resume taskId reply s = s.
Proof. unfold resume. by intros ->. Qed.

Lemma resume_thrown taskId reply s e :
  frames s !! taskId = Some (awaiting_workflow (Js.Throw e)) →
  resume taskId reply s = catch_ taskId e (upd_frames (delete taskId) s).
Proof. unfold resume. by intros ->. Qed.

Lemma resume_returned taskId reply s result :
  frames s !! taskId = Some (awaiting_workflow (Js.Ok result)) →
  resume taskId reply s = succeed taskId result (upd_frames (delete taskId) s).
Proof. unfold resume. by intros ->. Qed.

Lemma executeTask_invalid r s :
  validateTaskRequest r = false →
  executeTask r s =
  catch_ (uuids s) (Js.Error "Invalid task request") (draw_uuid s).
Proof. unfold executeTask. by intros ->. Qed.

(** A valid request whose workflow throws at once: the [default] of the
    dispatcher, or a [case] that calls a method the class lacks. *)
Lemma executeTask_throwing r s name :
  validateTaskRequest r = true →
  workflow_method (Request.type r) = name →
  match name with
  | Some m => workflow_body m = None
  | None => True
  end →
  executeTask r s =
  suspend (uuids s)
    (awaiting_workflow
       (Js.Throw
          match name with
          | Some m => Js.TypeError ("this." +:+ m +:+ " is not a function")
          | None => Js.Error ("Unsupported task type: " +:+
                              Js.to_string (Request.type r))
          end))
    (upd_runningTasks (insert (uuids s) (new_task (uuids s) r (now s)))
       (draw_uuid s)).
Proof.
  unfold executeTask, executeTaskWorkflow. intros -> Hm.
  cbn [negb new_task Task.type].
  rewrite Hm. destruct name as [m|]; [|done].
  unfold call_workflow. by intros ->.
Qed.

Lemma executeTask_agents r s : agents (executeTask r s) = agents s.
Proof. open_executeTask. same_branches. Qed.

Lemma executeTask_taskQueue r s : taskQueue (executeTask r s) = taskQueue s.
Proof. open_executeTask. same_branches. Qed.

Lemma executeTask_frame r s :
  validateTaskRequest r = true → is_Some (frames (executeTask r s) !! uuids s).
Proof.
  intros Hv. open_executeTask.
  rewrite Hv. same_branches; by rewrite lookup_insert_eq.
Qed.



(* ===================================================================== *)
(** ** C1: the concurrency cap *)
(* ===================================================================== *)

(** [executeTask] does not read [maxConcurrentTasks]: under another cap
    it does the same. *)
Lemma executeTask_ignores_the_cap m r s :
  executeTask r (set_maxConcurrentTasks m s) =
  set_maxConcurrentTasks m (executeTask r s).
Proof. open_executeTask. same_branches. Qed.

(** Every valid submission gets a record and a running workflow at once,
    whatever the number of records, and the queue is left as it is. *)
Lemma submission_always_starts r s :
  inv s → validateTaskRequest r = true →
  size (runningTasks (executeTask r s)) = S (size (runningTasks s)) ∧
  taskQueue (executeTask r s) = taskQueue s ∧
  is_Some (frames (executeTask r s) !! uuids s).
Proof.
  intros I Hv. pose proof (executeTask_frame r s Hv) as [f Hf].
  split; [|split; [apply executeTask_taskQueue | by rewrite Hf]].
  destruct (inv_frames _ _ _ _ _ (inv_executeTask r s I) _ _ Hf)
    as (t & Ht & _).
  assert (runningTasks (executeTask r s) = <[uuids s := t]> (runningTasks s))
    as ->.
  { apply map_eq. intros k. destruct (decide (k = uuids s)) as [->|Hne].
    - by rewrite lookup_insert_eq.
    - rewrite lookup_insert_ne by done. by apply view_task, executeTask_other. }
  apply map_size_insert_None, (Inv_fresh_task _ _ _ _ _ I).
Qed.

(** C1. The specification says that a submitted task starts at once only
    while fewer than [maxConcurrent] tasks run and is queued otherwise, so
    that [runningTasks <= maxConcurrent] always. In the code, with
    [MAX_CONCURRENT_AGENTS=1] and every agent registered, two create-project
    requests submitted one after the other both start: [getStatus] reports
    two running tasks and none queued, and both workflows are waiting for
    the architect. *)
Theorem C1_two_tasks_run_under_a_cap_of_one :
  let s := run (boot (Some 1%Z) None all_agents)
             [Submit (create_request (Js.Obj []));
              Submit (create_request (Js.Obj []))] in
  maxConcurrentTasks s = 1%Z ∧
  Status.runningTasks (getStatus s) = 2 ∧
  Status.queuedTasks (getStatus s) = 0 ∧
  in_flight "architect" s = 2.
Proof. vm_compute. done. Qed.

(* ===================================================================== *)
(** ** C2: the task timeout *)
(* ===================================================================== *)

(** No transition reads [taskTimeout]: under another value the system
    does the same. *)
Lemma step_ignores_the_timeout tm s a :
  step (set_taskTimeout tm s) a = set_taskTimeout tm (step s a).
Proof.
  destruct a as [r|k reply|ms| |key task|key reply]; cbn [step].
  - open_executeTask. same_branches.
  - unfold resume. read_state.
    destruct (frames s !! k)
      as [[requirements st rest context|files|analysis|[result|e]]|];
      try reflexivity; unfold enter; same_branches.
    destruct reply; reflexivity.
  - reflexivity.
  - unfold processTaskQueue. read_state.
    destruct (taskQueue s) as [|r q]; [done|].
    destruct (_ <=? _)%Z; [done|]. open_executeTask. same_branches.
  - unfold agent_executeTask. read_state. destruct (agents s !! key); [|done].
    same_branches.
  - unfold agent_resume. read_state. destruct (agents s !! key); [|done].
    unfold BaseAgent.executeTask_resume. same_branches.
Qed.

(** C2. The specification says that a task whose workflow has not ended
    within [taskTimeoutMs] is marked failed with a timeout error and gives
    its slot back. In the code a task whose awaited call never settles is
    left as it is by everything else that can happen, however much time
    passes: its invocation stays suspended in the same frame, its record
    stays in [runningTasks] with status ['pending'], its promise stays
    unsettled, and no event about it is emitted. *)
Theorem C2_stalled_task_is_never_failed s taskId f t acts :
  reachable s →
  frames s !! taskId = Some f → runningTasks s !! taskId = Some t →
  forallb (leaves taskId) acts = true →
  let s' := run s acts in
  frames s' !! taskId = Some f ∧
  runningTasks s' !! taskId = Some t ∧ Task.status t = "pending" ∧
  promises s' !! taskId = promises s !! taskId ∧
  events_about taskId (emitted s') = events_about taskId (emitted s).
Proof.
  intros I%reachable_inv Hf Ht Hl s'.
  pose proof (Inv_frame_lt _ _ _ _ _ I _ _ Hf) as Hlt.
  destruct (run_keeps s acts taskId I Hlt ltac:(left; by rewrite Hf) Hl)
    as [Hv He].
  unfold view in Hv. fold s' in Hv, He. injection Hv as -> -> ->.
  repeat split; try done.
  destruct (inv_frames _ _ _ _ _ I _ _ Hf) as (t0 & Ht0 & Hst & _).
  congruence.
Qed.

(** The task of [stalled] after more than the 300000 ms of the default
    timeout, a tick of the queue processor, and a day. *)
Lemma C2_witness :
  let s' := run stalled [Elapse 300001; Interval; Elapse 86400000] in
  frames s' !! 0 = frames stalled !! 0 ∧
  runningTasks s' !! 0 = Some (new_task 0 (create_request (Js.Obj [])) 0) ∧
  Task.status (new_task 0 (create_request (Js.Obj [])) 0) = "pending" ∧
  promises s' !! 0 = promises stalled !! 0 ∧
  events_about 0 (emitted s') = events_about 0 (emitted stalled).
Proof.
  assert (∃ f, frames stalled !! 0 = Some f) as [f Hf]
    by (eexists; vm_compute; reflexivity).
  rewrite Hf.
  apply (C2_stalled_task_is_never_failed stalled 0 f
           (new_task 0 (create_request (Js.Obj [])) 0)
           [Elapse 300001; Interval; Elapse 86400000]).
  - by exists None, None, all_agents, [Submit (create_request (Js.Obj []))].
  - done.
  - vm_compute. reflexivity.
  - reflexivity.
Defined.

(* ===================================================================== *)
(** ** C3: the kinds without a workflow method *)
(* ===================================================================== *)

(** C3. For every request of kind [review_code], [optimize_performance] or
    [deploy_application], submitted in any reachable state and resumed
    after anything else that may happen in between: the dispatcher calls
    a method that the class does not define; the promise of [executeTask]
    is rejected; the invocation has ended; the task record, when one was
    made, has status ['failed']; and no [taskCompleted] event is emitted
    for the task. *)
Theorem C3_unimplemented_kinds_always_fail s r acts reply :
  reachable s → unimplemented_kind (Request.type r) = true →
  forallb (leaves (uuids s)) acts = true →
  let taskId := uuids s in
  let s' := resume taskId reply (run (executeTask r s) acts) in
  (∃ name, workflow_method (Request.type r) = Some name ∧ name ∉ methods) ∧
  (∃ e, promises s' !! taskId = Some (Js.Throw e)) ∧
  frames s' !! taskId = None ∧
  (∀ t, runningTasks s' !! taskId = Some t → Task.status t = "failed") ∧
  (∀ result, taskCompleted taskId result ∉ emitted s').
Proof.
  intros I%reachable_inv Hk Hl taskId s'. subst taskId s'.
  assert (∃ name, workflow_method (Request.type r) = Some name ∧
                  (name ∉ methods) ∧ workflow_body name = None)
    as (name & Hm & Hnin & Hbody).
  { unfold unimplemented_kind in Hk.
    apply orb_true_iff in Hk as [Hk|Hk];
      [apply orb_true_iff in Hk as [Hk|Hk]|];
      apply is_str_eq in Hk; rewrite Hk; eexists;
      (split; [reflexivity | split; [|reflexivity]]);
      apply (bool_decide_unpack _); by vm_compute. }
  split; [by eauto|].
  assert (∀ result, taskCompleted (uuids s) result ∉ emitted s) as Hold.
  { intros result Hin.
    pose proof (inv_events _ _ _ _ _ I _ (uuids s) Hin eq_refl). lia. }
  pose proof (inv_executeTask r s I) as I1.
  pose proof (executeTask_draws r s) as Hlt.
  assert (∀ s1, inv s1 → uuids s < uuids s1 →
            is_Some (frames s1 !! uuids s) ∨ runningTasks s1 !! uuids s = None →
            (∀ result, taskCompleted (uuids s) result ∉ emitted s1) →
            view (run s1 acts) (uuids s) = view s1 (uuids s) ∧
            ∀ result, taskCompleted (uuids s) result ∉ emitted (run s1 acts))
    as Hrun.
  { intros s1 Hi1 Hlt1 Hc Hno.
    destruct (run_keeps s1 acts (uuids s) Hi1 Hlt1 Hc Hl) as [Hv He].
    split; [done|]. intros result Hin.
    assert (taskCompleted (uuids s) result
              ∈ events_about (uuids s) (emitted s1))
      as Hin1 by (rewrite <- He; by apply elem_of_events_about).
    apply elem_of_events_about in Hin1 as [Hin1 _]. by apply (Hno result). }
  destruct (validateTaskRequest r) eqn:Hv.
  - rewrite (executeTask_throwing r s (Some name) Hv Hm Hbody) in *.
    set (e := Js.TypeError ("this." +:+ name +:+ " is not a function")) in *.
    destruct (Hrun _ I1 Hlt) as [Hview Hno].
    { left. read_state. by rewrite lookup_insert_eq. }
    { read_state. done. }
    unfold view in Hview. read_state.
    rewrite !lookup_insert_eq in Hview. injection Hview as Hf Ht Hp.
    rewrite (resume_thrown _ _ _ e Hf).
    read_state. split; [by rewrite lookup_insert_eq; eauto|].
    split; [by rewrite lookup_delete_eq|]. split.
    + intros t. rewrite lookup_alter_eq, Ht. simpl. by intros [= <-].
    + intros result [Hin|Hin%list_elem_of_singleton]%elem_of_app;
        [by apply (Hno result) | done].
  - rewrite (executeTask_invalid r s Hv) in *.
    destruct (Hrun _ I1 Hlt) as [Hview Hno].
    { right. read_state.
      by rewrite lookup_alter_eq, (Inv_fresh_task _ _ _ _ _ I). }
    { read_state.
      intros result [Hin|Hin%list_elem_of_singleton]%elem_of_app;
        [by apply (Hold result) | done]. }
    unfold view in Hview. read_state.
    rewrite lookup_insert_eq, lookup_alter_eq, (Inv_fresh_task _ _ _ _ _ I),
      (Inv_fresh_frame _ _ _ _ _ I) in Hview.
    injection Hview as Hf Ht Hp.
    rewrite (resume_idle _ _ _ Hf).
    split; [by eauto|]. split; [done|]. split; [|done].
    intros t. by rewrite Ht.
Qed.

Lemma C3_witness :
  let s := boot None None all_agents in
  let acts := [Submit (create_request (Js.Obj [])); Elapse 5] in
  let taskId := uuids s in
  let s' := resume taskId (Js.Ok Js.Null)
              (run (executeTask review_request s) acts) in
  (∃ name, workflow_method (Request.type review_request) = Some name ∧
           name ∉ methods) ∧
  (∃ e, promises s' !! taskId = Some (Js.Throw e)) ∧
  frames s' !! taskId = None ∧
  (∀ t, runningTasks s' !! taskId = Some t → Task.status t = "failed") ∧
  (∀ result, taskCompleted taskId result ∉ emitted s').
Proof.
  apply (C3_unimplemented_kinds_always_fail (boot None None all_agents)
           review_request [Submit (create_request (Js.Obj [])); Elapse 5]
           (Js.Ok Js.Null)).
  - by exists None, None, all_agents, [].
  - reflexivity.
  - reflexivity.
Defined.

(* ===================================================================== *)
(** ** C4: admission *)
(* ===================================================================== *)





(* ===================================================================== *)
(** ** C5: unavailable agents *)
(* ===================================================================== *)

(** The mandatory agent: without a debugger a debug task fails with
    ['Debug agent not available'] as soon as it is resumed. *)
Lemma missing_debugger_fails s r reply :
  inv s → agents s !! "debugger" = None →
  Request.type r = Js.Str "debug_code" → validateTaskRequest r = true →
  let s' := resume (uuids s) reply (executeTask r s) in
  promises s' !! uuids s =
    Some (Js.Throw (Js.Error "Debug agent not available")) ∧
  Task.status <$> runningTasks s' !! uuids s = Some "failed" ∧
  frames s' !! uuids s = None.
Proof.
  intros I Hnone Htype Hv s'. subst s'.
  assert (executeTask r s =
          suspend (uuids s)
            (awaiting_workflow
               (Js.Throw (Js.Error "Debug agent not available")))
            (upd_runningTasks
               (insert (uuids s) (new_task (uuids s) r (now s)))
               (draw_uuid s))) as ->.
  { unfold executeTask, executeTaskWorkflow. rewrite Hv.
    cbn [negb new_task Task.type]. rewrite Htype.
    change (workflow_method (Js.Str "debug_code"))
      with (Some "executeDebugWorkflow").
    unfold call_workflow.
    change (workflow_body "executeDebugWorkflow")
      with (Some executeDebugWorkflow).
    unfold executeDebugWorkflow. read_state. rewrite Hnone.
    by rewrite bool_decide_eq_false_2 by (by intros [? [=]]). }
  rewrite (resume_thrown _ _ _ (Js.Error "Debug agent not available"))
    by (read_state; by rewrite lookup_insert_eq).
  read_state. rewrite lookup_insert_eq, lookup_alter_eq, lookup_insert_eq,
    lookup_delete_eq. done.
Qed.

(** C5. The specification says that an unavailable agent of a stage that
    is not mandatory only makes the stage be skipped. In the code, when
    the architect failed to initialize and the request asks for a
    frontend, the architecture stage is skipped, [context.architecture]
    stays undefined, and the frontend stage, reading
    [architecture.frontend], throws: the workflow aborts and the task
    fails with that [TypeError], whatever the environment replies. *)
Theorem C5_skipped_architect_aborts_the_workflow reply1 reply2 :
  let s := run (boot None None (without "architect"))
             [Submit frontend_request; Resume 0 reply1; Resume 0 reply2] in
  agents s !! "architect" = None ∧
  promises s !! 0 =
    Some (Js.Throw (Js.TypeError
            "Cannot read properties of undefined (reading 'frontend')")) ∧
  Task.status <$> runningTasks s !! 0 = Some "failed" ∧
  emitted s =
    [initialized_;
     taskFailed 0 (Js.TypeError
       "Cannot read properties of undefined (reading 'frontend')")].
Proof. vm_compute. done. Qed.

(* ===================================================================== *)
(** ** C6: the busy flag *)
(* ===================================================================== *)

(** The gate of [BaseAgent.executeTask]. *)
Lemma busy_agent_rejects a task :
  BaseAgent.busy a = true →
  BaseAgent.executeTask_enter a task =
  BaseAgent.Rejected
    (Js.Error (BaseAgent.name a +:+ " agent is currently busy")).
Proof. unfold BaseAgent.executeTask_enter. by intros ->. Qed.

Lemma second_assignment_is_rejected :
  let s := run (boot None None all_agents)
             [AgentExecute "devops" review_task;
              AgentExecute "devops" review_task] in
  agent_promises s =
    [("devops", Js.Throw (Js.Error "devops agent is currently busy"))].
Proof. vm_compute. reflexivity. Qed.

(** The coordinator's own code never writes the registry, hence no busy
    flag: the workflows call the agents' methods directly, not through
    [executeTask]. *)
Lemma workflows_leave_the_agents_alone s a :
  workflow_action a = true → agents (step s a) = agents s.
Proof.
  destruct a as [r|k reply|ms| |key task|key reply]; try done; intros _;
    cbn [step].
  - apply executeTask_agents.
  - unfold resume.
    destruct (frames s !! k)
      as [[requirements st rest context|files|analysis|[result|e]]|];
      try reflexivity; unfold enter; same_branches.
    destruct reply; reflexivity.
  - unfold processTaskQueue. destruct (taskQueue s) as [|r q]; [done|].
    destruct (_ <=? _)%Z; [done|].
    apply (executeTask_agents r (set_taskQueue q s)).
Qed.

(** C6. The specification says that every stage invocation of an agent is
    gated by its busy state, so that an agent serves one task at a time
    even when two workflows need it. In the code two create-project tasks
    submitted one after the other are both waiting for a call on the one
    architect instance, whose busy flag is off, and neither call was
    rejected. *)
Theorem C6_two_workflows_share_an_idle_agent :
  let s := run (boot None None all_agents)
             [Submit (create_request (Js.Obj []));
              Submit (create_request (Js.Obj []))] in
  in_flight "architect" s = 2 ∧
  BaseAgent.busy <$> (Entry.instance <$> agents s !! "architect")
    = Some false ∧
  promises s = ∅ ∧ agent_promises s = [].
Proof. vm_compute. done. Qed.

(* ===================================================================== *)
(** ** C7: progress *)
(* ===================================================================== *)

(** C7, as the code has it. In every reachable state: no transition
    lowers the progress of a task record; the progress events of a task
    were emitted in non-decreasing order; and a task whose status is
    ['completed'] has progress 100. (The workflow sets the progress to 100
    before [executeTask] resumes and sets the status.) *)
Theorem C7_progress_grows_and_completed_means_100 s a :
  reachable s →
  (∀ taskId t t',
      runningTasks s !! taskId = Some t →
      runningTasks (step s a) !! taskId = Some t' →
      Task.progress t ≤ Task.progress t') ∧
  (∀ taskId, StronglySorted le (progress_log taskId (emitted s))) ∧
  (∀ taskId t,
      runningTasks s !! taskId = Some t → Task.status t = "completed" →
      Task.progress t = 100).
Proof.
  intros I%reachable_inv. repeat split.
  - intros taskId t t' Ht Ht'.
    by destruct (step_task s a taskId t t' I Ht Ht').
  - apply (inv_sorted _ _ _ _ _ I).
  - intros taskId t Ht Hc. pose proof (status_of_task _ _ _ I Ht) as Hs.
    destruct (frames s !! taskId); [congruence|].
    destruct Hs as [[Hs _]|[_ Hp]]; [congruence | done].
Qed.

Lemma C7_witness :
  let s := stalled in
  let a := Resume 0 (Js.Ok (Js.Obj [])) in
  (∀ taskId t t',
      runningTasks s !! taskId = Some t →
      runningTasks (step s a) !! taskId = Some t' →
      Task.progress t ≤ Task.progress t') ∧
  (∀ taskId, StronglySorted le (progress_log taskId (emitted s))) ∧
  (∀ taskId t,
      runningTasks s !! taskId = Some t → Task.status t = "completed" →
      Task.progress t = 100).
Proof.
  apply (C7_progress_grows_and_completed_means_100 stalled
           (Resume 0 (Js.Ok (Js.Obj [])))).
  by exists None, None, all_agents, [Submit (create_request (Js.Obj []))].
Defined.

(** C7 as the specification states it fails: with no agent registered a
    create-project workflow runs to its end within the submission, and
    the task then has progress 100 while its status is still
    ['pending']. *)
Lemma C7_counterexample :
  let s := run (boot None None (λ _, false))
             [Submit (create_request (Js.Obj []))] in
  ∃ t, runningTasks s !! 0 = Some t ∧
       ¬ (Task.progress t = 100 ↔ Task.status t = "completed").
Proof.
  eexists. split; [vm_compute; reflexivity|].
  simpl. intros [H _]. specialize (H eq_refl). discriminate.
Qed.

(* ===================================================================== *)
(** ** C8: status *)
(* ===================================================================== *)




(* ===================================================================== *)
(** ** C9: the registry's bookkeeping of [BaseAgent.executeTask] *)
(* ===================================================================== *)

(** Of the eight agents only the one registered as ["devops"] has the
    name the constructor derives from its class name. *)
Lemma only_devops_is_registered_under_its_name :
  List.filter
    (λ cfg : string * BaseAgent.agent_class * string,
       String.eqb (BaseAgent.name (BaseAgent.new cfg.1.2)) cfg.1.1)
    agentClasses
  = [("devops", BaseAgent.DevOpsAgent, "Handles deployment and infrastructure")].
Proof. vm_compute. reflexivity. Qed.

(** For that agent the counter is incremented and the flag cleared. *)
Lemma devops_counter_increments reply :
  let s := run (boot None None all_agents)
             [AgentExecute "devops" review_task; AgentResume "devops" reply] in
  Entry.completedTasks <$> agents s !! "devops" = Some 1 ∧
  BaseAgent.busy <$> (Entry.instance <$> agents s !! "devops") = Some false.
Proof. vm_compute. done. Qed.

(** Whatever the outcome, the flag is cleared and the caller receives the
    outcome of [processTask] itself. *)
Lemma executeTask_resume_releases a o :
  BaseAgent.busy (BaseAgent.executeTask_resume a o).1.1 = false ∧
  (BaseAgent.executeTask_resume a o).2 = o.
Proof. by destruct o. Qed.

(** C9. The specification says that a successful execution increments the
    agent's completed-task counter and a failed one appends the error to
    its error log. In the code the events carry the name derived from the
    class name (["codereviewer"]), the registry knows the agent as
    ["reviewer"], and the handlers find no entry: after a successful
    execution by the reviewer its counter is still 0, after a failed one
    its error log is still empty. (The busy flag is cleared and the
    result or the same error does reach the caller.) *)
Theorem C9_counter_and_log_miss_the_reviewer reply :
  let s0 := boot None None all_agents in
  let done_ := run s0 [AgentExecute "reviewer" review_task;
                       AgentResume "reviewer" reply] in
  let failed := run s0 [AgentExecute "reviewer" untyped_task;
                        AgentResume "reviewer" reply] in
  (agent_promises done_ =
     [("reviewer", Js.Ok (Js.Obj [("review", Js.Str "completed");
                                  ("suggestions", Js.Arr [])]))] ∧
   Entry.completedTasks <$> agents done_ !! "reviewer" = Some 0 ∧
   BaseAgent.busy <$> (Entry.instance <$> agents done_ !! "reviewer")
     = Some false ∧
   emitted done_ =
     [initialized_;
      agentTaskCompleted "codereviewer" (Js.Str "t1")
        (Js.Obj [("review", Js.Str "completed");
                 ("suggestions", Js.Arr [])])]) ∧
  (agent_promises failed =
     [("reviewer", Js.Throw (Js.Error "Task type is required"))] ∧
   Entry.errors <$> agents failed !! "reviewer" = Some [] ∧
   BaseAgent.busy <$> (Entry.instance <$> agents failed !! "reviewer")
     = Some false ∧
   emitted failed =
     [initialized_;
      agentError "codereviewer" (Js.Str "t2") "Task type is required"]).
Proof. vm_compute. done. Qed.

(* ===================================================================== *)
(** ** C10: the keys of the context *)
(* ===================================================================== *)

Lemma executed_keys_app registry requirements l1 l2 :
  executed_keys registry requirements (l1 ++ l2) =
  executed_keys registry requirements l1 ++
  executed_keys registry requirements l2.
Proof. unfold executed_keys. by rewrite List.filter_app, map_app. Qed.

Lemma completes_keys registry requirements stages context final :
  NoDup (Js.keys context ++ map Stage.key stages) →
  completes registry requirements stages context final →
  Js.keys final = Js.keys context ++ executed_keys registry requirements stages.
Proof.
  intros Hnd Hc. induction Hc as
    [stages context final Hadv
    |stages context st rest context' reply v final Hadv Hout Hc IH].
  - apply advance_returned in Hadv as [-> Hnone].
    unfold executed_keys. by rewrite Hnone, app_nil_r.
  - apply advance_suspended in Hadv as (-> & Hg & skipped & -> & Hnone).
    rewrite map_app, map_cons in Hnd.
    assert (Stage.key st ∉ Js.keys context) as Hfresh.
    { intros Hin. apply NoDup_app in Hnd as (_ & Hdis & _).
      apply (Hdis _ Hin). apply elem_of_app. right. by left. }
    rewrite IH.
    + rewrite keys_set_field_new by done.
      assert (executed_keys registry requirements (skipped ++ st :: rest) =
              Stage.key st :: executed_keys registry requirements rest) as ->.
      { unfold executed_keys. rewrite List.filter_app, Hnone. simpl.
        by rewrite Hg. }
      by rewrite <- app_assoc.
    + rewrite keys_set_field_new by done. rewrite <- app_assoc. simpl.
      apply NoDup_app in Hnd as (Hn1 & Hdis & Hn2).
      apply NoDup_app in Hn2 as (_ & _ & Hn3).
      apply NoDup_app. split; [done|]. split; [|done].
      intros x Hx Hin. apply (Hdis x Hx). apply elem_of_app. right. done.
Qed.

(** [completes] follows the code: resuming an invocation whose stage call
    ended well takes it to the next stop of [advance], with the stage's
    key assigned in the context. *)
Lemma resume_stage s taskId requirements st rest context reply v :
  frames s !! taskId = Some (awaiting_stage requirements st rest context) →
  stage_outcome (Stage.call st) context reply = Js.Ok v →
  frames (resume taskId reply s) !! taskId =
  Some match advance (agents s) requirements rest
               (Js.set_field (Stage.key st) v context) with
       | Suspended st' rest' context' =>
           awaiting_stage requirements st' rest' context'
       | Returned context' =>
           awaiting_workflow (Js.Ok (create_result context'))
       end.
Proof.
  intros Hf Hv. unfold resume. rewrite Hf, Hv. unfold enter.
  destruct (advance _ _ rest _); read_state; by rewrite lookup_insert_eq.
Qed.

(** C10, as the code has it. When a create-project workflow returns, the
    keys of its context are [projectId] and [requirements], with which it
    starts, followed by the keys of the stages whose condition held (the
    requirement flag, where the stage has one, and the agent being
    registered), in the order of the stages. *)
Theorem C10_context_keys registry requirements projectId final :
  completes registry requirements create_stages
    [("projectId", projectId); ("requirements", requirements)] final →
  Js.keys final =
    ["projectId"; "requirements"] ++
    executed_keys registry requirements create_stages.
Proof.
  intros Hc. apply (completes_keys _ _ _ _ _) in Hc; [done|].
  simpl. apply (bool_decide_unpack _). by vm_compute.
Qed.

(** With the tester alone registered and no requirement. *)
Lemma C10_witness :
  Js.keys [("projectId", Js.Uuid 1); ("requirements", Js.Obj []);
           ("testing", BaseAgent.setupTesting)] =
  ["projectId"; "requirements"] ++
  executed_keys (agents (boot None None (only "tester"))) (Js.Obj [])
    create_stages.
Proof.
  apply (C10_context_keys _ (Js.Obj []) (Js.Uuid 1)).
  eapply completes_stage with (reply := Js.Ok Js.Null);
    [vm_compute; reflexivity | reflexivity |].
  apply completes_return. vm_compute. reflexivity.
Defined.

(** C10 as the specification states it fails: with no agent registered
    the workflow returns with the two keys it starts with, and no stage
    condition held. *)
Lemma C10_counterexample :
  ∃ final,
    completes ∅ (Js.Obj []) create_stages
      [("projectId", Js.Uuid 1); ("requirements", Js.Obj [])] final ∧
    ¬ (∀ k, k ∈ Js.keys final ↔ k ∈ executed_keys ∅ (Js.Obj []) create_stages).
Proof.
  eexists. split; [by apply completes_return|].
  intros H. specialize (H "projectId"). vm_compute in H.
  destruct H as [H _]. specialize (H ltac:(by left)).
  by apply elem_of_nil in H.
Qed.

(* ===================================================================== *)
(** ** Lemmas on property lists *)
(* ===================================================================== *)

Lemma assoc_set_field k k' v fields :
  Js.assoc k (Js.set_field k' v fields) =
  if String.eqb k k' then v else Js.assoc k fields.
Proof.
  induction fields as [|[k0 v0] rest IH]; simpl; [done|].
  destruct (String.eqb k' k0) eqn:E0; simpl.
  - apply String.eqb_eq in E0 as ->. by destruct (String.eqb k k0).
  - rewrite IH. destruct (String.eqb k k0) eqn:E1; [|done].
    apply String.eqb_eq in E1 as ->. destruct (String.eqb k0 k') eqn:E2; [|done].
    apply String.eqb_eq in E2 as ->. by rewrite String.eqb_refl in E0.
Qed.

Lemma at_path_cons v k path :
  Js.at_path v (k :: path) = Js.at_path (Js.get v k) path.
Proof. done. Qed.

(** The reachable states are closed under the transitions. *)
Lemma reachable_run s acts : reachable s → reachable (run s acts).
Proof.
  intros (mx & tm & boots & acts0 & ->). exists mx, tm, boots, (acts0 ++ acts).
  unfold run. by rewrite fold_left_app.
Qed.

Lemma stalled_reachable : reachable stalled.
Proof.
  by exists None, None, all_agents, [Submit (create_request (Js.Obj []))].
Qed.

(* ===================================================================== *)
(** ** The coordinator: queue, history, timers, progress, registry *)
(* ===================================================================== *)

(** ** The queue *)

Lemma resume_taskQueue taskId reply s :
  taskQueue (resume taskId reply s) = taskQueue s.
Proof.
  unfold resume.
  destruct (frames s !! taskId)
    as [[requirements st rest context|files|analysis|[result|e]]|];
    try reflexivity; unfold enter; same_branches.
  destruct reply; reflexivity.
Qed.

Lemma step_taskQueue s a : taskQueue s = [] → taskQueue (step s a) = [].
Proof.
  intros Hq. destruct a as [r|k reply|ms| |key task|key reply]; cbn [step].
  - by rewrite executeTask_taskQueue.
  - by rewrite resume_taskQueue.
  - done.
  - unfold processTaskQueue. by rewrite Hq.
  - unfold agent_executeTask. destruct (agents s !! key); [|done].
    by destruct (BaseAgent.executeTask_enter _ _).
  - unfold agent_resume. destruct (agents s !! key); [|done].
    destruct (BaseAgent.busy _); [|done]. unfold BaseAgent.executeTask_resume.
    by destruct (BaseAgent.processTask _ _ _).
Qed.

Lemma run_taskQueue s acts : taskQueue s = [] → taskQueue (run s acts) = [].
Proof.
  revert s. induction acts as [|a acts IH]; intros s Hq; [done|].
  simpl. by apply IH, step_taskQueue.
Qed.

Lemma boot_taskQueue mx tm boots : taskQueue (boot mx tm boots) = [].
Proof.
  unfold boot, initialize. simpl. read_state.
  by destruct (initializeAgents_tasks boots (new mx tm))
    as (_ & _ & _ & _ & _ & -> & _).
Qed.

(** X1. Nothing puts a request into [taskQueue]: in every reachable state
    the queue is empty, the tick of the queue processor does nothing, and
    [getStatus()] reports no queued task. *)
Theorem X1_the_queue_stays_empty s :
  reachable s →
  taskQueue s = [] ∧ processTaskQueue s = s ∧
  Status.queuedTasks (getStatus s) = 0.
Proof.
  intros (mx & tm & boots & acts & ->).
  pose proof (run_taskQueue _ acts (boot_taskQueue mx tm boots)) as Hq.
  unfold processTaskQueue. simpl. by rewrite Hq.
Qed.

(** In [stalled]. *)
Lemma X1_witness :
  taskQueue stalled = [] ∧ processTaskQueue stalled = stalled ∧
  Status.queuedTasks (getStatus stalled) = 0.
Proof.
  apply (X1_the_queue_stays_empty stalled).
  apply stalled_reachable.
Defined.

(** ** The history of a task *)














(** ** The cleanup timers *)

(** A transition that leaves the clock and the timers as they are, adds
    no record but for a suspended invocation and ends none. *)
Lemma cleanup_quiet s s' :
  now s' = now s → timers s' = timers s →
  (∀ k, frames s' !! k = None → frames s !! k = None ∧
        (is_Some (runningTasks s' !! k) → is_Some (runningTasks s !! k))) →
  cleanup_ok s → cleanup_ok s'.
Proof.
  intros Hn Ht Hk [Hdue Hset]. split; rewrite ?Hn, ?Ht; [done|].
  intros k t Hr Hf. destruct (Hk k Hf) as [Hf0 Hr0].
  destruct Hr0 as [t0 Ht0]; [by rewrite Hr | by apply (Hset k t0)].
Qed.

(** The invocation of a task ends. *)
Lemma cleanup_finish s s' taskId :
  now s' = now s → timers s' = timers s ++ [((now s + 60000)%N, taskId)] →
  (∀ k, k ≠ taskId → frames s' !! k = None → frames s !! k = None ∧
        (is_Some (runningTasks s' !! k) → is_Some (runningTasks s !! k))) →
  cleanup_ok s → cleanup_ok s'.
Proof.
  intros Hn Ht Hk [Hdue Hset]. split; rewrite ?Hn, ?Ht.
  - intros d k [Hin|[= -> ->]%list_elem_of_singleton]%elem_of_app;
      [by apply (Hdue d k) | lia].
  - intros k t Hr Hf. destruct (decide (k = taskId)) as [->|Hne].
    + eexists. apply elem_of_app. right. by left.
    + destruct (Hk k Hne Hf) as [Hf0 Hr0].
      destruct Hr0 as [t0 Ht0]; [by rewrite Hr|].
      destruct (Hset k t0 Ht0 Hf0) as [d Hd]. exists d.
      apply elem_of_app. by left.
Qed.

Ltac quiet_now :=
  read_state; try done;
  intros k; rewrite ?lookup_insert, ?lookup_alter; repeat case_decide;
  subst; try done; rewrite ?lookup_insert_eq, ?lookup_alter_eq;
  try (intros ?; split; [done|]);
  rewrite ?lookup_insert_ne, ?lookup_alter_ne by done; try done.

Lemma cleanup_executeTask r s : inv s → cleanup_ok s → cleanup_ok (executeTask r s).
Proof.
  intros I C. open_executeTask.
  destruct (validateTaskRequest r); cbn [negb].
  - destruct (workflow_method _) as [name|];
      [|apply (cleanup_quiet s); [done..|by quiet_now|done]].
    destruct (String.eqb name "executeCreateProjectWorkflow").
    { read_state. destruct (advance _ _ create_stages _);
        (apply (cleanup_quiet s); [done..|by quiet_now|done]). }
    destruct (String.eqb name "executeDebugWorkflow");
      [|apply (cleanup_quiet s); [done..|by quiet_now|done]].
    read_state. destruct (bool_decide _);
      (apply (cleanup_quiet s); [done..|by quiet_now|done]).
  - apply (cleanup_finish s _ (uuids s)); [done..| |done].
    read_state. intros k Hne Hf. split; [done|].
    by rewrite lookup_alter_ne by done.
Qed.

Lemma cleanup_resume taskId reply s : cleanup_ok s → cleanup_ok (resume taskId reply s).
Proof.
  intros C. unfold resume.
  destruct (frames s !! taskId) as [f|] eqn:Hf; [|done].
  destruct f as [requirements st rest context|files|analysis|[result|e]].
  - destruct (stage_outcome _ _ _);
      [|apply (cleanup_quiet s); [done..|by quiet_now|done]].
    unfold enter. destruct (advance _ _ rest _);
      (apply (cleanup_quiet s); [done..|by quiet_now|done]).
  - destruct (BaseAgent.analyzeCode _ _);
      (apply (cleanup_quiet s); [done..|by quiet_now|done]).
  - destruct reply; (apply (cleanup_quiet s); [done..|by quiet_now|done]).
  - apply (cleanup_finish s _ taskId); [done..| |done].
    read_state. intros k Hne. rewrite lookup_delete_ne, lookup_alter_ne by done.
    done.
  - apply (cleanup_finish s _ taskId); [done..| |done].
    read_state. intros k Hne. rewrite lookup_delete_ne, lookup_alter_ne by done.
    done.
Qed.

Lemma cleanup_elapse ms s : cleanup_ok s → cleanup_ok (elapse ms s).
Proof.
  intros [Hdue Hset]. unfold elapse. split; read_state.
  - intros d k Hin. apply list_elem_of_In, filter_In in Hin as [Hin Hlater].
    apply list_elem_of_In, Hdue in Hin. simpl in Hlater.
    apply negb_true_iff, N.leb_gt in Hlater. lia.
  - intros k t. rewrite lookup_fold_delete. case_decide as Hk; [done|].
    intros Ht Hf. destruct (Hset k t Ht Hf) as [d Hd]. exists d.
    apply list_elem_of_In, filter_In. split; [by apply list_elem_of_In|].
    simpl. apply negb_true_iff. destruct (d <=? now s + ms)%N eqn:E; [|done].
    destruct Hk. apply list_elem_of_fmap. exists (d, k). split; [done|].
    apply list_elem_of_In, filter_In. split; [by apply list_elem_of_In | done].
Qed.

Lemma cleanup_step s a : inv s → cleanup_ok s → cleanup_ok (step s a).
Proof.
  intros I C. destruct a as [r|k reply|ms| |key task|key reply]; cbn [step].
  - by apply cleanup_executeTask.
  - by apply cleanup_resume.
  - by apply cleanup_elapse.
  - unfold processTaskQueue. destruct (taskQueue s) as [|r q]; [done|].
    destruct (_ <=? _)%Z; [done|].
    by apply (cleanup_executeTask r (set_taskQueue q s)).
  - unfold agent_executeTask. destruct (agents s !! key); [|done].
    by destruct (BaseAgent.executeTask_enter _ _).
  - unfold agent_resume. destruct (agents s !! key); [|done].
    destruct (BaseAgent.busy _); [|done]. unfold BaseAgent.executeTask_resume.
    by destruct (BaseAgent.processTask _ _ _).
Qed.

Lemma cleanup_run s acts : inv s → cleanup_ok s → cleanup_ok (run s acts).
Proof.
  revert s. induction acts as [|a acts IH]; intros s I C; [done|].
  simpl. apply IH; [by apply inv_step | by apply cleanup_step].
Qed.

Lemma cleanup_boot mx tm boots : cleanup_ok (boot mx tm boots).
Proof.
  unfold cleanup_ok, boot, initialize. simpl. read_state.
  destruct (initializeAgents_tasks boots (new mx tm))
    as (-> & -> & -> & _).
  simpl. split; [by intros d k ?%elem_of_nil|].
  intros k t. by rewrite lookup_empty.
Qed.

Lemma reachable_cleanup s : reachable s → cleanup_ok s.
Proof.
  intros (mx & tm & boots & acts & ->).
  apply cleanup_run; [apply inv_boot | apply cleanup_boot].
Qed.

(** X3. In every reachable state, every task record whose status is no longer
    ['pending'] has a cleanup timer due within the next 60000 ms; so once
    60000 ms have passed, the records that are left are those of the
    tasks that are still pending, their invocations suspended. *)
Theorem X3_settled_records_have_a_cleanup_timer s :
  reachable s →
  (∀ taskId t,
     runningTasks s !! taskId = Some t → Task.status t ≠ "pending" →
     ∃ d, (d, taskId) ∈ timers s ∧ (now s < d ∧ d ≤ now s + 60000)%N) ∧
  (∀ taskId t,
     runningTasks (elapse 60000 s) !! taskId = Some t →
     runningTasks s !! taskId = Some t ∧ Task.status t = "pending" ∧
     is_Some (frames s !! taskId)).
Proof.
  intros R. pose proof (reachable_inv s R) as I.
  destruct (reachable_cleanup s R) as [Hdue Hset].
  assert (∀ taskId t,
     runningTasks s !! taskId = Some t → Task.status t ≠ "pending" →
     ∃ d, (d, taskId) ∈ timers s ∧ (now s < d ∧ d ≤ now s + 60000)%N) as H1.
  { intros k t Ht Hst. pose proof (status_of_task s k t I Ht) as Hs.
    destruct (frames s !! k) eqn:Hf; [done|].
    destruct (Hset k t Ht Hf) as [d Hd]. exists d. split; [done|].
    by apply (Hdue d k). }
  split; [done|]. intros k t. unfold elapse. read_state.
  rewrite lookup_fold_delete. case_decide as Hk; [done|]. intros Ht.
  split; [done|]. pose proof (status_of_task s k t I Ht) as Hs.
  destruct (frames s !! k) eqn:Hf; [by eauto|]. exfalso. apply Hk.
  destruct (Hset k t Ht Hf) as [d Hd]. apply list_elem_of_fmap.
  exists (d, k). split; [done|]. apply list_elem_of_In, filter_In.
  split; [by apply list_elem_of_In|]. simpl. apply N.leb_le.
  destruct (Hdue d k Hd). lia.
Qed.

(** In [failed_once]. *)
Lemma X3_witness :
  (∀ taskId t,
     runningTasks failed_once !! taskId = Some t →
     Task.status t ≠ "pending" →
     ∃ d, (d, taskId) ∈ timers failed_once ∧
          (now failed_once < d ∧ d ≤ now failed_once + 60000)%N) ∧
  (∀ taskId t,
     runningTasks (elapse 60000 failed_once) !! taskId = Some t →
     runningTasks failed_once !! taskId = Some t ∧
     Task.status t = "pending" ∧ is_Some (frames failed_once !! taskId)).
Proof.
  apply (X3_settled_records_have_a_cleanup_timer failed_once).
  apply (reachable_run stalled), stalled_reachable.
Defined.



(** ** The values of the progress events *)

Lemma stages_ok_checkpoint requirements st rest context :
  stages_ok (awaiting_stage requirements st rest context) →
  Stage.checkpoint st ∈ progress_values.
Proof.
  intros [skipped Heq]. unfold progress_values. apply elem_of_app. left.
  rewrite Heq, map_app, map_cons. apply elem_of_app. right. by left.
Qed.

Lemma stages_ok_advance registry requirements requirements' st0 rest0 context0
    context st rest context' :
  stages_ok (awaiting_stage requirements' st0 rest0 context0) →
  advance registry requirements rest0 context = Suspended st rest context' →
  stages_ok (awaiting_stage requirements st rest context').
Proof.
  intros [skipped Heq] (_ & _ & skipped' & -> & _)%advance_suspended.
  exists (skipped ++ st0 :: skipped'). rewrite Heq.
  by rewrite <- app_assoc.
Qed.

Lemma cp_log s (log : list event) :
  checkpoints_ok s →
  (∀ k p, taskProgress k p ∈ log →
          taskProgress k p ∈ emitted s ∨ p ∈ progress_values) →
  ∀ k p, taskProgress k p ∈ log → p ∈ progress_values.
Proof.
  intros [_ Ce] Hlog k p H. destruct (Hlog k p H); [by apply (Ce k) | done].
Qed.

Lemma cp_insert s taskId f (log : list event) :
  checkpoints_ok s → stages_ok f →
  (∀ k p, taskProgress k p ∈ log →
          taskProgress k p ∈ emitted s ∨ p ∈ progress_values) →
  (∀ k f0, <[taskId := f]> (frames s) !! k = Some f0 → stages_ok f0) ∧
  (∀ k p, taskProgress k p ∈ log → p ∈ progress_values).
Proof.
  intros C Hok Hlog. split; [|by apply (cp_log s)].
  intros k f0. rewrite lookup_insert. case_decide; [by intros [= <-]|].
  apply C.
Qed.

Lemma cp_delete s taskId (log : list event) :
  checkpoints_ok s →
  (∀ k p, taskProgress k p ∈ log →
          taskProgress k p ∈ emitted s ∨ p ∈ progress_values) →
  (∀ k f0, delete taskId (frames s) !! k = Some f0 → stages_ok f0) ∧
  (∀ k p, taskProgress k p ∈ log → p ∈ progress_values).
Proof.
  intros C Hlog. split; [|by apply (cp_log s)].
  intros k f0. rewrite lookup_delete. case_decide; [done | apply C].
Qed.

Lemma in_progress_values_100 : 100 ∈ progress_values.
Proof. apply (bool_decide_unpack _). by vm_compute. Qed.

Lemma in_progress_values_50 : 50 ∈ progress_values.
Proof. apply (bool_decide_unpack _). by vm_compute. Qed.

(** The progress events among the events a transition appends. *)
Ltac log_now :=
  let k := fresh "k" in let p := fresh "p" in let H := fresh "H" in
  intros k p H;
  repeat (apply elem_of_app in H as [H|H]);
  try (left; exact H);
  apply list_elem_of_singleton in H; try discriminate H;
  injection H as -> ->; right;
  eauto using in_progress_values_100, in_progress_values_50.

Lemma checkpoints_executeTask r s :
  checkpoints_ok s → checkpoints_ok (executeTask r s).
Proof.
  intros C. unfold checkpoints_ok. open_executeTask.
  destruct (validateTaskRequest r); cbn [negb].
  - destruct (workflow_method _) as [name|];
      [|read_state; apply (cp_insert s); [done|done|log_now]].
    destruct (String.eqb name "executeCreateProjectWorkflow").
    { read_state.
      destruct (advance _ _ create_stages _) as [st rest ctx|ctx] eqn:Hadv;
        read_state; (apply (cp_insert s); [done| |log_now]); [|done].
      apply advance_suspended in Hadv as (_ & _ & skipped & Heq & _).
      by exists skipped. }
    destruct (String.eqb name "executeDebugWorkflow");
      [|read_state; apply (cp_insert s); [done|done|log_now]].
    read_state. destruct (bool_decide _); read_state;
      (apply (cp_insert s); [done|done|log_now]).
  - read_state. split; [apply C|]. apply (cp_log s); [done|log_now].
Qed.

Lemma checkpoints_resume taskId reply s :
  checkpoints_ok s → checkpoints_ok (resume taskId reply s).
Proof.
  intros C. unfold resume.
  destruct (frames s !! taskId) as [f|] eqn:Hf; [|done].
  pose proof (proj1 C _ _ Hf) as Hok. unfold checkpoints_ok.
  destruct f as [requirements st rest context|files|analysis|[result|e]].
  - pose proof (stages_ok_checkpoint _ _ _ _ Hok) as Hcp.
    destruct (stage_outcome _ _ _);
      [|read_state; apply (cp_insert s); [done|done|log_now]].
    unfold enter.
    destruct (advance _ _ rest _) as [st' rest' ctx'|ctx'] eqn:Hadv;
      read_state; (apply (cp_insert s); [done| |log_now]); [|done].
    by apply (stages_ok_advance _ _ _ _ _ _ _ _ _ _ Hok Hadv).
  - destruct (BaseAgent.analyzeCode _ _); read_state;
      (apply (cp_insert s); [done|done|log_now]).
  - destruct reply; read_state; (apply (cp_insert s); [done|done|log_now]).
  - read_state. apply (cp_delete s); [done|log_now].
  - read_state. apply (cp_delete s); [done|log_now].
Qed.

Lemma checkpoints_step s a : checkpoints_ok s → checkpoints_ok (step s a).
Proof.
  intros C. destruct a as [r|k reply|ms| |key task|key reply]; cbn [step].
  - by apply checkpoints_executeTask.
  - by apply checkpoints_resume.
  - done.
  - unfold processTaskQueue. destruct (taskQueue s) as [|r q]; [done|].
    destruct (_ <=? _)%Z; [done|].
    by apply (checkpoints_executeTask r (set_taskQueue q s)).
  - unfold agent_executeTask. destruct (agents s !! key); [|done].
    by destruct (BaseAgent.executeTask_enter _ _).
  - unfold agent_resume. destruct (agents s !! key); [|done].
    destruct (BaseAgent.busy _); [|done]. unfold BaseAgent.executeTask_resume.
    destruct (BaseAgent.processTask _ _ _); unfold checkpoints_ok; read_state;
      (split; [apply C|]); (apply (cp_log s); [done|log_now]).
Qed.

Lemma checkpoints_run s acts : checkpoints_ok s → checkpoints_ok (run s acts).
Proof.
  revert s. induction acts as [|a acts IH]; intros s C; [done|].
  simpl. by apply IH, checkpoints_step.
Qed.

Lemma checkpoints_boot mx tm boots : checkpoints_ok (boot mx tm boots).
Proof.
  unfold checkpoints_ok, boot, initialize. simpl. read_state.
  destruct (initializeAgents_tasks boots (new mx tm))
    as (_ & -> & _ & _ & -> & _).
  simpl. split; [intros k f; by rewrite lookup_empty|].
  by intros k p [=]%list_elem_of_singleton.
Qed.

Lemma reachable_checkpoints s : reachable s → checkpoints_ok s.
Proof.
  intros (mx & tm & boots & acts & ->).
  apply checkpoints_run, checkpoints_boot.
Qed.

(** X5. Every [taskProgress] event a coordinator has emitted carries one of
    the seven values 20, 35, 60, 85, 95, 50 and 100. *)
Theorem X5_progress_events_carry_seven_values s taskId p :
  reachable s → taskProgress taskId p ∈ emitted s →
  p ∈ [20; 35; 60; 85; 95; 50; 100].
Proof. intros [_ C]%reachable_checkpoints. apply C. Qed.

(** The progress event of [designed]. *)
Lemma X5_witness : 20 ∈ [20; 35; 60; 85; 95; 50; 100].
Proof.
  apply (X5_progress_events_carry_seven_values designed 0 20).
  - apply (reachable_run stalled), stalled_reachable.
  - vm_compute. right. left.
Defined.

(** ** The registry *)

Lemma initializeAgents_agents boots s name :
  is_Some (agents (initializeAgents boots s) !! name) ↔
  is_Some (agents s !! name) ∨ (name ∈ registry_keys ∧ boots name = true).
Proof.
  unfold initializeAgents, registry_keys. generalize agentClasses.
  intros l. revert s.
  induction l as [|[[key class] description] l IH]; intros s.
  - simpl. split; [by left | intros [?|[?%elem_of_nil ?]]; done].
  - cbn [fold_left]. rewrite IH, !fmap_cons. cbn [fst].
    destruct (boots key) eqn:Hb; read_state.
    + rewrite lookup_insert. case_decide as Hk.
      * subst. split; [intros _ | by left; eauto].
        right. split; [by left | done].
      * split; (intros [?|[Hin ?]]; [by left | right; split; [|done]]).
        -- by right.
        -- by apply elem_of_cons in Hin as [?|?].
    + split; (intros [?|[Hin ?]]; [by left | right; split; [|done]]).
      * by right.
      * apply elem_of_cons in Hin as [->|?]; [congruence | done].
Qed.

Lemma step_agents s a name :
  is_Some (agents (step s a) !! name) ↔ is_Some (agents s !! name).
Proof.
  destruct (workflow_action a) eqn:Hw;
    [by rewrite workflows_leave_the_agents_alone|].
  destruct a as [r|k reply|ms| |key task|key reply]; try done; cbn [step].
  - unfold agent_executeTask. destruct (agents s !! key) as [en|] eqn:Hk; [|done].
    destruct (BaseAgent.executeTask_enter _ _); read_state; [done|].
    rewrite lookup_insert. case_decide; [subst; by rewrite Hk|done].
  - unfold agent_resume. destruct (agents s !! key) as [en|] eqn:Hk; [|done].
    destruct (BaseAgent.busy _); [|done]. unfold BaseAgent.executeTask_resume.
    destruct (BaseAgent.processTask _ _ _); read_state;
      by rewrite !lookup_alter_is_Some.
Qed.

(** The flag and the ['initialized'] events are those of [initialize]. *)
Lemma step_initialized s a :
  initialized (step s a) = initialized s ∧
  List.filter is_initialized_ (emitted (step s a)) =
  List.filter is_initialized_ (emitted s).
Proof.
  destruct a as [r|k reply|ms| |key task|key reply]; cbn [step].
  - open_executeTask. same_branches;
      by rewrite ?List.filter_app, ?app_nil_r.
  - unfold resume.
    destruct (frames s !! k)
      as [[requirements st rest context|files|analysis|[result|e]]|];
      try done; unfold enter; same_branches;
      rewrite ?List.filter_app; simpl; rewrite ?app_nil_r; try done.
    destruct reply; read_state; rewrite ?List.filter_app; simpl;
      by rewrite ?app_nil_r.
  - done.
  - unfold processTaskQueue. destruct (taskQueue s) as [|r q]; [done|].
    destruct (_ <=? _)%Z; [done|]. open_executeTask. same_branches;
      by rewrite ?List.filter_app, ?app_nil_r.
  - unfold agent_executeTask. destruct (agents s !! key); [|done].
    by destruct (BaseAgent.executeTask_enter _ _).
  - unfold agent_resume. destruct (agents s !! key); [|done].
    destruct (BaseAgent.busy _); [|done]. unfold BaseAgent.executeTask_resume.
    destruct (BaseAgent.processTask _ _ _); read_state;
      rewrite ?List.filter_app; simpl; by rewrite ?app_nil_r.
Qed.

Lemma run_initialized s acts :
  initialized (run s acts) = initialized s ∧
  List.filter is_initialized_ (emitted (run s acts)) =
  List.filter is_initialized_ (emitted s).
Proof.
  revert s. induction acts as [|a acts IH]; intros s; [done|].
  simpl. destruct (IH (step s a)) as [-> ->]. apply step_initialized.
Qed.

Lemma boot_initialized mx tm boots :
  initialized (boot mx tm boots) = true ∧
  emitted (boot mx tm boots) = [initialized_].
Proof.
  unfold boot, initialize. simpl. read_state.
  by destruct (initializeAgents_tasks boots (new mx tm))
    as (_ & _ & _ & _ & -> & _).
Qed.

Lemma run_boot_agents mx tm boots acts name :
  initialized (run (boot mx tm boots) acts) = true ∧
  (is_Some (agents (run (boot mx tm boots) acts) !! name) ↔
   name ∈ registry_keys ∧ boots name = true).
Proof.
  split.
  - destruct (run_initialized (boot mx tm boots) acts) as [-> _].
    apply boot_initialized.
  - induction acts as [|a acts IH] using rev_ind.
    + unfold boot, initialize. simpl. read_state.
      rewrite initializeAgents_agents. simpl. rewrite lookup_empty.
      split; [by intros [[? [=]]|?] | by right].
    + unfold run in *. rewrite fold_left_app. cbn [fold_left].
      by rewrite step_agents.
Qed.

(** X6. An agent is registered exactly when it is one of the eight of the
    table and its constructor and [initialize()] have not thrown; the
    coordinator is initialized whether agents are missing or not; and
    nothing that happens later registers an agent or removes one. *)
Theorem X6_registry_is_fixed_at_initialization mx tm boots acts name :
  initialized (run (boot mx tm boots) acts) = true ∧
  (is_Some (agents (run (boot mx tm boots) acts) !! name) ↔
   name ∈ registry_keys ∧ boots name = true).
Proof. apply run_boot_agents. Qed.



(** ** A registry without agents *)

(** X8. With no agent registered, a create-project request that passes
    validation is completed by the next resumption of its invocation: no
    stage has run, the only progress event is the one of 100, and the
    result has no [structure]. *)
Theorem X8_empty_registry_completes_at_once s r reply :
  reachable s → agents s = ∅ →
  Request.type r = Js.Str "create_project" → validateTaskRequest r = true →
  let taskId := uuids s in
  let s' := resume taskId reply (executeTask r s) in
  ∃ result,
    promises s' !! taskId = Some (Js.Ok result) ∧
    Js.prop result "structure" = Js.Undefined ∧
    Js.prop result "projectId" = Js.Uuid (S taskId) ∧
    (∃ t, runningTasks s' !! taskId = Some t ∧
          Task.status t = "completed" ∧ Task.progress t = 100) ∧
    emitted s' =
      emitted s ++ [taskProgress taskId 100; taskCompleted taskId result].
Proof.
  intros I%reachable_inv Hnone Htype Hv taskId s'. subst taskId s'.
  set (context := [("projectId", Js.Uuid (S (uuids s)));
                   ("requirements",
                    Js.or_else (Request.requirements r) (Js.Obj []))]).
  assert (executeTask r s =
          suspend (uuids s) (awaiting_workflow (Js.Ok (create_result context)))
            (progress_to (uuids s) 100
               (draw_uuid
                  (upd_runningTasks
                     (insert (uuids s) (new_task (uuids s) r (now s)))
                     (draw_uuid s))))) as ->.
  { unfold executeTask, executeTaskWorkflow. rewrite Hv.
    cbn [negb new_task Task.type]. rewrite Htype.
    change (workflow_method (Js.Str "create_project"))
      with (Some "executeCreateProjectWorkflow").
    unfold call_workflow.
    change (workflow_body "executeCreateProjectWorkflow")
      with (Some executeCreateProjectWorkflow).
    unfold executeCreateProjectWorkflow. read_state. rewrite Hnone.
    cbn [Task.requirements]. fold context.
    assert (∀ requirements,
              advance ∅ requirements create_stages context = Returned context)
      as -> ; [|done].
    intros requirements. simpl. unfold guard. simpl.
    rewrite !lookup_empty.
    rewrite !bool_decide_eq_false_2 by (by intros [? [=]]).
    by rewrite !andb_false_r. }
  rewrite (resume_returned _ _ _ (create_result context))
    by (read_state; by rewrite lookup_insert_eq).
  exists (create_result context). read_state.
  rewrite lookup_insert_eq, !lookup_alter_eq, lookup_insert_eq.
  split; [done|]. split; [done|]. split; [done|]. split; [by eauto|].
  by rewrite <- app_assoc.
Qed.

(** A coordinator none of whose agents could be constructed. *)
Lemma X8_witness :
  let s := boot None None none_boots in
  let taskId := uuids s in
  let s' :=
    resume taskId (Js.Ok Js.Null) (executeTask (create_request (Js.Obj [])) s)
  in
  ∃ result,
    promises s' !! taskId = Some (Js.Ok result) ∧
    Js.prop result "structure" = Js.Undefined ∧
    Js.prop result "projectId" = Js.Uuid (S taskId) ∧
    (∃ t, runningTasks s' !! taskId = Some t ∧
          Task.status t = "completed" ∧ Task.progress t = 100) ∧
    emitted s' =
      emitted s ++ [taskProgress taskId 100; taskCompleted taskId result].
Proof.
  apply (X8_empty_registry_completes_at_once (boot None None none_boots)
           (create_request (Js.Obj [])) (Js.Ok Js.Null)).
  - by exists None, None, none_boots, [].
  - reflexivity.
  - reflexivity.
  - reflexivity.
Defined.

(* ===================================================================== *)
(** ** The files collected from a context *)
(* ===================================================================== *)

Lemma collect_fold context ks files k :
  Js.assoc k
    (fold_left
       (λ files key,
          let v := Js.assoc key context in
          if Js.truthy v && Js.truthy (Js.prop v "files")
          then Js.set_field key (Js.prop v "files") files else files)
       ks files) =
  if bool_decide (k ∈ ks) && has_files (Js.assoc k context)
  then Js.prop (Js.assoc k context) "files" else Js.assoc k files.
Proof.
  revert files. induction ks as [|key ks IH]; intros files; [done|].
  cbn [fold_left]. rewrite IH. clear IH. unfold has_files.
  destruct (decide (k = key)) as [->|Hne].
  - rewrite (bool_decide_eq_true_2 (key ∈ key :: ks)) by (by left).
    destruct (Js.truthy (Js.assoc key context) &&
              Js.truthy (Js.prop (Js.assoc key context) "files")) eqn:E.
    + rewrite andb_true_r, andb_true_l. simpl.
      rewrite assoc_set_field, String.eqb_refl. by destruct (bool_decide _).
    + by rewrite !andb_false_r.
  - assert (bool_decide (k ∈ key :: ks) = bool_decide (k ∈ ks)) as ->.
    { apply bool_decide_ext. rewrite elem_of_cons.
      split; [by intros [?|?] | by right]. }
    destruct (bool_decide (k ∈ ks) && _); [done|].
    destruct (Js.truthy (Js.assoc key context) && _); [|done].
    rewrite assoc_set_field.
    by apply String.eqb_neq in Hne as ->.
Qed.

Lemma collectGeneratedFiles_lookup context k :
  Js.prop (collectGeneratedFiles context) k =
  if has_files (Js.assoc k context)
  then Js.prop (Js.assoc k context) "files" else Js.Undefined.
Proof.
  unfold collectGeneratedFiles. cbn [Js.prop]. rewrite collect_fold.
  cbn [Js.assoc]. destruct (has_files (Js.assoc k context)) eqn:E;
    [|by rewrite andb_false_r].
  rewrite andb_true_r, bool_decide_eq_true_2; [done|].
  unfold Js.keys. induction context as [|[k0 v0] rest IH]; [done|].
  simpl in *. destruct (String.eqb k k0) eqn:E0.
  - apply String.eqb_eq in E0 as ->. by left.
  - right. by apply IH.
Qed.

Lemma executed_keys_elem registry requirements stages k :
  k ∈ executed_keys registry requirements stages ↔
  ∃ st, st ∈ stages ∧ guard registry requirements st = true ∧ Stage.key st = k.
Proof.
  unfold executed_keys. rewrite list_elem_of_fmap. split.
  - intros (st & -> & Hin). apply list_elem_of_In, filter_In in Hin as [Hin Hg].
    exists st. by rewrite list_elem_of_In.
  - intros (st & Hin & Hg & <-). exists st. split; [done|].
    apply list_elem_of_In, filter_In. by rewrite <- list_elem_of_In.
Qed.

(** The value that a completed workflow leaves under a key: the one the
    context had, or the result of the stage that has this key. *)
Lemma completes_assoc registry requirements stages context final k :
  NoDup (map Stage.key stages) →
  completes registry requirements stages context final →
  (k ∉ executed_keys registry requirements stages →
   Js.assoc k final = Js.assoc k context) ∧
  (∀ st, st ∈ stages → guard registry requirements st = true →
         Stage.key st = k →
         ∃ c reply, stage_outcome (Stage.call st) c reply
                    = Js.Ok (Js.assoc k final)).
Proof.
  intros Hnd Hc. induction Hc as
    [stages context final Hadv
    |stages context st0 rest context' reply v final Hadv Hout Hc IH].
  - apply advance_returned in Hadv as [-> Hnone]. split; [done|].
    intros st Hin Hg _. exfalso.
    assert (st ∈ List.filter (guard registry requirements) stages) as H
      by (apply list_elem_of_In, filter_In; by rewrite <- list_elem_of_In).
    rewrite Hnone in H. by apply elem_of_nil in H.
  - apply advance_suspended in Hadv as (-> & Hg0 & skipped & -> & Hnone).
    rewrite map_app, map_cons in Hnd.
    apply NoDup_app in Hnd as (_ & _ & Hnd).
    apply NoDup_cons in Hnd as [Hfresh Hnd].
    destruct (IH Hnd) as [IH1 IH2]. clear IH.
    assert (Stage.key st0 ∉ executed_keys registry requirements rest) as Hf.
    { intros (st & Hin & _ & Hk)%executed_keys_elem. apply Hfresh.
      rewrite <- Hk. apply list_elem_of_fmap. by exists st. }
    assert (∀ st, st ∈ skipped → guard registry requirements st = false) as Hsk.
    { intros st Hin. destruct (guard registry requirements st) eqn:Hg; [|done].
      assert (st ∈ List.filter (guard registry requirements) skipped) as H
        by (apply list_elem_of_In, filter_In; by rewrite <- list_elem_of_In).
      rewrite Hnone in H. by apply elem_of_nil in H. }
    split.
    + intros Hk. rewrite executed_keys_app in Hk.
      apply not_elem_of_app in Hk as [_ Hk].
      assert (executed_keys registry requirements (st0 :: rest) =
              Stage.key st0 :: executed_keys registry requirements rest) as Heq
        by (unfold executed_keys; simpl; by rewrite Hg0).
      rewrite Heq in Hk. apply not_elem_of_cons in Hk as [Hne Hk].
      rewrite (IH1 Hk), assoc_set_field.
      by apply String.eqb_neq in Hne as ->.
    + intros st [Hin|[->|Hin]%elem_of_cons]%elem_of_app Hg Hk.
      * by rewrite (Hsk st Hin) in Hg.
      * subst k. rewrite (IH1 Hf), assoc_set_field, String.eqb_refl. by eauto.
      * by apply IH2.
Qed.

(** X9. The [files] in the result of a create-project workflow that has
    returned: under [database] and under [backend] the empty array, when
    the stage ran, and nothing otherwise; nothing under [testing] and
    [projectId]; under [requirements] the [files] that the request itself
    had. (Generated files can only come with the architecture or with the
    frontend project.) *)
Theorem X9_files_collected_from_a_finished_workflow registry requirements n final :
  completes registry requirements create_stages
    [("projectId", Js.Uuid n); ("requirements", requirements)] final →
  let files := collectGeneratedFiles final in
  Js.prop files "database" =
    (if guard registry requirements database_stage
     then Js.Arr [] else Js.Undefined) ∧
  Js.prop files "backend" =
    (if guard registry requirements backend_stage
     then Js.Arr [] else Js.Undefined) ∧
  Js.prop files "testing" = Js.Undefined ∧
  Js.prop files "projectId" = Js.Undefined ∧
  Js.prop files "requirements" =
    (if has_files requirements
     then Js.prop requirements "files" else Js.Undefined).
Proof.
  intros Hc files. subst files.
  assert (NoDup (map Stage.key create_stages)) as Hnd
    by (apply (bool_decide_unpack _); by vm_compute).
  assert (∀ k, k ∉ map Stage.key create_stages →
               Js.assoc k final =
               Js.assoc k [("projectId", Js.Uuid n);
                           ("requirements", requirements)]) as Hkeep.
  { intros k Hk. apply (completes_assoc _ _ _ _ _ k Hnd Hc).
    intros (st & Hin & _ & <-)%executed_keys_elem. apply Hk.
    apply list_elem_of_fmap. by exists st. }
  assert (∀ st, st ∈ create_stages →
            Js.assoc (Stage.key st) final =
            if guard registry requirements st
            then Js.assoc (Stage.key st) final else Js.Undefined) as Hskip.
  { intros st Hin. destruct (guard registry requirements st) eqn:Hg; [done|].
    rewrite (proj1 (completes_assoc _ _ _ _ _ (Stage.key st) Hnd Hc)).
    - revert Hin. unfold create_stages.
      rewrite !elem_of_cons, elem_of_nil. intros H. by destruct_or!; subst.
    - intros (st' & Hin' & Hg' & Hk)%executed_keys_elem.
      assert (st' = st) as ->; [|congruence].
      revert Hin Hin' Hk. unfold create_stages.
      rewrite !elem_of_cons, !elem_of_nil. intros H H'.
      by destruct_or!; subst. }
  assert (∀ st, st ∈ create_stages → guard registry requirements st = true →
            ∃ c reply, stage_outcome (Stage.call st) c reply
                       = Js.Ok (Js.assoc (Stage.key st) final)) as Hran.
  { intros st Hin Hg.
    by apply (proj2 (completes_assoc _ _ _ _ _ (Stage.key st) Hnd Hc) st). }
  rewrite !collectGeneratedFiles_lookup. repeat split.
  - assert (database_stage ∈ create_stages) as Hin
      by (unfold create_stages; repeat first [by left | right]).
    specialize (Hskip _ Hin). specialize (Hran _ Hin).
    change (Stage.key database_stage) with "database" in *.
    destruct (guard registry requirements database_stage);
      [|by rewrite Hskip].
    destruct (Hran eq_refl) as (c & reply & [= <-]). done.
  - assert (backend_stage ∈ create_stages) as Hin
      by (unfold create_stages; repeat first [by left | right]).
    specialize (Hskip _ Hin). specialize (Hran _ Hin).
    change (Stage.key backend_stage) with "backend" in *.
    destruct (guard registry requirements backend_stage);
      [|by rewrite Hskip].
    destruct (Hran eq_refl) as (c & reply & [= <-]). done.
  - set (st := {| Stage.agent := "tester"; Stage.flag := None;
                  Stage.key := "testing"; Stage.checkpoint := 95;
                  Stage.call := Stage.setupTesting |}).
    assert (st ∈ create_stages) as Hin
      by (unfold create_stages; repeat first [by left | right]).
    specialize (Hskip _ Hin). specialize (Hran _ Hin).
    change (Stage.key st) with "testing" in *.
    destruct (guard registry requirements st); [|by rewrite Hskip].
    destruct (Hran eq_refl) as (c & reply & [= <-]). done.
  - rewrite Hkeep; [done|]. apply (bool_decide_unpack _). by vm_compute.
  - rewrite Hkeep; [done|]. apply (bool_decide_unpack _). by vm_compute.
Qed.

(** With the database agent alone registered, and a database asked
    for. *)
Lemma X9_witness :
  let registry := agents (boot None None (only "database")) in
  let requirements := Js.Obj [("database", Js.Bool true)] in
  let files :=
    collectGeneratedFiles
      [("projectId", Js.Uuid 1); ("requirements", requirements);
       ("database", BaseAgent.designSchema)] in
  Js.prop files "database" =
    (if guard registry requirements database_stage
     then Js.Arr [] else Js.Undefined) ∧
  Js.prop files "backend" =
    (if guard registry requirements backend_stage
     then Js.Arr [] else Js.Undefined) ∧
  Js.prop files "testing" = Js.Undefined ∧
  Js.prop files "projectId" = Js.Undefined ∧
  Js.prop files "requirements" =
    (if has_files requirements
     then Js.prop requirements "files" else Js.Undefined).
Proof.
  apply (X9_files_collected_from_a_finished_workflow
           (agents (boot None None (only "database")))
           (Js.Obj [("database", Js.Bool true)]) 1).
  eapply completes_stage with (reply := Js.Ok Js.Null);
    [vm_compute; reflexivity | reflexivity |].
  apply completes_return. vm_compute. reflexivity.
Defined.

(* ===================================================================== *)
(** ** The agents: the busy flag, the stubs, the provider *)
(* ===================================================================== *)

(** ** [BaseAgent.executeTask] *)



(** X11. For the backend, database, devops, tester and reviewer agents,
    [processTask] does not look at the type of the task: every task that
    passes [validateTask] gets the same fixed result, whatever the
    provider would answer. *)
Theorem X11_stub_agents_ignore_the_task c task task' reply reply' :
  c ∈ stub_classes →
  BaseAgent.validateTask task = None → BaseAgent.validateTask task' = None →
  ∃ v, BaseAgent.processTask c task reply = Js.Ok v ∧
       BaseAgent.processTask c task' reply' = Js.Ok v.
Proof.
  intros Hc Hv Hv'. unfold BaseAgent.processTask. rewrite Hv, Hv'.
  unfold stub_classes in Hc.
  repeat (apply elem_of_cons in Hc as [->|Hc]); [..|by apply elem_of_nil in Hc];
    by eexists.
Qed.

(** The reviewer, given a review and a deployment. *)
Lemma X11_witness :
  ∃ v,
    BaseAgent.processTask BaseAgent.CodeReviewerAgent review_task
      (Js.Ok Js.Null) = Js.Ok v ∧
    BaseAgent.processTask BaseAgent.CodeReviewerAgent
      (Js.Obj [("type", Js.Str "deploy_application")])
      (Js.Throw (Js.Error "no answer")) = Js.Ok v.
Proof.
  apply (X11_stub_agents_ignore_the_task BaseAgent.CodeReviewerAgent
           review_task (Js.Obj [("type", Js.Str "deploy_application")])
           (Js.Ok Js.Null) (Js.Throw (Js.Error "no answer")));
    [unfold stub_classes; repeat first [by left | right]
    | reflexivity | reflexivity].
Defined.

(** X12. An agent whose provider, taken from its configuration, else from
    [AI_PROVIDER], else ['openai'], is neither ['openai'] nor
    ['anthropic'] is never registered, whatever its client library would
    do; with such a value in [AI_PROVIDER] and no provider in the
    configuration of any agent, the registry is empty. The coordinator is
    initialized all the same. *)
Theorem X12_unsupported_provider_registers_no_agent config AI_PROVIDER client mx tm acts name :
  let provider :=
    Provider.aiProvider (ConfigManager.getAgentConfig config name) AI_PROVIDER in
  let s := run (boot mx tm (Provider.boots config AI_PROVIDER client)) acts in
  Js.is_str provider "openai" = false →
  Js.is_str provider "anthropic" = false →
  agents s !! name = None ∧ initialized s = true.
Proof.
  intros provider s Ho Ha.
  destruct (run_boot_agents mx tm (Provider.boots config AI_PROVIDER client)
              acts name) as [Hi Hr].
  split; [|done]. destruct (agents s !! name) eqn:E; [|done].
  destruct (proj1 Hr ltac:(by eauto)) as [_ Hb].
  unfold Provider.boots, Provider.initializeAI in Hb. fold provider in Hb.
  by rewrite Ho, Ha in Hb.
Qed.

(** With [AI_PROVIDER=gemini] and an empty configuration. *)
Lemma X12_witness :
  let s :=
    run (boot None None
           (Provider.boots (Js.Obj []) (Some "gemini") (λ _, None)))
      [Submit (create_request (Js.Obj []))] in
  agents s !! "architect" = None ∧ initialized s = true.
Proof.
  apply (X12_unsupported_provider_registers_no_agent (Js.Obj [])
           (Some "gemini") (λ _, None) None None
           [Submit (create_request (Js.Obj []))] "architect");
    reflexivity.
Defined.

(* ===================================================================== *)
(** ** The logger *)
(* ===================================================================== *)

(** ** The threshold of the logger *)

Lemma level_or_2_cases name :
  Logger.level_or_2 name =
  if decide (name = "warn") then Logger.Rank 1
  else if decide (name = "debug") then Logger.Rank 3
  else if decide (name ∈ Js.Object_prototype)
       then Logger.Inherited (Logger.inherited_text name)
  else Logger.Rank 2.
Proof.
  unfold Logger.level_or_2, Logger.levels. simpl.
  repeat (case_decide; subst; simpl; try done).
  all: try (by rewrite bool_decide_eq_true_2).
  all: try (by rewrite bool_decide_eq_false_2).
Qed.

(** X13. With [LOG_LEVEL=warn] the logger lets the messages of level ['warn']
    through and no others: not those of [info] and [debug], and not those
    of [error], whose rank 0 the test [this.levels[level] || 2] reads as
    2. *)
Theorem X13_warn_level_drops_the_errors lg level :
  Logger.logLevel lg = "warn" →
  (Logger.shouldLog lg level = true ↔ level = "warn").
Proof.
  intros Hw. unfold Logger.shouldLog. rewrite Hw, !level_or_2_cases.
  simpl. repeat case_decide; subst; try done; split; try done; try lia.
Qed.

(** An error under [LOG_LEVEL=warn]. *)
Lemma X13_witness :
  Logger.shouldLog (Logger.new None (Some "warn") None) "error" = true
  ↔ "error" = "warn".
Proof.
  apply (X13_warn_level_drops_the_errors
           (Logger.new None (Some "warn") None) "error").
  reflexivity.
Defined.

(** X14. No setting of [LOG_LEVEL] restricts the output to errors: with
    ['error'], as with any name other than ['warn'] and ['debug'] that
    objects do not inherit, the logger lets through what it lets through
    with ['info']: every level but [debug]. *)
Theorem X14_error_level_logs_like_info lg level :
  Logger.logLevel lg ∉ ["warn"; "debug"] ++ Js.Object_prototype →
  Logger.shouldLog lg level =
  Logger.shouldLog (Logger.new None (Some "info") None) level ∧
  (level ∈ ["error"; "warn"; "info"] → Logger.shouldLog lg level = true) ∧
  Logger.shouldLog lg "debug" = false.
Proof.
  intros Hn. apply not_elem_of_app in Hn as [Hn1 Hn2].
  apply not_elem_of_cons in Hn1 as [? Hn1].
  apply not_elem_of_cons in Hn1 as [? _].
  unfold Logger.shouldLog. simpl. rewrite !level_or_2_cases.
  rewrite !decide_False by done.
  split; [|split].
  - by repeat case_decide.
  - intros Hl.
    repeat (apply elem_of_cons in Hl as [->|Hl]);
      [..|by apply elem_of_nil in Hl]; by vm_compute.
  - done.
Qed.

(** An information under [LOG_LEVEL=error]. *)
Lemma X14_witness :
  let lg := Logger.new None (Some "error") None in
  Logger.shouldLog lg "info" =
  Logger.shouldLog (Logger.new None (Some "info") None) "info" ∧
  ("info" ∈ ["error"; "warn"; "info"] → Logger.shouldLog lg "info" = true) ∧
  Logger.shouldLog lg "debug" = false.
Proof.
  apply (X14_error_level_logs_like_info
           (Logger.new None (Some "error") None) "info").
  apply (bool_decide_unpack _). vm_compute. exact I.
Defined.

(* ===================================================================== *)
(** ** The configuration *)
(* ===================================================================== *)

Lemma assoc_elem k v fields :
  NoDup (Js.keys fields) → (k, v) ∈ fields → Js.assoc k fields = v.
Proof.
  unfold Js.keys. induction fields as [|[k0 v0] rest IH]; simpl.
  - by intros _ ?%elem_of_nil.
  - intros [Hfresh Hnd]%NoDup_cons [[= <- <-]|Hin]%elem_of_cons.
    + by rewrite String.eqb_refl.
    + destruct (String.eqb k k0) eqn:E; [|by apply IH].
      apply String.eqb_eq in E as ->. destruct Hfresh.
      apply list_elem_of_fmap. by exists (k0, v).
Qed.

Lemma assoc_missing k fields :
  k ∉ Js.keys fields → Js.assoc k fields = Js.Undefined.
Proof.
  unfold Js.keys. induction fields as [|[k0 v0] rest IH]; simpl; [done|].
  intros [Hne Hnin]%not_elem_of_cons.
  apply String.eqb_neq in Hne as ->. by apply IH.
Qed.

(** [mergeConfig] on an object is the loop [assign]. *)
Lemma mergeConfig_Obj defaultConfig fields :
  ConfigManager.mergeConfig defaultConfig (Js.Obj fields) =
  if bool_decide ("hasOwnProperty" ∈ Js.keys fields) then
    Js.Throw (Js.TypeError "userConfig.hasOwnProperty is not a function")
  else ConfigManager.assign fields (Js.own defaultConfig).
Proof.
  cbn [ConfigManager.mergeConfig]. destruct (bool_decide _); [done|].
  generalize (Js.own defaultConfig).
  induction fields as [|[key v] rest IH]; intros merged; [done|].
  cbn [ConfigManager.assign]. unfold ConfigManager.entry at 1.
  destruct (Js.typeof_object v && negb (Js.isArray v)).
  - destruct (ConfigManager.mergeConfig _ v); [apply IH | done].
  - apply IH.
Qed.

(** What the loop leaves under each key. *)
Lemma assign_lookup fields merged m :
  NoDup (Js.keys fields) →
  ConfigManager.assign fields merged = Js.Ok m →
  ∃ result, m = Js.Obj result ∧
    (∀ k, k ∉ Js.keys fields → Js.assoc k result = Js.assoc k merged) ∧
    (∀ k v, (k, v) ∈ fields →
       ConfigManager.entry ConfigManager.mergeConfig merged k v
       = Js.Ok (Js.assoc k result)).
Proof.
  revert merged. unfold Js.keys.
  induction fields as [|[key v] rest IH]; intros merged; simpl.
  - intros _ [= <-]. exists merged. split; [done|]. split; [done|].
    by intros k v ?%elem_of_nil.
  - intros [Hfresh Hnd]%NoDup_cons.
    destruct (ConfigManager.entry _ merged key v) as [x|e] eqn:Hx; [|done].
    intros Hm. destruct (IH _ Hnd Hm) as (result & -> & Hother & Hthese).
    exists result. split; [done|]. split.
    + intros k [Hne Hnin]%not_elem_of_cons.
      rewrite (Hother k Hnin), assoc_set_field.
      by apply String.eqb_neq in Hne as ->.
    + intros k v0 [[= -> ->]|Hin]%elem_of_cons.
      * rewrite Hx, (Hother key Hfresh), assoc_set_field.
        by rewrite String.eqb_refl.
      * rewrite <- (Hthese k v0 Hin). unfold ConfigManager.entry.
        rewrite assoc_set_field.
        assert (k ≠ key) as Hne.
        { intros ->. apply Hfresh, list_elem_of_fmap. by exists (key, v0). }
        by apply String.eqb_neq in Hne as ->.
Qed.

(** ** Merging a configuration file into the defaults *)

Lemma parsed_Obj fields :
  parsed (Js.Obj fields) = true →
  NoDup (Js.keys fields) ∧
  ∀ k v, (k, v) ∈ fields → parsed v = true.
Proof.
  cbn [parsed]. intros [[Hnd _]%andb_true_iff Hall]%andb_true_iff.
  split; [by apply bool_decide_eq_true in Hnd|].
  intros k v Hin. rewrite forallb_forall in Hall.
  by apply (Hall (k, v)), list_elem_of_In.
Qed.

Lemma at_path_Undefined path : Js.at_path Js.Undefined path = Js.Undefined.
Proof. by induction path. Qed.

Lemma at_path_Null k path : Js.at_path Js.Null (k :: path) = Js.Undefined.
Proof. apply at_path_Undefined. Qed.



Lemma assoc_in k fields :
  Js.assoc k fields ≠ Js.Undefined → (k, Js.assoc k fields) ∈ fields.
Proof.
  induction fields as [|[k0 v0] rest IH]; simpl; [done|].
  destruct (String.eqb k k0) eqn:E.
  - apply String.eqb_eq in E as ->. by left.
  - right. by apply IH.
Qed.

(** X15. A scalar or an array that the user's file gives at some path is what
    the merged configuration has at that path, whatever the defaults
    are: the arrays of the defaults are replaced, not merged. *)
Theorem X15_user_values_override_the_defaults defaultConfig fields merged path v :
  parsed (Js.Obj fields) = true →
  ConfigManager.mergeConfig defaultConfig (Js.Obj fields) = Js.Ok merged →
  Js.at_path (Js.Obj fields) path = v → v ≠ Js.Undefined → leaf v = true →
  Js.at_path merged path = v.
Proof.
  revert defaultConfig fields merged.
  induction path as [|k path IH]; intros d fields merged Hp Hm Hv Hdef Hleaf.
  - by subst v.
  - destruct (parsed_Obj _ Hp) as [Hnd Hsub].
    rewrite mergeConfig_Obj in Hm. destruct (bool_decide _); [done|].
    destruct (assign_lookup _ _ _ Hnd Hm) as (result & -> & _ & Hthese).
    cbn [Js.at_path fold_left] in *. unfold Js.get at 2 in Hv.
    unfold Js.get at 2. cbn [Js.own] in *.
    set (v1 := Js.assoc k fields) in *.
    assert (v1 ≠ Js.Undefined) as Hv1.
    { intros E. rewrite E in Hv. fold (Js.at_path Js.Undefined path) in Hv.
      by rewrite at_path_Undefined in Hv. }
    pose proof (assoc_in k fields Hv1) as Hin. fold v1 in Hin.
    specialize (Hthese k v1 Hin). unfold ConfigManager.entry in Hthese.
    destruct v1 as [| | | | | | | |sub] eqn:E; try done;
      try (by injection Hthese as <-).
    + fold (Js.at_path Js.Null path) in Hv. destruct path as [|k2 path];
        [by subst v | by rewrite at_path_Null in Hv].
    + cbn [Js.typeof_object Js.isArray andb negb] in Hthese.
      apply (IH _ sub _ (Hsub k _ Hin) Hthese); done.
Qed.

(** The tags of [user_config] replace those of [default_config]. *)
Lemma X15_witness :
  Js.at_path merged_config ["global"; "tags"] = Js.Arr [Js.Str "c"].
Proof.
  apply (X15_user_values_override_the_defaults default_config user_config
           merged_config ["global"; "tags"] (Js.Arr [Js.Str "c"]));
    [vm_compute; reflexivity | vm_compute; reflexivity | reflexivity
    | discriminate | reflexivity].
Defined.



(** ** Loading the configuration *)

Lemma assign_throws fields merged k v :
  (k, v) ∈ fields →
  (∀ merged', ∃ e, ConfigManager.entry ConfigManager.mergeConfig merged' k v
                   = Js.Throw e) →
  ∃ e, ConfigManager.assign fields merged = Js.Throw e.
Proof.
  intros Hin Hthrow. revert merged.
  induction fields as [|[k0 v0] rest IH]; intros merged;
    [by apply elem_of_nil in Hin|].
  cbn [ConfigManager.assign].
  apply elem_of_cons in Hin as [[= <- <-]|Hin].
  - destruct (Hthrow merged) as [e ->]. by eauto.
  - destruct (ConfigManager.entry _ merged k0 v0); [by apply IH | by eauto].
Qed.

Lemma shadows_throws userConfig defaultConfig :
  shadows userConfig →
  ∃ e, ConfigManager.mergeConfig defaultConfig userConfig = Js.Throw e.
Proof.
  intros Hs. revert defaultConfig.
  induction Hs as [fields Hin|fields k sub Hin Hs IH]; intros d;
    rewrite mergeConfig_Obj.
  - rewrite bool_decide_eq_true_2 by done. by eauto.
  - destruct (bool_decide _); [by eauto|].
    apply (assign_throws _ _ k (Js.Obj sub) Hin). intros merged'.
    unfold ConfigManager.entry. cbn [Js.typeof_object Js.isArray andb negb].
    apply IH.
Qed.

(** X17. [load()] leaves the defaults in place, and every agent with its
    default configuration, when there is no file, when the file cannot
    be read or parsed, and also when an object of the file that the merge
    comes to has a key [hasOwnProperty]: the call of
    [userConfig.hasOwnProperty] throws and the rest of the file is
    dropped with it. *)
Theorem X17_load_falls_back_on_the_defaults defaultConfig file :
  match file with
  | ConfigManager.Absent | ConfigManager.Present (Js.Throw _) => True
  | ConfigManager.Present (Js.Ok userConfig) => shadows userConfig
  end →
  ConfigManager.load defaultConfig file = defaultConfig ∧
  ∀ agentName,
    ConfigManager.getAgentConfig (ConfigManager.load defaultConfig file)
      agentName
    = ConfigManager.getAgentConfig defaultConfig agentName.
Proof.
  intros H.
  assert (ConfigManager.load defaultConfig file = defaultConfig) as ->;
    [|done].
  destruct file as [|[userConfig|e]]; try done.
  unfold ConfigManager.load.
  by destruct (shadows_throws userConfig defaultConfig H) as [e ->].
Qed.

(** A file that gives the agents a property [hasOwnProperty]. *)
Lemma X17_witness :
  let file := ConfigManager.Present (Js.Ok shadowing_config) in
  ConfigManager.load default_config file = default_config ∧
  ∀ agentName,
    ConfigManager.getAgentConfig (ConfigManager.load default_config file)
      agentName
    = ConfigManager.getAgentConfig default_config agentName.
Proof.
  apply (X17_load_falls_back_on_the_defaults default_config
           (ConfigManager.Present (Js.Ok shadowing_config))).
  apply (shadows_below _ "agents" [("hasOwnProperty", Js.Bool true)]);
    [by left|].
  apply shadows_here. simpl. by left.
Defined.

(* ===================================================================== *)
(** ** The architect *)
(* ===================================================================== *)

(** ** The architect *)

Lemma features_include_cases features lit :
  if no_includes features
  then ProjectArchitectAgent.features_include features lit =
       inl (Js.TypeError "requirements.features?.includes is not a function")
  else ∃ b, ProjectArchitectAgent.features_include features lit = inr b.
Proof. destruct features; simpl; by eauto. Qed.

Lemma select_cases frontend requirements :
  if no_includes (Js.prop requirements "features")
  then ProjectArchitectAgent.selectAuthStrategy requirements
       = inl (Js.TypeError
                "requirements.features?.includes is not a function") ∧
       (∀ v, ProjectArchitectAgent.selectStateManagement frontend requirements
             = inr v → Js.is_str frontend "react" = false
                       ∨ Js.is_str (Js.prop requirements "complexity") "high"
                         = true) ∧
       (∀ e, ProjectArchitectAgent.selectStateManagement frontend requirements
             = inl e →
             e = Js.TypeError
                   "requirements.features?.includes is not a function") ∧
       (∀ e, ProjectArchitectAgent.selectStylingApproach requirements
             = inl e →
             e = Js.TypeError
                   "requirements.features?.includes is not a function")
  else ∃ stateManagement styling authentication,
    ProjectArchitectAgent.selectStateManagement frontend requirements
    = inr stateManagement ∧
    ProjectArchitectAgent.selectStylingApproach requirements = inr styling ∧
    ProjectArchitectAgent.selectAuthStrategy requirements
    = inr authentication.
Proof.
  unfold ProjectArchitectAgent.selectStateManagement,
    ProjectArchitectAgent.selectStylingApproach,
    ProjectArchitectAgent.selectAuthStrategy.
  pose proof (features_include_cases (Js.prop requirements "features")) as H.
  destruct (no_includes (Js.prop requirements "features")).
  - rewrite !H. split; [done|].
    destruct (Js.is_str frontend "react"), (Js.is_str frontend "vue"),
      (Js.is_str (Js.prop requirements "complexity") "high"),
      (Js.is_str (Js.prop requirements "ui") "modern");
      repeat split; intros; simplify_eq; by eauto.
  - destruct (H "real-time") as [b1 ->]. destruct (H "theming") as [b2 ->].
    destruct (H "social_login") as [b3 ->].
    destruct (H "enterprise_auth") as [b4 ->].
    assert (∀ x y z : Js.error + Js.value,
              (∃ v, x = inr v) → (∃ v, y = inr v) → (∃ v, z = inr v) →
              ∃ a b c, x = inr a ∧ y = inr b ∧ z = inr c) as Hall
      by (intros x y z [a ->] [b ->] [c ->]; by exists a, b, c).
    apply Hall; repeat case_match; by eexists.
Qed.

Lemma recommendTechnologyStack_cases architecture requirements :
  if no_includes (Js.prop requirements "features")
  then ProjectArchitectAgent.recommendTechnologyStack architecture requirements
       = inl (Js.TypeError
                "requirements.features?.includes is not a function")
  else ∃ stateManagement styling authentication,
    ProjectArchitectAgent.selectStateManagement
      (Js.prop architecture "frontend") requirements = inr stateManagement ∧
    ProjectArchitectAgent.selectStylingApproach requirements = inr styling ∧
    ProjectArchitectAgent.selectAuthStrategy requirements
    = inr authentication ∧
    ∃ stack,
      ProjectArchitectAgent.recommendTechnologyStack architecture requirements
      = inr (Js.Obj stack) ∧
      Js.at_path (Js.Obj stack) ["frontend"; "framework"] =
        Js.or_else (Js.prop architecture "frontend") (Js.Str "react") ∧
      Js.at_path (Js.Obj stack) ["frontend"; "stateManagement"] =
        stateManagement ∧
      Js.at_path (Js.Obj stack) ["frontend"; "styling"] = styling ∧
      Js.at_path (Js.Obj stack) ["backend"; "runtime"] =
        Js.or_else (Js.prop architecture "backend") (Js.Str "node.js") ∧
      Js.at_path (Js.Obj stack) ["backend"; "framework"] =
        ProjectArchitectAgent.selectBackendFramework
          (Js.prop architecture "backend") requirements ∧
      Js.at_path (Js.Obj stack) ["backend"; "database"] =
        Js.or_else (Js.prop architecture "database") (Js.Str "postgresql") ∧
      Js.at_path (Js.Obj stack) ["backend"; "orm"] =
        ProjectArchitectAgent.selectORM (Js.prop architecture "database") ∧
      Js.at_path (Js.Obj stack) ["backend"; "authentication"] =
        authentication.
Proof.
  unfold ProjectArchitectAgent.recommendTechnologyStack.
  pose proof (select_cases (Js.prop architecture "frontend") requirements)
    as H.
  destruct (no_includes (Js.prop requirements "features")).
  - destruct H as (-> & _ & Hstate & Hstyle).
    destruct (ProjectArchitectAgent.selectStateManagement _ _) as [e|v];
      [by rewrite (Hstate e)|].
    destruct (ProjectArchitectAgent.selectStylingApproach _) as [e|v'];
      [by rewrite (Hstyle e) | done].
  - destruct H as (stateManagement & styling & authentication & -> & -> & ->).
    exists stateManagement, styling, authentication.
    repeat (split; [done|]). eexists. split; [done|]. by repeat split.
Qed.

(** What [enhanceArchitecture] returns, by its properties. *)
Lemma enhanceArchitecture_Ok base requirements enhanced :
  ProjectArchitectAgent.enhanceArchitecture base requirements
  = Js.Ok enhanced →
  Js.nullish requirements = false ∧ Js.nullish base = false ∧
  ∃ stack,
    ProjectArchitectAgent.recommendTechnologyStack base requirements
    = inr stack ∧
    Js.get enhanced "projectStructure" =
      ProjectArchitectAgent.generateProjectStructure base requirements ∧
    Js.get enhanced "technologyStack" = stack ∧
    Js.get enhanced "securityConsiderations" =
      ProjectArchitectAgent.getSecurityRecommendations ∧
    Js.get enhanced "scalabilityPlan" =
      ProjectArchitectAgent.createScalabilityPlan ∧
    Js.get enhanced "deploymentStrategy" =
      ProjectArchitectAgent.suggestDeploymentStrategy ∧
    Js.get enhanced "developmentWorkflow" =
      ProjectArchitectAgent.createDevelopmentWorkflow ∧
    ∀ k, k ∉ ProjectArchitectAgent.enhancements →
         Js.get enhanced k = Js.get base k.
Proof.
  unfold ProjectArchitectAgent.enhanceArchitecture.
  destruct (Js.nullish requirements); [done|].
  destruct (Js.nullish base); [done|].
  destruct (ProjectArchitectAgent.recommendTechnologyStack _ _) as [e|stack];
    [done|].
  intros [= <-]. split; [done|]. split; [done|]. exists stack.
  split; [done|]. unfold Js.get at 1 2 3 4 5 6. cbn [Js.own].
  repeat (split; [by rewrite !assoc_set_field|]).
  intros k Hk. unfold Js.get at 1. cbn [Js.own]. rewrite !assoc_set_field.
  repeat match goal with
         | |- context [String.eqb k ?l] =>
             destruct (String.eqb_spec k l) as [->|_];
             [destruct Hk; unfold ProjectArchitectAgent.enhancements;
              repeat first [by left | right]|]
         end.
  done.
Qed.





(** X20. Where the provider's answer names no frontend, no backend or no
    database, the technology stack falls back on React, on Node.js with
    Express, and on PostgreSQL with Prisma, while the project structure
    has no directory for that part; and the state management chosen for
    the default React frontend is ['built-in'], which is none of those
    chosen for React. *)
Theorem X20_defaults_of_the_technology_stack base requirements enhanced :
  ProjectArchitectAgent.enhanceArchitecture base requirements
  = Js.Ok enhanced →
  (Js.truthy (Js.prop base "frontend") = false →
   Js.at_path enhanced ["technologyStack"; "frontend"; "framework"]
   = Js.Str "react" ∧
   Js.at_path enhanced ["technologyStack"; "frontend"; "stateManagement"]
   = Js.Str "built-in" ∧
   Js.at_path enhanced ["projectStructure"; "directories"; "frontend"]
   = Js.Undefined) ∧
  (Js.truthy (Js.prop base "backend") = false →
   Js.at_path enhanced ["technologyStack"; "backend"; "runtime"]
   = Js.Str "node.js" ∧
   Js.at_path enhanced ["technologyStack"; "backend"; "framework"]
   = Js.Str "express" ∧
   Js.at_path enhanced ["projectStructure"; "directories"; "backend"]
   = Js.Undefined) ∧
  (Js.truthy (Js.prop base "database") = false →
   Js.at_path enhanced ["technologyStack"; "backend"; "database"]
   = Js.Str "postgresql" ∧
   Js.at_path enhanced ["technologyStack"; "backend"; "orm"]
   = Js.Str "prisma" ∧
   Js.at_path enhanced ["projectStructure"; "directories"; "database"]
   = Js.Undefined).
Proof.
  intros (_ & _ & stack0 & Hs & H1 & H2 & _)%enhanceArchitecture_Ok.
  pose proof (recommendTechnologyStack_cases base requirements) as H.
  destruct (no_includes _); [congruence|].
  destruct H as (sm & sty & au & Hsm & _ & _ & stack & Hstack
                 & F1 & F2 & _ & B1 & B2 & B3 & B4 & _).
  rewrite Hstack in Hs. injection Hs as <-.
  rewrite !(at_path_cons enhanced), H1, H2, F1, F2, B1, B2, B3, B4.
  unfold ProjectArchitectAgent.generateProjectStructure.
  repeat split.
  - unfold Js.or_else. by rewrite H.
  - unfold ProjectArchitectAgent.selectStateManagement in Hsm.
    destruct (Js.prop base "frontend") as [| | | | |s| | |]; try done;
      simpl in Hsm; try (by injection Hsm as <-).
    simpl in H. apply negb_false_iff, String.eqb_eq in H as ->.
    simpl in Hsm. by injection Hsm as <-.
  - rewrite H. by destruct (Js.truthy (Js.prop base "backend")),
      (Js.truthy (Js.prop base "database")).
  - unfold Js.or_else. by rewrite H.
  - unfold ProjectArchitectAgent.selectBackendFramework.
    destruct (Js.prop base "backend") as [| | | | |s| | |]; try done.
    simpl in H. by apply negb_false_iff, String.eqb_eq in H as ->.
  - rewrite H. by destruct (Js.truthy (Js.prop base "frontend")),
      (Js.truthy (Js.prop base "database")).
  - unfold Js.or_else. by rewrite H.
  - unfold ProjectArchitectAgent.selectORM.
    destruct (Js.prop base "database") as [| |[]|n| |s| | |]; try done.
    + simpl in H. apply negb_false_iff, Z.eqb_eq in H as ->. done.
    + simpl in H. by apply negb_false_iff, String.eqb_eq in H as ->.
  - rewrite H. by destruct (Js.truthy (Js.prop base "frontend")),
      (Js.truthy (Js.prop base "backend")).
Qed.

(** An answer of the provider that names no part. *)
Lemma X20_witness :
  let base := Js.Obj [("architecture_type", Js.Str "monolith")] in
  let enhanced :=
    returned (ProjectArchitectAgent.enhanceArchitecture base (Js.Obj [])) in
  (Js.truthy (Js.prop base "frontend") = false →
   Js.at_path enhanced ["technologyStack"; "frontend"; "framework"]
   = Js.Str "react" ∧
   Js.at_path enhanced ["technologyStack"; "frontend"; "stateManagement"]
   = Js.Str "built-in" ∧
   Js.at_path enhanced ["projectStructure"; "directories"; "frontend"]
   = Js.Undefined) ∧
  (Js.truthy (Js.prop base "backend") = false →
   Js.at_path enhanced ["technologyStack"; "backend"; "runtime"]
   = Js.Str "node.js" ∧
   Js.at_path enhanced ["technologyStack"; "backend"; "framework"]
   = Js.Str "express" ∧
   Js.at_path enhanced ["projectStructure"; "directories"; "backend"]
   = Js.Undefined) ∧
  (Js.truthy (Js.prop base "database") = false →
   Js.at_path enhanced ["technologyStack"; "backend"; "database"]
   = Js.Str "postgresql" ∧
   Js.at_path enhanced ["technologyStack"; "backend"; "orm"]
   = Js.Str "prisma" ∧
   Js.at_path enhanced ["projectStructure"; "directories"; "database"]
   = Js.Undefined).
Proof.
  apply (X20_defaults_of_the_technology_stack
           (Js.Obj [("architecture_type", Js.Str "monolith")]) (Js.Obj [])).
  reflexivity.
Defined.

(** ** A create-project task with a malformed list of features *)





(* ===================================================================== *)
(** ** The frontend agent *)
(* ===================================================================== *)

(** The model of the method used in the workflow is this one, the
    outcome left to the environment there being the one built here. *)
Lemma createProject_refines context components :
  FrontendDeveloperAgent.createProject context components =
  BaseAgent.frontend_createProject context
    match components with
    | Js.Ok c =>
        Js.Ok (FrontendDeveloperAgent.project (Js.prop context "architecture") c)
    | Js.Throw e => Js.Throw e
    end.
Proof.
  unfold FrontendDeveloperAgent.createProject, BaseAgent.frontend_createProject.
  by repeat case_match.
Qed.

(** X22. Whatever the architecture and the provider's components, the project
    that the frontend agent returns names the router ['react-router-dom']
    for the framework ['react'] and ['vue-router'] for every other one;
    and it has no [files] property of its own, so that the files
    collected from a context never have an entry for the frontend. *)
Theorem X22_frontend_project_has_no_files context components project rest :
  FrontendDeveloperAgent.createProject context components = Js.Ok project →
  Js.prop (Js.prop project "routing") "router" =
    (if Js.is_str (Js.prop project "framework") "react"
     then Js.Str "react-router-dom" else Js.Str "vue-router") ∧
  Js.prop project "files" = Js.Undefined ∧
  Js.prop (collectGeneratedFiles (Js.set_field "frontend" project rest))
    "frontend" = Js.Undefined.
Proof.
  unfold FrontendDeveloperAgent.createProject.
  destruct (Js.nullish context); [done|].
  destruct (Js.nullish _); [done|].
  destruct components as [c|e]; [|done]. intros [= <-].
  split; [done|]. split; [done|].
  rewrite collectGeneratedFiles_lookup. by rewrite assoc_set_field.
Qed.

(** A Vue frontend. *)
Lemma X22_witness :
  let project :=
    FrontendDeveloperAgent.project (Js.Obj [("frontend", Js.Str "vue")])
      (Js.Arr []) in
  Js.prop (Js.prop project "routing") "router" =
    (if Js.is_str (Js.prop project "framework") "react"
     then Js.Str "react-router-dom" else Js.Str "vue-router") ∧
  Js.prop project "files" = Js.Undefined ∧
  Js.prop (collectGeneratedFiles
             (Js.set_field "frontend" project [("projectId", Js.Uuid 1)]))
    "frontend" = Js.Undefined.
Proof.
  apply (X22_frontend_project_has_no_files vue_context (Js.Ok (Js.Arr []))).
  reflexivity.
Defined.


(* ===================================================================== *)
(** ** The debugger *)
(* ===================================================================== *)

(** ** The analysis of the debugger *)

Section debugger.
Import DebugDetectiveAgent.

Lemma count_le key lit l : count key lit l ≤ length l.
Proof. unfold count. apply List.filter_length_le. Qed.

Lemma analyzeFiles_summary attempts i files s fs s' :
  analyzeFiles attempts i files s = inr (fs, s') →
  length fs = length files ∧
  totalFiles s' = totalFiles s ∧
  totalIssues s' = totalIssues s + sum_of length fs ∧
  criticalIssues s' = criticalIssues s + sum_of (count "severity" "high") fs ∧
  securityIssues s' = securityIssues s + sum_of (count "type" "security") fs ∧
  performanceIssues s' =
    performanceIssues s + sum_of (count "type" "performance") fs.
Proof.
  revert i s fs s'. induction files as [|filePath rest IH]; intros i s fs s'.
  - simpl. intros [= <- <-]. unfold sum_of. simpl. lia.
  - cbn [analyzeFiles]. destruct (analyzeFile filePath (attempts i)) as [e|f];
      [done|].
    destruct (analyzeFiles attempts (S i) rest (add f s)) as [e|[fs0 s0]] eqn:E;
      [done|].
    intros [= <- <-]. destruct (IH _ _ _ _ E) as (H1 & H2 & H3 & H4 & H5 & H6).
    unfold sum_of in *. simpl in *. lia.
Qed.

Lemma sum_of_le g h fs :
  (∀ l, g l ≤ h l) → sum_of g fs ≤ sum_of h fs.
Proof.
  intros Hle. unfold sum_of. induction fs as [|f fs IH]; simpl; [done|].
  specialize (Hle (issues f)). lia.
Qed.

Lemma analyzeCode_sums files attempts a :
  analyzeCode files attempts = inr a →
  let s := summary_ a in
  length (DebugDetectiveAgent.files a) = length files ∧ totalFiles s = length files ∧
  totalIssues s = sum_of length (DebugDetectiveAgent.files a) ∧
  criticalIssues s = sum_of (count "severity" "high") (DebugDetectiveAgent.files a) ∧
  securityIssues s = sum_of (count "type" "security") (DebugDetectiveAgent.files a) ∧
  performanceIssues s = sum_of (count "type" "performance") (DebugDetectiveAgent.files a).
Proof.
  unfold analyzeCode.
  destruct (analyzeFiles _ _ _ _) as [e|[fs s]] eqn:E; [done|].
  intros [= <-]. cbn [summary_ DebugDetectiveAgent.files].
  destruct (analyzeFiles_summary _ _ _ _ _ _ E) as (H1 & H2 & H3 & H4 & H5 & H6).
  simpl in *. repeat split; lia.
Qed.

(** X23. When [analyzeCode] returns, the summary counts the files given and
    holds the sums over the file analyses, one per file: all the issues,
    those of severity ['high'], those of type ['security'] and those of
    type ['performance'], each of the last three at most the first. *)
Theorem X23_summary_sums_the_file_analyses files attempts a :
  analyzeCode files attempts = inr a →
  let s := summary_ a in
  length (DebugDetectiveAgent.files a) = length files ∧ totalFiles s = length files ∧
  totalIssues s = sum_of length (DebugDetectiveAgent.files a) ∧
  criticalIssues s = sum_of (count "severity" "high") (DebugDetectiveAgent.files a) ∧
  securityIssues s = sum_of (count "type" "security") (DebugDetectiveAgent.files a) ∧
  performanceIssues s = sum_of (count "type" "performance") (DebugDetectiveAgent.files a) ∧
  criticalIssues s ≤ totalIssues s ∧ securityIssues s ≤ totalIssues s ∧
  performanceIssues s ≤ totalIssues s.
Proof.
  intros Ha s.
  destruct (analyzeCode_sums files attempts a Ha)
    as (H1 & H2 & H3 & H4 & H5 & H6). fold s in H2, H3, H4, H5, H6.
  pose proof (sum_of_le (count "severity" "high") length (DebugDetectiveAgent.files a)
                (count_le _ _)).
  pose proof (sum_of_le (count "type" "security") length (DebugDetectiveAgent.files a)
                (count_le _ _)).
  pose proof (sum_of_le (count "type" "performance") length (DebugDetectiveAgent.files a)
                (count_le _ _)).
  repeat split; lia.
Qed.

(** One file with one issue, of type ['security'] and severity
    ['high']. *)
Lemma X23_witness :
  let a := one_issue_analysis in
  let s := summary_ a in
  length (DebugDetectiveAgent.files a) = length [Js.Str "a.js"] ∧
  totalFiles s = length [Js.Str "a.js"] ∧
  totalIssues s = sum_of length (DebugDetectiveAgent.files a) ∧
  criticalIssues s =
    sum_of (count "severity" "high") (DebugDetectiveAgent.files a) ∧
  securityIssues s =
    sum_of (count "type" "security") (DebugDetectiveAgent.files a) ∧
  performanceIssues s =
    sum_of (count "type" "performance") (DebugDetectiveAgent.files a) ∧
  criticalIssues s ≤ totalIssues s ∧ securityIssues s ≤ totalIssues s ∧
  performanceIssues s ≤ totalIssues s.
Proof.
  apply (X23_summary_sums_the_file_analyses [Js.Str "a.js"] one_issue
           one_issue_analysis).
  reflexivity.
Defined.

Lemma analyzeFiles_returns attempts i files s :
  (∀ filePath, filePath ∈ files → Js.nullish filePath = false) →
  ∃ fs s', analyzeFiles attempts i files s = inr (fs, s').
Proof.
  revert i s. induction files as [|filePath rest IH]; intros i s Hall;
    [by eexists _, _|].
  cbn [analyzeFiles]. unfold analyzeFile at 1.
  rewrite (Hall filePath) by (by left).
  edestruct (IH (S i)) as (fs & s' & ->);
    [intros f Hf; apply Hall; by right|]. by eexists _, _.
Qed.

Lemma analyzeFiles_throws attempts i files s filePath :
  filePath ∈ files → Js.nullish filePath = true →
  ∃ e, analyzeFiles attempts i files s = inl e.
Proof.
  revert i s. induction files as [|f0 rest IH]; intros i s Hin Hn;
    [by apply elem_of_nil in Hin|].
  cbn [analyzeFiles]. apply elem_of_cons in Hin as [<-|Hin].
  - unfold analyzeFile. rewrite Hn. by eauto.
  - destruct (analyzeFile f0 (attempts i)) as [e|f]; [by eauto|].
    destruct (IH (S i) (add f s) Hin Hn) as [e ->]. by eauto.
Qed.

(** X24. [analyzeCode] throws exactly when one of the files given is
    [undefined] or [null]; whatever else goes wrong with a file (it cannot
    be read, it has no content, the provider fails) is returned in the
    entry of the file. *)
Theorem X24_analyzeCode_throws_on_a_nullish_file_only files attempts :
  (∃ e, analyzeCode files attempts = inl e) ↔
  ∃ filePath, filePath ∈ files ∧ Js.nullish filePath = true.
Proof.
  unfold analyzeCode. split.
  - intros [e He].
    destruct (decide (Exists (λ f, Js.nullish f = true) files))
      as [(f & Hin & Hn)%Exists_exists|Hnone]; [by eauto|].
    edestruct (analyzeFiles_returns attempts 0 files) as (fs & s' & Hr).
    + intros f Hin. destruct (Js.nullish f) eqn:E; [|done].
      destruct Hnone. apply Exists_exists. by eauto.
    + by rewrite Hr in He.
  - intros (f & Hin & Hn).
    edestruct (analyzeFiles_throws attempts 0 files) as [e ->]; by eauto.
Qed.

Lemma sum_of_pos g fs :
  0 < sum_of g fs ↔ ∃ f, f ∈ fs ∧ 0 < g (issues f).
Proof.
  unfold sum_of. induction fs as [|f fs IH]; simpl.
  - split; [lia | by intros (f & ?%elem_of_nil & _)].
  - split.
    + intros H. destruct (decide (0 < g (issues f))) as [Hf|Hf].
      * exists f. split; [by left | done].
      * destruct (proj1 IH ltac:(lia)) as (f' & Hin & Hpos).
        exists f'. split; [by right | done].
    + intros (f' & [->|Hin]%elem_of_cons & Hpos); [lia|].
      assert (0 < list_sum (map (λ f0, g (issues f0)) fs))
        by (apply IH; by eauto). lia.
Qed.

Lemma count_pos key lit l :
  0 < count key lit l ↔ ∃ i, i ∈ l ∧ Js.assoc key i = Js.Str lit.
Proof.
  unfold count. induction l as [|i l IH]; simpl.
  - split; [lia | by intros (i & ?%elem_of_nil & _)].
  - destruct (Js.is_str (Js.assoc key i) lit) eqn:E.
    + split; [|simpl; lia]. intros _. exists i. split; [by left|].
      by apply is_str_eq.
    + rewrite IH. split.
      * intros (i' & Hin & Hi). exists i'. split; [by right | done].
      * intros (i' & [->|Hin]%elem_of_cons & Hi); [|by eauto].
        rewrite Hi in E. simpl in E. by rewrite String.eqb_refl in E.
Qed.

(** X25. The immediate actions in the result of a debug task, computed from
    the analysis that [analyzeCode] returned: fixing the security
    vulnerabilities is among them exactly when some file has an issue of
    type ['security'], addressing the critical bugs exactly when the
    files have more than five issues of severity ['high'] together; and
    there is no other. *)
Theorem X25_immediate_actions files attempts a :
  analyzeCode files attempts = inr a →
  Js.prop (getRecommendations (analysis_value a)) "immediate" =
    Js.Arr
      ((if 0 <? sum_of (count "type" "security") (DebugDetectiveAgent.files a)
        then [Js.Str "Fix all security vulnerabilities"] else []) ++
       (if 5 <? sum_of (count "severity" "high") (DebugDetectiveAgent.files a)
        then [Js.Str "Address critical bugs and errors"] else [])) ∧
  (0 < sum_of (count "type" "security") (DebugDetectiveAgent.files a) ↔
   ∃ f i, f ∈ DebugDetectiveAgent.files a ∧ i ∈ issues f ∧
          Js.assoc "type" i = Js.Str "security").
Proof.
  intros Ha.
  destruct (analyzeCode_sums files attempts a Ha) as (_ & _ & _ & Hc & Hs & _).
  split.
  - unfold getRecommendations, analysis_value, summary_value.
    cbn [Js.prop Js.assoc String.eqb Ascii.eqb Bool.eqb Js.gt].
    rewrite Hc, Hs.
    assert (∀ n m, (Z.of_nat n <? Z.of_nat m)%Z = (n <? m)) as Hlt.
    { intros n m. destruct (n <? m) eqn:E.
      - apply Nat.ltb_lt in E. apply Z.ltb_lt. lia.
      - apply Nat.ltb_ge in E. apply Z.ltb_ge. lia. }
    change 0%Z with (Z.of_nat 0). change 5%Z with (Z.of_nat 5).
    by rewrite !Hlt.
  - rewrite sum_of_pos. split.
    + intros (f & Hin & (i & Hi & Ht)%count_pos). by eauto.
    + intros (f & i & Hin & Hi & Ht). exists f. split; [done|].
      apply count_pos. by eauto.
Qed.

(** One file with one security issue: one immediate action. *)
Lemma X25_witness :
  let a := one_issue_analysis in
  Js.prop (getRecommendations (analysis_value a)) "immediate" =
    Js.Arr
      ((if 0 <? sum_of (count "type" "security") (DebugDetectiveAgent.files a)
        then [Js.Str "Fix all security vulnerabilities"] else []) ++
       (if 5 <? sum_of (count "severity" "high") (DebugDetectiveAgent.files a)
        then [Js.Str "Address critical bugs and errors"] else [])) ∧
  (0 < sum_of (count "type" "security") (DebugDetectiveAgent.files a) ↔
   ∃ f i, f ∈ DebugDetectiveAgent.files a ∧ i ∈ issues f ∧
          Js.assoc "type" i = Js.Str "security").
Proof.
  apply (X25_immediate_actions [Js.Str "a.js"] one_issue one_issue_analysis).
  reflexivity.
Defined.

(** ** A debug task from submission to completion *)




End debugger.
(* ===================================================================== *)
(** ** The user interfaces *)
(* ===================================================================== *)

(** X27. The task that the menu entry for a new project submits passes the
    validation of the coordinator exactly when its description passes
    the [validate] of the prompt; and its requirements have none of the
    flags [database], [backend] and [frontend], so that the stages of its
    workflow are at most those of the architect and of the tester. *)
Theorem X27_cli_project_runs_two_stages answers registry created taskId :
  let r := CLIInterface.createProject answers in
  validateTaskRequest r = CLIInterface.validate (CLIInterface.description answers) ∧
  executed_keys registry (Task.requirements (new_task taskId r created))
    create_stages =
  (if bool_decide (is_Some (registry !! "architect"))
   then ["architecture"] else []) ++
  (if bool_decide (is_Some (registry !! "tester")) then ["testing"] else []).
Proof.
  split.
  - unfold validateTaskRequest, CLIInterface.validate. simpl.
    by destruct (String.eqb _ "").
  - unfold executed_keys. simpl. unfold guard. simpl.
    by destruct (bool_decide (is_Some (registry !! "architect"))),
               (bool_decide (is_Some (registry !! "tester"))).
Qed.

(** X28. For every progress event that a coordinator emits, the listener of
    the command-line interface builds a bar of 20 cells, a fifth of the
    progress of them filled: [repeat] is never given a negative count. *)
Theorem X28_progress_bar_has_twenty_cells s taskId p :
  reachable s → taskProgress taskId p ∈ emitted s →
  ∃ filled empty,
    CLIInterface.progressListener p = CLIInterface.Bar filled empty ∧
    filled + empty = 20 ∧ 5 * filled = p.
Proof.
  intros [_ C]%reachable_checkpoints Hin. apply C in Hin.
  unfold progress_values in Hin. simpl in Hin.
  repeat (apply elem_of_cons in Hin as [->|Hin]);
    [..|by apply elem_of_nil in Hin]; by eexists _, _.
Qed.

(** The progress event of [designed]. *)
Lemma X28_witness :
  ∃ filled empty,
    CLIInterface.progressListener 20 = CLIInterface.Bar filled empty ∧
    filled + empty = 20 ∧ 5 * filled = 20.
Proof.
  apply (X28_progress_bar_has_twenty_cells designed 0 20).
  - apply (reachable_run stalled), stalled_reachable.
  - vm_compute. right. left.
Defined.

(** ** The form of the dashboard *)

(** A debug task whose requirements have no [files]: with a debugger the
    call of [analyzeCode] throws when it reads [files.length], without
    one the workflow throws at once. *)
Lemma debug_without_files s r reply1 reply2 :
  inv s → Request.type r = Js.Str "debug_code" →
  validateTaskRequest r = true →
  Js.nullish (Js.prop (Js.or_else (Request.requirements r) (Js.Obj [])) "files")
    = true →
  let s' := resume (uuids s) reply2 (resume (uuids s) reply1 (executeTask r s)) in
  (∃ e, promises s' !! uuids s = Some (Js.Throw e)) ∧
  frames s' !! uuids s = None.
Proof.
  intros I Htype Hv Hfiles s'. subst s'.
  destruct (agents s !! "debugger") as [en|] eqn:Hd.
  - assert (executeTask r s =
            suspend (uuids s)
              (awaiting_analyzeCode
                 (Js.prop (Js.or_else (Request.requirements r) (Js.Obj []))
                    "files"))
              (upd_runningTasks
                 (insert (uuids s) (new_task (uuids s) r (now s)))
                 (draw_uuid s))) as ->.
    { unfold executeTask, executeTaskWorkflow. rewrite Hv.
      cbn [negb new_task Task.type]. rewrite Htype.
      change (workflow_method (Js.Str "debug_code"))
        with (Some "executeDebugWorkflow").
      unfold call_workflow.
      change (workflow_body "executeDebugWorkflow")
        with (Some executeDebugWorkflow).
      unfold executeDebugWorkflow. read_state. rewrite Hd.
      by rewrite bool_decide_eq_true_2 by eauto. }
    set (files := Js.prop _ "files") in *.
    set (e := BaseAgent.cannot_read files "length").
    assert (∀ s0, frames s0 !! uuids s = Some (awaiting_analyzeCode files) →
              resume (uuids s) reply1 s0 =
              suspend (uuids s) (awaiting_workflow (Js.Throw e)) s0) as Hr.
    { intros s0 Hf. unfold resume, BaseAgent.analyzeCode. by rewrite Hf, Hfiles. }
    rewrite Hr by (read_state; by rewrite lookup_insert_eq).
    rewrite (resume_thrown _ _ _ e)
      by (read_state; by rewrite lookup_insert_eq).
    read_state. rewrite lookup_insert_eq, lookup_delete_eq. by eauto.
  - destruct (missing_debugger_fails s r reply1 I Hd Htype Hv) as (Hp & _ & Hf).
    rewrite (resume_idle _ reply2) by done. by eauto.
Qed.

(** X29. A task submitted from the form of the dashboard with another type
    than ['create_project'] fails, in every reachable state and whatever
    the agents and the provider do: after at most two resumptions its
    invocation has ended, the promise of [executeTask] is rejected and
    the client receives ['task_error']. (A debug task has no [files], a
    task of the three other kinds no workflow method.) *)
Theorem X29_dashboard_tasks_fail_unless_create_project s task_type task_description project_type reply1 reply2 :
  reachable s → task_type ≠ "create_project" →
  let r := WebInterface.form_taskData task_type task_description project_type in
  let s' := run s [Submit r; Resume (uuids s) reply1; Resume (uuids s) reply2] in
  frames s' !! uuids s = None ∧
  ∃ e, promises s' !! uuids s = Some (Js.Throw e) ∧
       WebInterface.execute_task_reply (Js.Throw e) =
       ("task_error", Js.Obj [("error", Js.Str (Js.message e))]).
Proof.
  intros I%reachable_inv Hne r s'. subst s'. cbn [run fold_left step].
  assert (Request.requirements r = Js.Obj []) as Hreq.
  { unfold r, WebInterface.form_taskData. cbn [Request.requirements].
    by apply String.eqb_neq in Hne as ->. }
  assert (Request.type r = Js.Str task_type) as Htype by done.
  enough ((∃ e, promises
                  (resume (uuids s) reply2
                     (resume (uuids s) reply1 (executeTask r s))) !! uuids s
                = Some (Js.Throw e)) ∧
          frames (resume (uuids s) reply2
                    (resume (uuids s) reply1 (executeTask r s))) !! uuids s
          = None) as [[e He] Hf] by (split; [done | by exists e]).
  destruct (validateTaskRequest r) eqn:Hv.
  - assert (∀ e, frames (executeTask r s) !! uuids s
                 = Some (awaiting_workflow (Js.Throw e)) →
                 executeTask r s =
                 suspend (uuids s) (awaiting_workflow (Js.Throw e))
                   (upd_runningTasks
                      (insert (uuids s) (new_task (uuids s) r (now s)))
                      (draw_uuid s)) →
              (∃ e0, promises
                  (resume (uuids s) reply2
                     (resume (uuids s) reply1 (executeTask r s))) !! uuids s
                = Some (Js.Throw e0)) ∧
              frames (resume (uuids s) reply2
                    (resume (uuids s) reply1 (executeTask r s))) !! uuids s
              = None) as Hthrown.
    { intros e Hf Heq. rewrite (resume_thrown _ reply1 _ e Hf).
      rewrite Heq. rewrite resume_idle;
        read_state; rewrite ?lookup_insert_eq, ?lookup_delete_eq; by eauto. }
    destruct (String.eqb task_type "debug_code") eqn:Ed.
    { apply String.eqb_eq in Ed as ->.
      by apply debug_without_files. }
    destruct (workflow_method (Js.Str task_type)) as [name|] eqn:Hm.
    + assert (workflow_body name = None) as Hbody.
      { unfold workflow_method in Hm. cbn [Js.is_str] in Hm.
        apply String.eqb_neq in Hne. rewrite Hne, Ed in Hm.
        repeat match type of Hm with
               | context [String.eqb task_type ?l] =>
                   destruct (String.eqb task_type l);
                   [by injection Hm as <-|]
               end.
        done. }
      pose proof (executeTask_throwing r s (Some name) Hv Hm Hbody) as Heq.
      apply (Hthrown _ ltac:(rewrite Heq; read_state; by rewrite lookup_insert_eq) Heq).
    + pose proof (executeTask_throwing r s None Hv Hm Logic.I) as Heq.
      apply (Hthrown _ ltac:(rewrite Heq; read_state; by rewrite lookup_insert_eq) Heq).
  - rewrite (executeTask_invalid r s Hv).
    assert (frames (catch_ (uuids s) (Js.Error "Invalid task request")
                      (draw_uuid s)) !! uuids s = None) as Hf
      by (read_state; apply (Inv_fresh_frame _ _ _ _ _ I)).
    rewrite (resume_idle _ reply1) by done.
    rewrite (resume_idle _ reply2) by done. split; [|done]. read_state.
    rewrite lookup_insert_eq. by eauto.
Qed.

(** A debug task from the form, submitted in [stalled]. *)
Lemma X29_witness :
  let r := WebInterface.form_taskData "debug_code" "x" "web_app" in
  let s' :=
    run stalled [Submit r; Resume (uuids stalled) (Js.Ok Js.Null);
                 Resume (uuids stalled) (Js.Ok Js.Null)] in
  frames s' !! uuids stalled = None ∧
  ∃ e, promises s' !! uuids stalled = Some (Js.Throw e) ∧
       WebInterface.execute_task_reply (Js.Throw e) =
       ("task_error", Js.Obj [("error", Js.Str (Js.message e))]).
Proof.
  apply (X29_dashboard_tasks_fail_unless_create_project stalled "debug_code"
           "x" "web_app" (Js.Ok Js.Null) (Js.Ok Js.Null)).
  - apply stalled_reachable.
  - discriminate.
Defined.

